(** * Forum: sessions, registration and like/dislike toggles

    A shallow embedding of the storage operations of the forum server
    (package [models], file [internal/models/queries.go]), of the request
    handlers that call them (package [server]), of the connection set-up
    (package [db]) and of the second reaction variant (package [utils],
    file [utils/posts.go]), followed by the properties of the session
    life cycle, of the reaction state machine, of registration and of the
    posts and comments.

    SQL tables are lists of rows in insertion order.  A statement either
    fails as a whole, leaving every table as it was, or takes effect as a
    whole (SQLite statement atomicity); nothing groups two statements
    unless the source opens a transaction. *)

From Stdlib Require Import ZArith List String Ascii Bool Lia DecimalString DecimalPos.
Import ListNotations.
Local Open Scope string_scope.
Local Open Scope Z_scope.
Local Open Scope list_scope.

(** ** Time *)

(** Instants ([time.Time], [CURRENT_TIMESTAMP]) are integers; the unit is
    the nanosecond. *)
Definition Time := Z.
Definition Hour : Z := 3600 * 1000000000.

(** ** Errors *)

(** The values a Go [error] takes in these packages: the three sentinels
    of [models], [sql.ErrNoRows], and an error of the SQLite driver, which
    is known by its message only. *)
Inductive error : Type :=
| ErrDuplicateEmail
| ErrDuplicateUsername
| ErrInvalidCredentials
| ErrNoRows
| SqliteError (msg : string).

Definition Error (e : error) : string :=
  match e with
  | ErrDuplicateEmail => "email already exists"
  | ErrDuplicateUsername => "username already exists"
  | ErrInvalidCredentials => "invalid email or password"
  | ErrNoRows => "sql: no rows in result set"
  | SqliteError msg => msg
  end.

(** [strings.Contains]. *)
Fixpoint contains (s substr : string) : bool :=
  String.prefix substr s
  || match s with
     | EmptyString => false
     | String _ s' => contains s' substr
     end.

(** ** A connection: clock, storage faults, tables *)

(** [now] is what [time.Now()] and [CURRENT_TIMESTAMP] read.  [faults] is
    the environment's schedule of storage failures, one entry per
    statement sent to the database: [Some msg] makes that statement fail
    with the driver error [msg] (disk, lock, time-out), [None] lets it
    run.  An exhausted schedule means no more failures. *)
Record Conn (T : Type) : Type := mkConn {
  now : Time;
  faults : list (option string);
  store : T
}.
Arguments mkConn {T} _ _ _.
Arguments now {T} _.
Arguments faults {T} _.
Arguments store {T} _.

Definition M (T A : Type) : Type := Conn T -> A * Conn T.

Definition next_fault {T} (c : Conn T) : option string * Conn T :=
  match faults c with
  | [] => (None, c)
  | f :: fs => (f, mkConn (now c) fs (store c))
  end.

(** [db.Exec]: one statement; [stmt] is its effect on the tables at the
    current instant, or the message of the constraint it violates. *)
Definition Exec {T} (stmt : Time -> T -> string + T) : M T (option error) :=
  fun c =>
    let (f, c1) := next_fault c in
    match f with
    | Some msg => (Some (SqliteError msg), c1)
    | None =>
        match stmt (now c1) (store c1) with
        | inl msg => (Some (SqliteError msg), c1)
        | inr t' => (None, mkConn (now c1) (faults c1) t')
        end
    end.

(** [db.QueryRow(...).Scan(...)]: the first row of a query, [ErrNoRows]
    when there is none. *)
Definition QueryRow {T A} (query : T -> option A) : M T (error + A) :=
  fun c =>
    let (f, c1) := next_fault c in
    match f with
    | Some msg => (inl (SqliteError msg), c1)
    | None =>
        match query (store c1) with
        | None => (inl ErrNoRows, c1)
        | Some row => (inr row, c1)
        end
    end.

(** The environment moving the clock between two requests. *)
Definition at_time {T} (t : Time) (c : Conn T) : Conn T :=
  mkConn t (faults c) (store c).

(** [db.Query] with the loop over [rows.Next()]: all the rows of a
    query, in the order the model fixes; SQL leaves that order open when
    the query has no ORDER BY. *)
Definition Query {T A} (query : T -> list A) : M T (error + list A) :=
  fun c =>
    let (f, c1) := next_fault c in
    match f with
    | Some msg => (inl (SqliteError msg), c1)
    | None => (inr (query (store c1)), c1)
    end.

(** [db.Begin]: the tables as they are when the transaction starts are
    what a rollback brings back. *)
Definition Begin {T} : M T (option error) :=
  fun c =>
    let (f, c1) := next_fault c in
    match f with
    | Some msg => (Some (SqliteError msg), c1)
    | None => (None, c1)
    end.

(** [tx.Rollback], with its error dropped as the callers do: what was
    not committed leaves no trace. *)
Definition Rollback {T} (saved : T) (c : Conn T) : Conn T :=
  mkConn (now c) (faults c) saved.

(** [tx.Commit]: when the COMMIT fails the driver rolls back. *)
Definition Commit {T} (saved : T) : M T (option error) :=
  fun c =>
    let (f, c1) := next_fault c in
    match f with
    | Some msg => (Some (SqliteError msg), Rollback saved c1)
    | None => (None, c1)
    end.

(** ** Package models: rows *)

Module User.
Record t : Type := mk {
  ID : Z;
  Email : string;
  Username : string;
  PasswordHash : string;
  CreatedAt : Time
}.
End User.

Module Session.
Record t : Type := mk {
  ID : string;
  UserID : Z;
  CreatedAt : Time;
  ExpiresAt : Time;
  RevokedAt : option Time
}.
End Session.

Module Post.
Record t : Type := mk {
  ID : Z;
  UserID : Z;
  Title : string;
  Body : string;
  CreatedAt : Time
}.
End Post.

Module Comment.
Record t : Type := mk {
  ID : Z;
  PostID : Z;
  UserID : Z;
  Body : string;
  CreatedAt : Time
}.
End Comment.

(** A row of [post_likes] or [comment_likes]: the two tables have the
    same shape, [(post_id | comment_id, user_id, value)]. *)
Module Like.
Record t : Type := mk {
  target_id : Z;
  user_id : Z;
  value : Z
}.
End Like.

(** ** The schema of schema.sql

    [foreign_keys] is the connection's [PRAGMA foreign_keys]: the FOREIGN
    KEY clauses of the schema are checked only when it is on.
    [email_index_first] records which of the two UNIQUE indexes of [users]
    SQLite consults first when a row violates both; the sources do not
    fix it, and no property below depends on it.  [users_seq] is the
    AUTOINCREMENT counter of [users]. *)
Record Store : Type := mkStore {
  foreign_keys : bool;
  email_index_first : bool;
  users : list User.t;
  users_seq : Z;
  sessions : list Session.t;
  posts : list Post.t;
  comments : list Comment.t;
  post_likes : list Like.t;
  comment_likes : list Like.t
}.

Definition DB : Type := Conn Store.

Definition with_users (us : list User.t) (seq : Z) (s : Store) : Store :=
  mkStore (foreign_keys s) (email_index_first s) us seq (sessions s)
          (posts s) (comments s) (post_likes s) (comment_likes s).

Definition with_sessions (ss : list Session.t) (s : Store) : Store :=
  mkStore (foreign_keys s) (email_index_first s) (users s) (users_seq s) ss
          (posts s) (comments s) (post_likes s) (comment_likes s).

Definition with_post_likes (ls : list Like.t) (s : Store) : Store :=
  mkStore (foreign_keys s) (email_index_first s) (users s) (users_seq s)
          (sessions s) (posts s) (comments s) ls (comment_likes s).

Definition with_comment_likes (ls : list Like.t) (s : Store) : Store :=
  mkStore (foreign_keys s) (email_index_first s) (users s) (users_seq s)
          (sessions s) (posts s) (comments s) (post_likes s) ls.

Definition with_foreign_keys (b : bool) (s : Store) : Store :=
  mkStore b (email_index_first s) (users s) (users_seq s)
          (sessions s) (posts s) (comments s) (post_likes s) (comment_likes s).

(** The tables right after the schema has been applied to a new file. *)
Definition empty_store (email_first : bool) : Store :=
  mkStore false email_first [] 0 [] [] [] [] [].

Definition user_exists (id : Z) (s : Store) : bool :=
  existsb (fun u => User.ID u =? id) (users s).

Definition post_exists (id : Z) (s : Store) : bool :=
  existsb (fun p => Post.ID p =? id) (posts s).

Definition comment_exists (id : Z) (s : Store) : bool :=
  existsb (fun c => Comment.ID c =? id) (comments s).

Definition fk_failed : string := "FOREIGN KEY constraint failed".

Module Category.
Record t : Type := mk {
  ID : Z;
  Name : string
}.
End Category.

(** The whole database of schema.sql: the tables above, the categories,
    the post_categories pairs (post_id, category_id), and the
    AUTOINCREMENT counters of posts and comments. *)
Record Forum : Type := mkForum {
  main : Store;
  posts_seq : Z;
  comments_seq : Z;
  categories : list Category.t;
  post_categories : list (Z * Z)
}.

Definition with_posts (ps : list Post.t) (s : Store) : Store :=
  mkStore (foreign_keys s) (email_index_first s) (users s) (users_seq s)
          (sessions s) ps (comments s) (post_likes s) (comment_likes s).

Definition with_comments (cs : list Comment.t) (s : Store) : Store :=
  mkStore (foreign_keys s) (email_index_first s) (users s) (users_seq s)
          (sessions s) (posts s) cs (post_likes s) (comment_likes s).

(** The rowid AUTOINCREMENT gives a new row: one more than the largest
    the table holds or has ever held. *)
Definition next_rowid (seq : Z) (ids : list Z) : Z :=
  fold_right Z.max seq ids + 1.

(** The three categories schema.sql seeds. *)
Definition seed_categories : list Category.t :=
  [Category.mk 1 "golang"; Category.mk 2 "sqlite"; Category.mk 3 "general"].

Definition empty_forum (email_first : bool) : Forum :=
  mkForum (empty_store email_first) 0 0 seed_categories [].

(** ** Package db *)

Module db.

(** [Open]: [sql.Open("sqlite3", path)] and [migrate].  The data source
    name is the bare path and [migrate] runs schema.sql only, which holds
    no PRAGMA: the connection keeps SQLite's default, foreign keys off.
    Every table is created IF NOT EXISTS, so the rows of [file] stay. *)
Definition Open (file : Store) (t : Time) (fs : list (option string)) : DB :=
  mkConn t fs (with_foreign_keys false file).

End db.

(** ** Package models: queries.go *)

Module models.

Definition unique_email : string := "UNIQUE constraint failed: users.email".
Definition unique_username : string := "UNIQUE constraint failed: users.username".
Definition unique_session : string := "UNIQUE constraint failed: sessions.id".

Definition email_taken (email : string) (s : Store) : bool :=
  existsb (fun u => String.eqb (User.Email u) email) (users s).

Definition username_taken (username : string) (s : Store) : bool :=
  existsb (fun u => String.eqb (User.Username u) username) (users s).

(** [INSERT INTO users (email, username, password_hash) VALUES (?, ?, ?)]:
    both columns are UNIQUE; the id is the next AUTOINCREMENT value and
    created_at defaults to CURRENT_TIMESTAMP. *)
Definition insert_user (email username passwordHash : string)
    (t : Time) (s : Store) : string + Store :=
  let row := User.mk (users_seq s + 1) email username passwordHash t in
  let ok := inr (with_users (users s ++ [row]) (users_seq s + 1) s) in
  if email_index_first s then
    if email_taken email s then inl unique_email
    else if username_taken username s then inl unique_username
    else ok
  else
    if username_taken username s then inl unique_username
    else if email_taken email s then inl unique_email
    else ok.

Definition CreateUser (email username passwordHash : string)
    : M Store (option error) :=
  fun c =>
    let (err, c1) := Exec (insert_user email username passwordHash) c in
    match err with
    | Some e =>
        let str := Error e in
        if negb (String.eqb str "") then
          if contains str "UNIQUE constraint failed: users.email"
          then (Some ErrDuplicateEmail, c1)
          else if contains str "UNIQUE constraint failed: users.username"
          then (Some ErrDuplicateUsername, c1)
          else (err, c1)
        else (err, c1)
    | None => (err, c1)
    end.

(** [SELECT ... FROM users WHERE email = ?]. *)
Definition GetUserByEmail (email : string) : M Store (error + User.t) :=
  QueryRow (fun s => find (fun u => String.eqb (User.Email u) email) (users s)).

Definition is_null {A} (o : option A) : bool :=
  match o with None => true | Some _ => false end.

Definition revoke (t : Time) (x : Session.t) : Session.t :=
  Session.mk (Session.ID x) (Session.UserID x) (Session.CreatedAt x)
             (Session.ExpiresAt x) (Some t).

(** [UPDATE sessions SET revoked_at = CURRENT_TIMESTAMP
     WHERE user_id = ? AND revoked_at IS NULL]. *)
Definition revoke_existing (userID : Z) (t : Time) (s : Store) : string + Store :=
  inr (with_sessions
         (map (fun x => if (Session.UserID x =? userID) && is_null (Session.RevokedAt x)
                        then revoke t x else x)
              (sessions s)) s).

Definition session_known (id : string) (s : Store) : bool :=
  existsb (fun x => String.eqb (Session.ID x) id) (sessions s).

(** [INSERT INTO sessions (id, user_id, expires_at) VALUES (?, ?, ?)]:
    [id] is the primary key, created_at defaults to CURRENT_TIMESTAMP and
    revoked_at to NULL. *)
Definition insert_session (sessionID : string) (userID : Z) (expires : Time)
    (t : Time) (s : Store) : string + Store :=
  if session_known sessionID s then inl unique_session
  else if foreign_keys s && negb (user_exists userID s) then inl fk_failed
  else inr (with_sessions
              (sessions s ++ [Session.mk sessionID userID t expires None]) s).

Definition CreateSession (userID : Z) (sessionID : string) (expires : Time)
    : M Store (option error) :=
  fun c =>
    (* revoke existing *)
    let (err, c1) := Exec (revoke_existing userID) c in
    match err with
    | Some _ => (err, c1)
    | None => Exec (insert_session sessionID userID expires) c1
    end.

(** [SELECT ... FROM sessions WHERE id = ?]; a NULL revoked_at is the nil
    pointer. *)
Definition GetSession (id : string) : M Store (error + Session.t) :=
  QueryRow (fun s => find (fun x => String.eqb (Session.ID x) id) (sessions s)).

Definition same_key (target user : Z) (r : Like.t) : bool :=
  (Like.target_id r =? target) && (Like.user_id r =? user).

(** [INSERT INTO t (target, user_id, value) VALUES (?, ?, ?)
     ON CONFLICT(target, user_id) DO UPDATE SET value =
       CASE WHEN t.value = ? THEN 0 ELSE ? END]
    with the three value parameters equal.  A row with the key is
    rewritten in place (its key columns are not touched, so no foreign
    key is looked at); otherwise the row is appended. *)
Definition upsert (target user value : Z) (rows : list Like.t) : list Like.t :=
  if existsb (same_key target user) rows then
    map (fun r => if same_key target user r
                  then Like.mk (Like.target_id r) (Like.user_id r)
                               (if Like.value r =? value then 0 else value)
                  else r) rows
  else rows ++ [Like.mk target user value].

Definition toggle_post_like (postID userID value : Z) (t : Time) (s : Store)
    : string + Store :=
  if negb (existsb (same_key postID userID) (post_likes s))
     && foreign_keys s
     && negb (post_exists postID s && user_exists userID s)
  then inl fk_failed
  else inr (with_post_likes (upsert postID userID value (post_likes s)) s).

Definition toggle_comment_like (commentID userID value : Z) (t : Time) (s : Store)
    : string + Store :=
  if negb (existsb (same_key commentID userID) (comment_likes s))
     && foreign_keys s
     && negb (comment_exists commentID s && user_exists userID s)
  then inl fk_failed
  else inr (with_comment_likes (upsert commentID userID value (comment_likes s)) s).

Definition TogglePostLike (postID userID value : Z) : M Store (option error) :=
  Exec (toggle_post_like postID userID value).

Definition ToggleCommentLike (commentID userID value : Z) : M Store (option error) :=
  Exec (toggle_comment_like commentID userID value).

(** *** Posts and comments *)

Definition unique_post_category : string :=
  "UNIQUE constraint failed: post_categories.post_id, post_categories.category_id".

Definition category_exists (id : Z) (f : Forum) : bool :=
  existsb (fun k => Category.ID k =? id) (categories f).

(** [INSERT INTO posts (user_id, title, body) VALUES (?, ?, ?)]. *)
Definition insert_post (userID : Z) (title body : string) (t : Time) (f : Forum)
    : string + Forum :=
  if foreign_keys (main f) && negb (user_exists userID (main f)) then inl fk_failed
  else
    let id := next_rowid (posts_seq f) (map Post.ID (posts (main f))) in
    inr (mkForum (with_posts (posts (main f) ++ [Post.mk id userID title body t]) (main f))
                 id (comments_seq f) (categories f) (post_categories f)).

(** [INSERT INTO post_categories (post_id, category_id) VALUES (?, ?)]:
    the pair is the primary key. *)
Definition insert_post_category (postID cid : Z) (t : Time) (f : Forum)
    : string + Forum :=
  if existsb (fun pc => (fst pc =? postID) && (snd pc =? cid)) (post_categories f)
  then inl unique_post_category
  else if foreign_keys (main f)
          && negb (post_exists postID (main f) && category_exists cid f)
  then inl fk_failed
  else inr (mkForum (main f) (posts_seq f) (comments_seq f) (categories f)
                    (post_categories f ++ [(postID, cid)])).

(** The loop of [CreatePost] over the category ids: it stops at the
    first statement that fails. *)
Fixpoint insert_categories (postID : Z) (categoryIDs : list Z)
    : M Forum (option error) :=
  fun c =>
    match categoryIDs with
    | [] => (None, c)
    | cid :: rest =>
        let (err, c1) := Exec (insert_post_category postID cid) c in
        match err with
        | Some _ => (err, c1)
        | None => insert_categories postID rest c1
        end
    end.

(** [res.LastInsertId()] after the INSERT into posts is the counter the
    INSERT has just advanced. *)
Definition CreatePost (userID : Z) (title body : string) (categoryIDs : list Z)
    : M Forum (Z * option error) :=
  fun c =>
    let (err, c1) := Begin c in
    match err with
    | Some _ => ((0, err), c1)
    | None =>
        let saved := store c1 in
        let (err, c2) := Exec (insert_post userID title body) c1 in
        match err with
        | Some _ => ((0, err), Rollback saved c2)
        | None =>
            let postID := posts_seq (store c2) in
            let (err, c3) := insert_categories postID categoryIDs c2 in
            match err with
            | Some _ => ((0, err), Rollback saved c3)
            | None =>
                let (err, c4) := Commit saved c3 in
                ((postID, err), c4)
            end
        end
    end.

(** [SELECT p.* FROM posts p], joined with post_categories on the post
    id and filtered on the category when one is given: one result row
    per matching pair. *)
Definition ListPosts (categoryID : option Z) : M Forum (error + list Post.t) :=
  Query (fun f =>
    match categoryID with
    | None => posts (main f)
    | Some cid =>
        flat_map (fun p =>
                    map (fun _ => p)
                        (filter (fun pc => (fst pc =? Post.ID p) && (snd pc =? cid))
                                (post_categories f)))
                 (posts (main f))
    end).

(** The categories of a post: categories joined with post_categories on
    the category id, for the pairs of the post. *)
Definition categories_of (id : Z) (f : Forum) : list Category.t :=
  flat_map (fun pc => filter (fun k => Category.ID k =? snd pc) (categories f))
           (filter (fun pc => fst pc =? id) (post_categories f)).

(** The [Categories] field of the Go struct is the second component of
    the result.  An error of the second query is dropped: the post comes
    back without categories. *)
Definition GetPost (id : Z) : M Forum (error + Post.t * list Category.t) :=
  fun c =>
    let (got, c1) := QueryRow (fun f => find (fun p => Post.ID p =? id) (posts (main f))) c in
    match got with
    | inl e => (inl e, c1)
    | inr p =>
        (* categories *)
        let (rows, c2) := Query (categories_of id) c1 in
        match rows with
        | inl _ => (inr (p, []), c2)
        | inr ks => (inr (p, ks), c2)
        end
    end.

(** [INSERT INTO comments (post_id, user_id, body) VALUES (?, ?, ?)]. *)
Definition insert_comment (postID userID : Z) (body : string) (t : Time) (f : Forum)
    : string + Forum :=
  if foreign_keys (main f)
     && negb (post_exists postID (main f) && user_exists userID (main f))
  then inl fk_failed
  else
    let id := next_rowid (comments_seq f) (map Comment.ID (comments (main f))) in
    inr (mkForum (with_comments (comments (main f) ++ [Comment.mk id postID userID body t])
                                (main f))
                 (posts_seq f) id (categories f) (post_categories f)).

Definition CreateComment (postID userID : Z) (body : string) : M Forum (option error) :=
  Exec (insert_comment postID userID body).

(** [SELECT ... FROM comments WHERE post_id = ?]. *)
Definition ListComments (postID : Z) : M Forum (error + list Comment.t) :=
  Query (fun f => filter (fun k => Comment.PostID k =? postID) (comments (main f))).

End models.

(** ** Package server: requests, responses and handlers *)

Module server.

Record Cookie : Type := mkCookie {
  Name : string;
  Value : string;
  Path : string;
  Expires : option Time;
  MaxAge : Z;
  HttpOnly : bool
}.

Record Request : Type := mkRequest {
  Method : string;
  Cookies : list (string * string);
  Form : list (string * string)
}.

(** What a page shows is the template engine's business; a rendered page
    is known by its template name. *)
Inductive body : Type :=
| Empty
| Text (msg : string)
| Page (name : string).

(** The [http.ResponseWriter] after the handler has returned. *)
Record Response : Type := mkResponse {
  Code : Z;
  Location : string;
  Body : body;
  SetCookies : list Cookie
}.

Definition StatusSeeOther : Z := 303.
Definition StatusMethodNotAllowed : Z := 405.
Definition MethodGet : string := "GET".
Definition MethodPost : string := "POST".

Definition blank : Response := mkResponse 200 "" Empty [].

Definition http_Error (msg : string) (code : Z) (w : Response) : Response :=
  mkResponse code (Location w) (Text msg) (SetCookies w).

Definition http_Redirect (url : string) (code : Z) (w : Response) : Response :=
  mkResponse code url (Body w) (SetCookies w).

Definition http_SetCookie (ck : Cookie) (w : Response) : Response :=
  mkResponse (Code w) (Location w) (Body w) (SetCookies w ++ [ck]).

Definition render (name : string) (w : Response) : Response :=
  mkResponse (Code w) (Location w) (Page name) (SetCookies w).

Fixpoint assoc (k : string) (l : list (string * string)) : option string :=
  match l with
  | [] => None
  | (k', v) :: l' => if String.eqb k' k then Some v else assoc k l'
  end.

(** [r.Cookie(name)]: [None] stands for [http.ErrNoCookie]. *)
Definition Request_Cookie (r : Request) (name : string) : option string :=
  assoc name (Cookies r).

Definition FormValue (r : Request) (key : string) : string :=
  match assoc key (Form r) with
  | Some v => v
  | None => ""
  end.

(** The cookie name [New] gives every server. *)
Definition CookieName : string := "session_id".

(** *** strconv *)

Definition maxUint64 : Z := 2 ^ 64 - 1.

Definition digit (c : ascii) : option Z :=
  let n := Z.of_N (N_of_ascii c) in
  if (48 <=? n) && (n <=? 57) then Some (n - 48) else None.

Inductive parsed : Type :=
| SyntaxError
| RangeError
| Parsed (n : Z).

(** The loop of [strconv.ParseUint(s, 10, 64)]. *)
Fixpoint ParseUint_from (n : Z) (s : string) : parsed :=
  match s with
  | EmptyString => Parsed n
  | String c s' =>
      match digit c with
      | None => SyntaxError
      | Some d =>
          if n >=? maxUint64 / 10 + 1 then RangeError
          else if n * 10 + d >? maxUint64 then RangeError
          else ParseUint_from (n * 10 + d) s'
      end
  end.

Definition ParseUint (s : string) : parsed :=
  match s with
  | EmptyString => SyntaxError
  | _ => ParseUint_from 0 s
  end.

(** [strconv.Atoi] on a 64-bit platform, as the pair of its results (the
    flag says that the error is not nil): a syntax error gives 0, a range
    error the nearest bound.  Its short-string fast path gives the same
    results. *)
Definition Atoi (s : string) : Z * bool :=
  let '(neg, digits) :=
    match s with
    | String "+" s' => (false, s')
    | String "-" s' => (true, s')
    | _ => (false, s)
    end in
  match s with
  | EmptyString => (0, true)
  | _ =>
      let cutoff := 2 ^ 63 in
      let un := match ParseUint digits with
                | SyntaxError => None
                | RangeError => Some maxUint64
                | Parsed n => Some n
                end in
      match un with
      | None => (0, true)
      | Some un =>
          if negb neg && (un >=? cutoff) then (cutoff - 1, true)
          else if neg && (un >? cutoff) then (- cutoff, true)
          else (if neg then - un else un, false)
      end
  end.

Definition atoi (s : string) : Z := fst (Atoi s).

Definition itoa (i : Z) : string :=
  DecimalString.NilZero.string_of_int (Z.to_int i).

(** *** middleware *)

Definition is_nil {A} (o : option A) : bool :=
  match o with None => true | Some _ => false end.

Definition currentUser (r : Request) : M Store (option User.t) :=
  fun c =>
    match Request_Cookie r CookieName with
    | None => (None, c)
    | Some value =>
        let (got, c1) := models.GetSession value c in
        match got with
        | inl _ => (None, c1)
        | inr sess =>
            if negb (is_nil (Session.RevokedAt sess))
               || (Session.ExpiresAt sess <? now c1)
            then (None, c1)
            else
              let (row, c2) :=
                QueryRow (fun s => find (fun u => User.ID u =? Session.UserID sess)
                                        (users s)) c1 in
              match row with
              | inl _ => (None, c2)
              | inr u => (Some u, c2)
              end
        end
    end.

Definition requireAuth (next : Response -> Request -> User.t -> M Store Response)
    (w : Response) (r : Request) : M Store Response :=
  fun c =>
    let (user, c1) := currentUser r c in
    match user with
    | None => (http_Redirect "/login" StatusSeeOther w, c1)
    | Some u => next w r u c1
    end.

(** *** handlers *)

Section Handlers.

(** [bcrypt]: [CompareHashAndPassword hash password] holds when the
    library returns nil. *)
Variable GenerateFromPassword : string -> string.
Variable CompareHashAndPassword : string -> string -> bool.

Definition handleRegister (w : Response) (r : Request) : M Store Response :=
  fun c =>
    if String.eqb (Method r) MethodGet then
      let (_, c1) := currentUser r c in (render "register" w, c1)
    else if String.eqb (Method r) MethodPost then
      let email := FormValue r "email" in
      let username := FormValue r "username" in
      let password := FormValue r "password" in
      if String.eqb email "" || String.eqb username "" || String.eqb password ""
      then (http_Error "missing fields" 400 w, c)
      else
        let hash := GenerateFromPassword password in
        let (err, c1) := models.CreateUser email username hash c in
        match err with
        | Some e => (http_Error (Error e) 400 w, c1)
        | None => (http_Redirect "/login" StatusSeeOther w, c1)
        end
    else (http_Error "method not allowed" StatusMethodNotAllowed w, c).

(** [sid] is what [uuid.NewString()] returns for this request. *)
Definition handleLogin (sid : string) (w : Response) (r : Request)
    : M Store Response :=
  fun c =>
    if String.eqb (Method r) MethodGet then
      let (_, c1) := currentUser r c in (render "login" w, c1)
    else if String.eqb (Method r) MethodPost then
      let email := FormValue r "email" in
      let password := FormValue r "password" in
      let (got, c1) := models.GetUserByEmail email c in
      match got with
      | inl _ => (http_Error "invalid email or password" 400 w, c1)
      | inr user =>
          if negb (CompareHashAndPassword (User.PasswordHash user) password)
          then (http_Error "invalid email or password" 400 w, c1)
          else
            let expires := now c1 + 24 * Hour in
            let (err, c2) := models.CreateSession (User.ID user) sid expires c1 in
            match err with
            | Some _ => (http_Error "could not create session" 500 w, c2)
            | None =>
                let w1 := http_SetCookie
                            (mkCookie CookieName sid "/" (Some expires) 0 true) w in
                (http_Redirect "/" StatusSeeOther w1, c2)
            end
      end
    else (http_Error "method not allowed" StatusMethodNotAllowed w, c).

End Handlers.

(** [UPDATE sessions SET revoked_at = CURRENT_TIMESTAMP WHERE id = ?]. *)
Definition revoke_session (id : string) (t : Time) (s : Store) : string + Store :=
  inr (with_sessions
         (map (fun x => if String.eqb (Session.ID x) id then models.revoke t x else x)
              (sessions s)) s).

Definition handleLogout (w : Response) (r : Request) : M Store Response :=
  fun c =>
    if negb (String.eqb (Method r) MethodPost)
    then (http_Error "method not allowed" StatusMethodNotAllowed w, c)
    else
      match Request_Cookie r CookieName with
      | Some value =>
          let (_, c1) := Exec (revoke_session value) c in
          let w1 := http_SetCookie (mkCookie CookieName "" "/" None (-1) false) w in
          (http_Redirect "/" StatusSeeOther w1, c1)
      | None => (http_Redirect "/" StatusSeeOther w, c)
      end.

Definition handlePostLike (w : Response) (r : Request) (user : User.t)
    : M Store Response :=
  fun c =>
    if negb (String.eqb (Method r) MethodPost)
    then (http_Error "method not allowed" StatusMethodNotAllowed w, c)
    else
      let postID := atoi (FormValue r "post_id") in
      let value := atoi (FormValue r "value") in
      if negb (value =? 1) && negb (value =? -1)
      then (http_Error "invalid value" 400 w, c)
      else
        let (err, c1) := models.TogglePostLike postID (User.ID user) value c in
        match err with
        | Some _ => (http_Error "could not toggle" 500 w, c1)
        | None => (http_Redirect ("/post?id=" ++ itoa postID)%string StatusSeeOther w, c1)
        end.

(** [r.Form[key]]: every value the form holds for the key, in order. *)
Definition FormValues (r : Request) (key : string) : list string :=
  map snd (filter (fun kv => String.eqb (fst kv) key) (Form r)).

(** The category ids of the new-post form: the values that [atoi] reads
    as a positive number. *)
Definition form_categories (r : Request) : list Z :=
  filter (fun id => id >? 0) (map atoi (FormValues r "categories")).

Definition handleNewPost (w : Response) (r : Request) (user : User.t)
    : M Forum Response :=
  fun c =>
    if String.eqb (Method r) MethodGet then (render "new_post" w, c)
    else if String.eqb (Method r) MethodPost then
      let title := FormValue r "title" in
      let body := FormValue r "body" in
      if String.eqb title "" || String.eqb body ""
      then (http_Error "missing fields" 400 w, c)
      else
        let categoryIDs := form_categories r in
        let (res, c1) := models.CreatePost (User.ID user) title body categoryIDs c in
        match snd res with
        | Some _ => (http_Error "could not create post" 500 w, c1)
        | None => (http_Redirect "/" StatusSeeOther w, c1)
        end
    else (http_Error "method not allowed" StatusMethodNotAllowed w, c).

Definition handleComment (w : Response) (r : Request) (user : User.t)
    : M Forum Response :=
  fun c =>
    if negb (String.eqb (Method r) MethodPost)
    then (http_Error "method not allowed" StatusMethodNotAllowed w, c)
    else
      let postID := atoi (FormValue r "post_id") in
      let body := FormValue r "body" in
      if String.eqb body ""
      then (http_Error "missing body" 400 w, c)
      else
        let (err, c1) := models.CreateComment postID (User.ID user) body c in
        match err with
        | Some _ => (http_Error "could not create comment" 500 w, c1)
        | None => (http_Redirect ("/post?id=" ++ itoa postID)%string StatusSeeOther w, c1)
        end.

End server.

(** ** Package utils: posts.go *)

Module utils.

(** Modelled from the spec: the declaration of the [interactions] table
    is not among the sources.  It is the table keyed by two boolean
    columns of the delete-then-insert variant: a row holds the four
    columns the two statements of [ToggleLike] name, and no constraint is
    put on it (a statement can still fail through the fault schedule). *)
Record Interaction : Type := mkInteraction {
  user_uuid : string;
  post_id : Z;
  liked : bool;
  disliked : bool
}.

Definition DataBase : Type := Conn (list Interaction).

Definition same_pair (userUUID : string) (postID : Z) (i : Interaction) : bool :=
  String.eqb (user_uuid i) userUUID && (post_id i =? postID).

(** [DELETE FROM interactions WHERE user_uuid = ? AND post_id = ?]. *)
Definition delete_interactions (userUUID : string) (postID : Z)
    (t : Time) (rows : list Interaction) : string + list Interaction :=
  inr (filter (fun i => negb (same_pair userUUID postID i)) rows).

(** [INSERT INTO interactions (user_uuid, post_id, liked, disliked)
     VALUES (?, ?, ?, ?)]. *)
Definition insert_interaction (userUUID : string) (postID : Z) (l d : bool)
    (t : Time) (rows : list Interaction) : string + list Interaction :=
  inr (rows ++ [mkInteraction userUUID postID l d]).

(** The write lock is held for the whole call: calls do not interleave. *)
Definition ToggleLike (userUUID : string) (postID : Z) (like : bool)
    : M (list Interaction) (option error) :=
  fun c =>
    let (err, c1) := Exec (delete_interactions userUUID postID) c in
    match err with
    | Some _ => (err, c1)
    | None =>
        let liked := if like then true else false in
        let disliked := if like then false else true in
        Exec (insert_interaction userUUID postID liked disliked) c1
    end.

End utils.

(** ** Reactions as the specification reads them *)

Inductive Stance : Type := Neutral | Liked | Disliked.
Inductive Event : Type := PressLike | PressDislike.

(** The value a button sends: the handler accepts 1 and -1 only. *)
Definition event_value (e : Event) : Z :=
  match e with PressLike => 1 | PressDislike => -1 end.

Definition requested (e : Event) : Stance :=
  match e with PressLike => Liked | PressDislike => Disliked end.

(** The table of the specification, row by row. *)
Definition spec_transition (s : Stance) (e : Event) : Stance :=
  match s, e with
  | Neutral, PressLike => Liked
  | Neutral, PressDislike => Disliked
  | Liked, PressLike => Neutral
  | Liked, PressDislike => Disliked
  | Disliked, PressLike => Liked
  | Disliked, PressDislike => Neutral
  end.

(** The value column read as a stance: 1 is a like, -1 a dislike, and
    anything else (the 0 the CASE writes) counts for neither. *)
Definition stance_of_value (v : Z) : Stance :=
  if v =? 1 then Liked else if v =? -1 then Disliked else Neutral.

(** The value of the row for the pair, when there is one. *)
Definition like_row (target user : Z) (rows : list Like.t) : option Z :=
  option_map Like.value (find (models.same_key target user) rows).

(** The stance of [user] on [target]: no row means neutral. *)
Definition stance (target user : Z) (rows : list Like.t) : Stance :=
  match like_row target user rows with
  | None => Neutral
  | Some v => stance_of_value v
  end.

(** Some row records a like (resp. a dislike) of [user] on [target]. *)
Definition holds_like (target user : Z) (rows : list Like.t) : bool :=
  existsb (fun r => models.same_key target user r && (Like.value r =? 1)) rows.

Definition holds_dislike (target user : Z) (rows : list Like.t) : bool :=
  existsb (fun r => models.same_key target user r && (Like.value r =? -1)) rows.

(** The primary key of a likes table. *)
Definition like_key (r : Like.t) : Z * Z := (Like.target_id r, Like.user_id r).

Definition Stance_eqb (a b : Stance) : bool :=
  match a, b with
  | Neutral, Neutral | Liked, Liked | Disliked, Disliked => true
  | _, _ => false
  end.

(** The toggle rule in the words of the specification: the same stance
    again goes back to neutral, anything else goes to the requested
    stance. *)
Definition spec_toggle (s : Stance) (e : Event) : Stance :=
  if Stance_eqb s (requested e) then Neutral else requested e.

(** A toggle request on either kind of target. *)
Inductive toggle : Type :=
| OnPost (postID userID value : Z)
| OnComment (commentID userID value : Z).

Definition toggle_value (o : toggle) : Z :=
  match o with OnPost _ _ v => v | OnComment _ _ v => v end.

Definition do_toggle (o : toggle) : M Store (option error) :=
  match o with
  | OnPost p u v => models.TogglePostLike p u v
  | OnComment k u v => models.ToggleCommentLike k u v
  end.

(** The presses of one user on one post, resp. one comment. *)
Definition post_presses (postID userID : Z) (es : list Event) : list toggle :=
  map (fun e => OnPost postID userID (event_value e)) es.

Definition comment_presses (commentID userID : Z) (es : list Event) : list toggle :=
  map (fun e => OnComment commentID userID (event_value e)) es.

(** A button pressed by a user on a post or on a comment. *)
Inductive button : Type :=
| PostButton (postID userID : Z) (e : Event)
| CommentButton (commentID userID : Z) (e : Event).

Definition button_toggle (b : button) : toggle :=
  match b with
  | PostButton p u e => OnPost p u (event_value e)
  | CommentButton k u e => OnComment k u (event_value e)
  end.

(** The values a likes table holds once buttons have been pressed. *)
Definition stored_value (r : Like.t) : Prop :=
  Like.value r = 1 \/ Like.value r = -1 \/ Like.value r = 0.

(** The key of a row of the interactions table. *)
Definition pair_key (i : utils.Interaction) : string * Z :=
  (utils.user_uuid i, utils.post_id i).

(** A sequence of toggle calls, whatever each of them returns. *)
Fixpoint run_toggles (ops : list toggle) (c : DB) : DB :=
  match ops with
  | [] => c
  | o :: ops' => run_toggles ops' (snd (do_toggle o c))
  end.

(** ** Sessions as the specification reads them *)

(** The rows of [u] whose revoked_at is NULL. *)
Definition unrevoked (u : Z) (s : Store) : list Session.t :=
  filter (fun x => (Session.UserID x =? u) && models.is_null (Session.RevokedAt x))
         (sessions s).

(** One issuance: the instant of the call, the fresh token, its expiry. *)
Record issue : Type := mkIssue {
  issue_at : Time;
  issue_id : string;
  issue_expires : Time
}.

Definition do_issue (u : Z) (i : issue) : M Store (option error) :=
  fun c => models.CreateSession u (issue_id i) (issue_expires i) (at_time (issue_at i) c).

(** A sequence of issuances for one user: the errors returned, in order,
    and the final connection. *)
Fixpoint run_issues (u : Z) (calls : list issue) (c : DB) : list (option error) * DB :=
  match calls with
  | [] => ([], c)
  | i :: calls' =>
      let (e, c1) := do_issue u i c in
      let (es, c2) := run_issues u calls' c1 in
      (e :: es, c2)
  end.

Definition session_of (u : Z) (i : issue) : Session.t :=
  Session.mk (issue_id i) u (issue_at i) (issue_expires i) None.

(** [revoke(token)] is the storage statement of the logout handler. *)
Definition revoke_token (token : string) : M Store (option error) :=
  Exec (server.revoke_session token).

(** What validation answers for a cookie-borne token. *)
Definition validate (token : string) (c : DB) : option User.t :=
  fst (server.currentUser (server.mkRequest server.MethodGet
                             [(server.CookieName, token)] []) c).

(** The row a token names, and the row of a user id. *)
Definition session_row (token : string) (s : Store) : option Session.t :=
  find (fun x => String.eqb (Session.ID x) token) (sessions s).

Definition user_row (id : Z) (s : Store) : option User.t :=
  find (fun u => User.ID u =? id) (users s).

(** The UPDATE of [CreateSession] on one row. *)
Definition revoke_if_active (u : Z) (t : Time) (x : Session.t) : Session.t :=
  if (Session.UserID x =? u) && models.is_null (Session.RevokedAt x)
  then models.revoke t x else x.

(** ** Interactions of the delete-then-insert variant *)

Definition interactions_of (userUUID : string) (postID : Z)
    (rows : list utils.Interaction) : list utils.Interaction :=
  filter (utils.same_pair userUUID postID) rows.

Record press : Type := mkPress {
  press_user : string;
  press_post : Z;
  press_like : bool
}.

Fixpoint run_presses (ps : list press) (c : utils.DataBase) : utils.DataBase :=
  match ps with
  | [] => c
  | p :: ps' =>
      run_presses ps' (snd (utils.ToggleLike (press_user p) (press_post p) (press_like p) c))
  end.

Definition u_holds_like (userUUID : string) (postID : Z)
    (rows : list utils.Interaction) : bool :=
  existsb (fun i => utils.same_pair userUUID postID i && utils.liked i) rows.

Definition u_holds_dislike (userUUID : string) (postID : Z)
    (rows : list utils.Interaction) : bool :=
  existsb (fun i => utils.same_pair userUUID postID i && utils.disliked i) rows.

(** How a pair is counted when posts are read back ([GetPosts]): a row
    with [liked] goes to the likes, else one with [disliked] to the
    dislikes. *)
Definition u_stance (userUUID : string) (postID : Z)
    (rows : list utils.Interaction) : Stance :=
  if u_holds_like userUUID postID rows then Liked
  else if u_holds_dislike userUUID postID rows then Disliked
  else Neutral.

(** ** Session traffic *)

(** A login that reaches [CreateSession] and a logout that reaches the
    UPDATE of the handler, each at its instant. *)
Inductive session_op : Type :=
| Login (at_ : Time) (userID : Z) (sessionID : string) (expires : Time)
| Logout (at_ : Time) (token : string).

Definition do_session_op (o : session_op) (c : DB) : DB :=
  match o with
  | Login t u sid expires => snd (models.CreateSession u sid expires (at_time t c))
  | Logout t token => snd (revoke_token token (at_time t c))
  end.

Fixpoint run_session_ops (ops : list session_op) (c : DB) : DB :=
  match ops with
  | [] => c
  | o :: ops' => run_session_ops ops' (do_session_op o c)
  end.

(** Two rows that differ at most in revoked_at, the second revoked when
    the first is. *)
Definition same_grant (x y : Session.t) : Prop :=
  Session.ID y = Session.ID x /\
  Session.UserID y = Session.UserID x /\
  Session.CreatedAt y = Session.CreatedAt x /\
  Session.ExpiresAt y = Session.ExpiresAt x /\
  (Session.RevokedAt x <> None -> Session.RevokedAt y <> None).


(** ** Registration traffic *)

Record registration : Type := mkRegistration {
  reg_email : string;
  reg_username : string;
  reg_hash : string
}.

Fixpoint run_registrations (rs : list registration) (c : DB) : DB :=
  match rs with
  | [] => c
  | r :: rs' =>
      run_registrations rs'
        (snd (models.CreateUser (reg_email r) (reg_username r) (reg_hash r) c))
  end.

(** What the schema asks of [users]: unique emails, unique usernames,
    unique ids, none above the AUTOINCREMENT counter. *)
Definition users_ok (s : Store) : Prop :=
  NoDup (map User.Email (users s)) /\
  NoDup (map User.Username (users s)) /\
  NoDup (map User.ID (users s)) /\
  Forall (fun u => User.ID u <= users_seq s) (users s).

(** The form a browser posts to /register and to /login. *)
Definition register_form (email username password : string) : server.Request :=
  server.mkRequest server.MethodPost []
    [("email", email); ("username", username); ("password", password)].

Definition login_form (email password : string) : server.Request :=
  server.mkRequest server.MethodPost [] [("email", email); ("password", password)].

(** ** Requests and the session they carry *)

(** The request carries a token whose row is neither revoked nor past
    its expiry at instant [t]. *)
Definition session_live (r : server.Request) (t : Time) (s : Store) : bool :=
  match server.Request_Cookie r server.CookieName with
  | None => false
  | Some token =>
      match session_row token s with
      | None => false
      | Some sess => models.is_null (Session.RevokedAt sess) && (t <=? Session.ExpiresAt sess)
      end
  end.

(** Requests reaching the like handler, each with the user the
    middleware resolved. *)
Fixpoint run_like_requests (rs : list (server.Request * User.t)) (c : DB) : DB :=
  match rs with
  | [] => c
  | (r, user) :: rs' =>
      run_like_requests rs' (snd (server.handlePostLike server.blank r user c))
  end.

(** ** Posts and comments as a reader sees them *)

(** Every pair of post_categories names a post of the table. *)
Definition pairs_name_posts (f : Forum) : Prop :=
  Forall (fun pc => post_exists (fst pc) (main f) = true) (post_categories f).

(** The id [CreatePost] gives the next post. *)
Definition next_post_id (f : Forum) : Z :=
  next_rowid (posts_seq f) (map Post.ID (posts (main f))).

(** Requests reaching the two writing handlers behind the middleware,
    each with the user the middleware resolved. *)
Inductive write_request : Type :=
| NewPost (r : server.Request) (user : User.t)
| NewComment (r : server.Request) (user : User.t).

Definition do_write (q : write_request) (c : Conn Forum) : Conn Forum :=
  match q with
  | NewPost r user => snd (server.handleNewPost server.blank r user c)
  | NewComment r user => snd (server.handleComment server.blank r user c)
  end.

Fixpoint run_writes (qs : list write_request) (c : Conn Forum) : Conn Forum :=
  match qs with
  | [] => c
  | q :: qs' => run_writes qs' (do_write q c)
  end.

(** No post without a title or a body, no comment without a body. *)
Definition nothing_blank (f : Forum) : Prop :=
  Forall (fun p => Post.Title p <> "" /\ Post.Body p <> "") (posts (main f)) /\
  Forall (fun k => Comment.Body k <> "") (comments (main f)).

(** ** Decimal numerals *)

(** The number a digit sequence denotes, read from the left with the
    digits already read in [acc]. *)
Fixpoint decimal_value (d : Decimal.uint) (acc : Z) : Z :=
  match d with
  | Decimal.Nil => acc
  | Decimal.D0 l => decimal_value l (acc * 10 + 0)
  | Decimal.D1 l => decimal_value l (acc * 10 + 1)
  | Decimal.D2 l => decimal_value l (acc * 10 + 2)
  | Decimal.D3 l => decimal_value l (acc * 10 + 3)
  | Decimal.D4 l => decimal_value l (acc * 10 + 4)
  | Decimal.D5 l => decimal_value l (acc * 10 + 5)
  | Decimal.D6 l => decimal_value l (acc * 10 + 6)
  | Decimal.D7 l => decimal_value l (acc * 10 + 7)
  | Decimal.D8 l => decimal_value l (acc * 10 + 8)
  | Decimal.D9 l => decimal_value l (acc * 10 + 9)
  end.

(** The range of a Go [int] on a 64-bit platform. *)
Definition minInt : Z := - 2 ^ 63.
Definition maxInt : Z := 2 ^ 63 - 1.

(** * Properties *)

(** ** Evaluation of the helpers on small inputs *)

Example atoi_examples :
  server.atoi "1" = 1 /\ server.atoi "-1" = -1 /\ server.atoi "+7" = 7 /\
  server.atoi "" = 0 /\ server.atoi "abc" = 0 /\ server.atoi "-" = 0 /\
  server.atoi "12x" = 0 /\ server.atoi "999" = 999 /\
  server.atoi "9223372036854775808" = 9223372036854775807 /\
  server.atoi "-9223372036854775808" = -9223372036854775808 /\
  server.atoi "99999999999999999999999" = 9223372036854775807.
Proof. vm_compute. repeat split. Qed.

Example contains_examples :
  contains models.unique_email "UNIQUE constraint failed: users.email" = true /\
  contains models.unique_username "UNIQUE constraint failed: users.email" = false /\
  contains "database is locked" "UNIQUE constraint failed: users.username" = false /\
  contains "abc" "" = true /\ contains "xabcx" "abc" = true.
Proof. vm_compute. repeat split. Qed.

(** ** Statements and the fault schedule *)

Lemma Exec_no_fault {T} (stmt : Time -> T -> string + T) (c : Conn T) :
  faults c = [] ->
  Exec stmt c =
    match stmt (now c) (store c) with
    | inl msg => (Some (SqliteError msg), c)
    | inr t' => (None, mkConn (now c) [] t')
    end.
Proof.
  intros Hf. unfold Exec, next_fault. rewrite Hf.
  destruct c as [n f s]; simpl in *; subst f.
  destruct (stmt n s); reflexivity.
Qed.

Lemma QueryRow_no_fault {T A} (q : T -> option A) (c : Conn T) :
  faults c = [] ->
  QueryRow q c =
    (match q (store c) with None => inl ErrNoRows | Some row => inr row end, c).
Proof.
  intros Hf. unfold QueryRow, next_fault. rewrite Hf.
  destruct (q (store c)); reflexivity.
Qed.

(** A statement the environment fails changes no table. *)
Lemma Exec_fault {T} (stmt : Time -> T -> string + T) (c : Conn T) msg fs :
  faults c = Some msg :: fs ->
  Exec stmt c = (Some (SqliteError msg), mkConn (now c) fs (store c)).
Proof. intros Hf. unfold Exec, next_fault. rewrite Hf. reflexivity. Qed.

(** Whatever happens, a statement leaves the clock alone. *)
Lemma Exec_now {T} (stmt : Time -> T -> string + T) (c : Conn T) :
  now (snd (Exec stmt c)) = now c.
Proof.
  unfold Exec, next_fault.
  destruct (faults c) as [|[msg|] fs]; simpl;
    try reflexivity; destruct (stmt (now c) (store c)); reflexivity.
Qed.

(** ** The upsert of the likes tables *)

Lemma find_none_existsb {A} (f : A -> bool) (l : list A) :
  existsb f l = false -> find f l = None.
Proof.
  induction l as [|a l IH]; simpl; [reflexivity|].
  destruct (f a); simpl; [discriminate | exact IH].
Qed.

Lemma find_some_existsb {A} (f : A -> bool) (l : list A) :
  existsb f l = true -> exists a, find f l = Some a /\ f a = true.
Proof.
  induction l as [|a l IH]; simpl; [discriminate|].
  destruct (f a) eqn:E; simpl; intros H.
  - exists a. split; [reflexivity | exact E].
  - apply IH, H.
Qed.

Lemma find_app_none {A} (f : A -> bool) (l : list A) (x : A) :
  find f l = None -> find f (l ++ [x]) = find f [x].
Proof.
  induction l as [|a l IH]; simpl; [reflexivity|].
  destruct (f a); [discriminate | exact IH].
Qed.

Lemma find_app_some {A} (f : A -> bool) (l l' : list A) (a : A) :
  find f l = Some a -> find f (l ++ l') = Some a.
Proof.
  induction l as [|b l IH]; simpl; [discriminate|].
  destruct (f b); [trivial | exact IH].
Qed.

Lemma same_key_refl target user value :
  models.same_key target user (Like.mk target user value) = true.
Proof. unfold models.same_key; simpl. rewrite !Z.eqb_refl. reflexivity. Qed.

Lemma same_key_eq target user r :
  models.same_key target user r = true <-> like_key r = (target, user).
Proof.
  unfold models.same_key, like_key. rewrite andb_true_iff, !Z.eqb_eq.
  split; [intros [-> ->]; reflexivity | intros H; inversion H; auto].
Qed.

(** The row the upsert leaves for the pair it is called on. *)
Lemma like_row_upsert target user value rows :
  like_row target user (models.upsert target user value rows) =
    Some (match like_row target user rows with
          | None => value
          | Some x => if x =? value then 0 else value
          end).
Proof.
  unfold like_row, models.upsert.
  destruct (existsb (models.same_key target user) rows) eqn:E.
  - induction rows as [|r rows IH]; simpl in *; [discriminate|].
    destruct (models.same_key target user r) eqn:K; simpl in *.
    + unfold models.same_key in *; simpl. rewrite K. reflexivity.
    + rewrite K. apply IH, E.
  - apply find_none_existsb in E. rewrite (find_app_none _ _ _ E), E. simpl.
    rewrite same_key_refl. reflexivity.
Qed.

(** The upsert leaves the rows of every other pair as they were. *)
Lemma like_row_upsert_other target user value target' user' rows :
  (target', user') <> (target, user) ->
  like_row target' user' (models.upsert target user value rows) =
  like_row target' user' rows.
Proof.
  intros Hne. unfold like_row, models.upsert.
  assert (Hnew : forall v, models.same_key target' user' (Like.mk target user v) = false).
  { intros v. destruct (models.same_key target' user' (Like.mk target user v)) eqn:K;
      [|reflexivity].
    apply same_key_eq in K. unfold like_key in K; simpl in K. congruence. }
  destruct (existsb (models.same_key target user) rows).
  - f_equal. induction rows as [|r rows IH]; simpl; [reflexivity|].
    destruct (models.same_key target user r) eqn:K.
    + apply same_key_eq in K. unfold like_key in K. inversion K; subst.
      destruct r as [t0 u0 v0]; simpl in *.
      rewrite Hnew. rewrite (Hnew v0). exact IH.
    + destruct (models.same_key target' user' r); [reflexivity | exact IH].
  - f_equal. induction rows as [|r rows IH]; simpl.
    + rewrite Hnew. reflexivity.
    + destruct (models.same_key target' user' r); [reflexivity | exact IH].
Qed.

(** One press moves the stored value along the table of the
    specification. *)
Lemma stance_after_press (x : Z) (e : Event) :
  stance_of_value (if x =? event_value e then 0 else event_value e) =
  spec_transition (stance_of_value x) e.
Proof.
  unfold stance_of_value.
  destruct e; simpl;
    destruct (x =? 1) eqn:E1; destruct (x =? -1) eqn:E2; simpl; try reflexivity;
    apply Z.eqb_eq in E1; apply Z.eqb_eq in E2; lia.
Qed.

Lemma stance_upsert target user e rows :
  stance target user (models.upsert target user (event_value e) rows) =
  spec_transition (stance target user rows) e.
Proof.
  unfold stance. rewrite like_row_upsert.
  destruct (like_row target user rows) as [x|].
  - apply stance_after_press.
  - destruct e; reflexivity.
Qed.

(** ** The toggle as a state machine *)

Lemma spec_toggle_table s e : spec_toggle s e = spec_transition s e.
Proof. destruct s, e; reflexivity. Qed.

Lemma TogglePostLike_run (c : DB) (postID userID value : Z) :
  faults c = [] -> foreign_keys (store c) = false ->
  models.TogglePostLike postID userID value c =
    (None, mkConn (now c) []
             (with_post_likes (models.upsert postID userID value (post_likes (store c)))
                              (store c))).
Proof.
  intros Hf Hk. unfold models.TogglePostLike. rewrite Exec_no_fault by exact Hf.
  unfold models.toggle_post_like. rewrite Hk, andb_false_r. reflexivity.
Qed.

Lemma ToggleCommentLike_run (c : DB) (commentID userID value : Z) :
  faults c = [] -> foreign_keys (store c) = false ->
  models.ToggleCommentLike commentID userID value c =
    (None, mkConn (now c) []
             (with_comment_likes
                (models.upsert commentID userID value (comment_likes (store c)))
                (store c))).
Proof.
  intros Hf Hk. unfold models.ToggleCommentLike. rewrite Exec_no_fault by exact Hf.
  unfold models.toggle_comment_like. rewrite Hk, andb_false_r. reflexivity.
Qed.

Lemma post_presses_stance (postID userID : Z) (es : list Event) : forall c : DB,
  faults c = [] -> foreign_keys (store c) = false ->
  stance postID userID (post_likes (store (run_toggles (post_presses postID userID es) c))) =
  fold_left spec_transition es (stance postID userID (post_likes (store c))).
Proof.
  induction es as [|e es IH]; intros c Hf Hk; simpl; [reflexivity|].
  rewrite TogglePostLike_run by assumption. simpl.
  rewrite IH by reflexivity || exact Hk. simpl.
  rewrite stance_upsert. reflexivity.
Qed.

Lemma comment_presses_stance (commentID userID : Z) (es : list Event) : forall c : DB,
  faults c = [] -> foreign_keys (store c) = false ->
  stance commentID userID
         (comment_likes (store (run_toggles (comment_presses commentID userID es) c))) =
  fold_left spec_transition es (stance commentID userID (comment_likes (store c))).
Proof.
  induction es as [|e es IH]; intros c Hf Hk; simpl; [reflexivity|].
  rewrite ToggleCommentLike_run by assumption. simpl.
  rewrite IH by reflexivity || exact Hk. simpl.
  rewrite stance_upsert. reflexivity.
Qed.

(** C1. On a connection as [db.Open] makes them (foreign keys off) and
    with no storage fault pending, one call of [TogglePostLike], and
    likewise of [ToggleCommentLike], with the value of a button returns
    nil and moves the stance of the pair as the three-state machine says:
    to Neutral when the current stance is the requested one, to the
    requested stance otherwise; that rule is the table of the
    specification.  From Neutral, PressLike twice ends Neutral, PressLike
    then PressDislike ends Disliked, and one more PressDislike ends
    Neutral, on posts and on comments alike. *)
Theorem toggle_is_three_state_machine (c : DB) (target user : Z) :
  faults c = [] ->
  foreign_keys (store c) = false ->
  (forall e : Event,
      fst (models.TogglePostLike target user (event_value e) c) = None /\
      stance target user
             (post_likes (store (snd (models.TogglePostLike target user (event_value e) c)))) =
      spec_toggle (stance target user (post_likes (store c))) e) /\
  (forall e : Event,
      fst (models.ToggleCommentLike target user (event_value e) c) = None /\
      stance target user
             (comment_likes
                (store (snd (models.ToggleCommentLike target user (event_value e) c)))) =
      spec_toggle (stance target user (comment_likes (store c))) e) /\
  (forall s e, spec_toggle s e = spec_transition s e) /\
  (stance target user (post_likes (store c)) = Neutral ->
   let after es := stance target user
                     (post_likes (store (run_toggles (post_presses target user es) c))) in
   after [PressLike; PressLike] = Neutral /\
   after [PressLike; PressDislike] = Disliked /\
   after [PressLike; PressDislike; PressDislike] = Neutral) /\
  (stance target user (comment_likes (store c)) = Neutral ->
   let after es := stance target user
                     (comment_likes (store (run_toggles (comment_presses target user es) c))) in
   after [PressLike; PressLike] = Neutral /\
   after [PressLike; PressDislike] = Disliked /\
   after [PressLike; PressDislike; PressDislike] = Neutral).
Proof.
  intros Hf Hk. repeat split.
  - rewrite TogglePostLike_run by assumption. reflexivity.
  - rewrite TogglePostLike_run by assumption. simpl.
    rewrite stance_upsert. symmetry. apply spec_toggle_table.
  - rewrite ToggleCommentLike_run by assumption. reflexivity.
  - rewrite ToggleCommentLike_run by assumption. simpl.
    rewrite stance_upsert. symmetry. apply spec_toggle_table.
  - apply spec_toggle_table.
  - rewrite post_presses_stance by assumption. rewrite H. reflexivity.
  - rewrite post_presses_stance by assumption. rewrite H. reflexivity.
  - rewrite post_presses_stance by assumption. rewrite H. reflexivity.
  - rewrite comment_presses_stance by assumption. rewrite H. reflexivity.
  - rewrite comment_presses_stance by assumption. rewrite H. reflexivity.
  - rewrite comment_presses_stance by assumption. rewrite H. reflexivity.
Qed.

Lemma toggle_is_three_state_machine_witness :
  let c := db.Open (empty_store true) 0 [] in
  faults c = [] /\ foreign_keys (store c) = false /\
  stance 1 1 (post_likes (store (snd (models.TogglePostLike 1 1 (event_value PressLike) c))))
  = spec_toggle (stance 1 1 (post_likes (store c))) PressLike.
Proof.
  split; [reflexivity | split; [reflexivity |]].
  exact (proj2 (proj1 (toggle_is_three_state_machine
                         (db.Open (empty_store true) 0 []) 1 1 eq_refl eq_refl)
                      PressLike)).
Defined.

(** ** What a sequence of toggles preserves *)

(** A toggle call either leaves the tables as they were (the statement
    failed) or applies the upsert to the table of its kind. *)
Lemma do_toggle_store (o : toggle) (c : DB) :
  store (snd (do_toggle o c)) = store c \/
  match o with
  | OnPost p u v =>
      store (snd (do_toggle o c)) =
      with_post_likes (models.upsert p u v (post_likes (store c))) (store c)
  | OnComment k u v =>
      store (snd (do_toggle o c)) =
      with_comment_likes (models.upsert k u v (comment_likes (store c))) (store c)
  end.
Proof.
  destruct o as [p u v|k u v]; simpl;
    unfold models.TogglePostLike, models.ToggleCommentLike, Exec, next_fault;
    destruct (faults c) as [|[msg|] fs]; simpl; auto;
    unfold models.toggle_post_like, models.toggle_comment_like;
    match goal with |- context [if ?b then _ else _] => destruct b end; simpl; auto.
Qed.

Section Invariant.

Variable Q : Z -> Prop.
Variable P : Store -> Prop.
Hypothesis P_post : forall s p u v, Q v -> P s ->
  P (with_post_likes (models.upsert p u v (post_likes s)) s).
Hypothesis P_comment : forall s k u v, Q v -> P s ->
  P (with_comment_likes (models.upsert k u v (comment_likes s)) s).

Lemma run_toggles_preserves (ops : list toggle) : forall c : DB,
  Forall (fun o => Q (toggle_value o)) ops ->
  P (store c) -> P (store (run_toggles ops c)).
Proof.
  induction ops as [|o ops IH]; intros c HQ HP; simpl; [exact HP|].
  inversion HQ as [|? ? Ho Hops]; subst.
  apply IH; [exact Hops|].
  destruct (do_toggle_store o c) as [E|E].
  - rewrite E. exact HP.
  - destruct o as [p u v|k u v]; rewrite E; simpl in Ho; auto.
Qed.

End Invariant.

Lemma NoDup_map_injective {A B} (f : A -> B) (l : list A) (a b : A) :
  NoDup (map f l) -> In a l -> In b l -> f a = f b -> a = b.
Proof.
  induction l as [|x l IH]; simpl; intros Hnd Ha Hb Hab; [contradiction|].
  inversion Hnd as [|? ? Hx Hl]; subst.
  destruct Ha as [->|Ha], Hb as [->|Hb]; auto.
  - exfalso. apply Hx. rewrite Hab. apply in_map, Hb.
  - exfalso. apply Hx. rewrite <- Hab. apply in_map, Ha.
Qed.

Lemma existsb_same_key_in target user rows :
  existsb (models.same_key target user) rows = false ->
  ~ In (target, user) (map like_key rows).
Proof.
  intros E Hin. apply in_map_iff in Hin. destruct Hin as [r [Hk Hr]].
  assert (existsb (models.same_key target user) rows = true) as E'.
  { apply existsb_exists. exists r. split; [exact Hr | apply same_key_eq, Hk]. }
  congruence.
Qed.

Lemma upsert_keys target user value rows :
  map like_key (models.upsert target user value rows) =
  if existsb (models.same_key target user) rows
  then map like_key rows
  else map like_key rows ++ [(target, user)].
Proof.
  unfold models.upsert.
  destruct (existsb (models.same_key target user) rows).
  - rewrite map_map. apply map_ext. intros r.
    destruct (models.same_key target user r); reflexivity.
  - rewrite map_app. reflexivity.
Qed.

(** The upsert keeps the primary key of a likes table unique. *)
Lemma upsert_NoDup target user value rows :
  NoDup (map like_key rows) ->
  NoDup (map like_key (models.upsert target user value rows)).
Proof.
  intros Hnd. rewrite upsert_keys.
  destruct (existsb (models.same_key target user) rows) eqn:E; [exact Hnd|].
  apply NoDup_app; [exact Hnd | repeat constructor; simpl; tauto |].
  intros k Hk [<-|[]]. exact (existsb_same_key_in _ _ _ E Hk).
Qed.

(** With a unique key no pair is both liked and disliked. *)
Lemma unique_key_not_both target user rows :
  NoDup (map like_key rows) ->
  holds_like target user rows && holds_dislike target user rows = false.
Proof.
  intros Hnd.
  destruct (holds_like target user rows) eqn:L; [|reflexivity].
  destruct (holds_dislike target user rows) eqn:D; [|reflexivity].
  exfalso. unfold holds_like, holds_dislike in *.
  apply existsb_exists in L. destruct L as [a [Ha La]].
  apply existsb_exists in D. destruct D as [b [Hb Db]].
  apply andb_true_iff in La. destruct La as [Ka Va].
  apply andb_true_iff in Db. destruct Db as [Kb Vb].
  apply same_key_eq in Ka. apply same_key_eq in Kb.
  assert (a = b) as ->.
  { apply (NoDup_map_injective like_key rows); congruence. }
  apply Z.eqb_eq in Va. apply Z.eqb_eq in Vb. lia.
Qed.

Lemma toggles_keep_keys (ops : list toggle) (c : DB) :
  NoDup (map like_key (post_likes (store c))) /\
  NoDup (map like_key (comment_likes (store c))) ->
  NoDup (map like_key (post_likes (store (run_toggles ops c)))) /\
  NoDup (map like_key (comment_likes (store (run_toggles ops c)))).
Proof.
  apply (run_toggles_preserves (fun _ => True)
           (fun s => NoDup (map like_key (post_likes s)) /\
                     NoDup (map like_key (comment_likes s)))).
  - intros s p u v _ [H1 H2]. simpl. split; [apply upsert_NoDup, H1 | exact H2].
  - intros s k u v _ [H1 H2]. simpl. split; [exact H1 | apply upsert_NoDup, H2].
  - apply Forall_forall. trivial.
Qed.

(** ** The delete-then-insert variant *)

Lemma same_pair_eq userUUID postID i :
  utils.same_pair userUUID postID i = true <-> pair_key i = (userUUID, postID).
Proof.
  unfold utils.same_pair, pair_key.
  rewrite andb_true_iff, String.eqb_eq, Z.eqb_eq.
  split; [intros [-> ->]; reflexivity | intros H; inversion H; auto].
Qed.

Lemma same_pair_new userUUID postID l d :
  utils.same_pair userUUID postID (utils.mkInteraction userUUID postID l d) = true.
Proof. apply same_pair_eq. reflexivity. Qed.

(** The three ways a call can end: the DELETE failed, the INSERT failed,
    or both statements ran. *)
Lemma ToggleLike_store userUUID postID like (c : utils.DataBase) :
  let others := filter (fun i => negb (utils.same_pair userUUID postID i)) (store c) in
  let r := utils.ToggleLike userUUID postID like c in
  (fst r <> None /\ store (snd r) = store c) \/
  (fst r <> None /\ store (snd r) = others) \/
  (fst r = None /\
   store (snd r) = others ++ [utils.mkInteraction userUUID postID like (negb like)]).
Proof.
  destruct c as [n f s]. unfold utils.ToggleLike, Exec, next_fault. simpl.
  destruct f as [|[m1|] [|[m2|] fs]]; simpl;
    try (left; split; [discriminate | reflexivity]);
    try (right; left; split; [discriminate | reflexivity]);
    right; right; destruct like; split; reflexivity.
Qed.

Lemma ToggleLike_run userUUID postID like (c : utils.DataBase) :
  faults c = [] ->
  utils.ToggleLike userUUID postID like c =
    (None, mkConn (now c) []
             (filter (fun i => negb (utils.same_pair userUUID postID i)) (store c)
              ++ [utils.mkInteraction userUUID postID like (negb like)])).
Proof.
  destruct c as [n f s]. simpl. intros ->.
  unfold utils.ToggleLike, Exec, next_fault. simpl.
  destruct like; reflexivity.
Qed.

Lemma NoDup_map_filter {A B} (f : A -> B) (g : A -> bool) (l : list A) :
  NoDup (map f l) -> NoDup (map f (filter g l)).
Proof.
  induction l as [|a l IH]; simpl; intros Hnd; [constructor|].
  inversion Hnd as [|? ? Ha Hl]; subst.
  destruct (g a); simpl; [constructor|]; auto.
  intros Hin. apply Ha. apply in_map_iff in Hin. destruct Hin as [x [Hx Hin]].
  apply filter_In in Hin. rewrite <- Hx. apply in_map, Hin.
Qed.

(** The invariant of the interactions table: one row per pair at most,
    and a row is a like or a dislike, not both. *)
Lemma ToggleLike_keeps userUUID postID like (c : utils.DataBase) :
  NoDup (map pair_key (store c)) /\
  Forall (fun i => utils.liked i = negb (utils.disliked i)) (store c) ->
  NoDup (map pair_key (store (snd (utils.ToggleLike userUUID postID like c)))) /\
  Forall (fun i => utils.liked i = negb (utils.disliked i))
         (store (snd (utils.ToggleLike userUUID postID like c))).
Proof.
  intros [Hnd Hall].
  assert (Hf : Forall (fun i => utils.liked i = negb (utils.disliked i))
                 (filter (fun i => negb (utils.same_pair userUUID postID i)) (store c))).
  { apply Forall_forall. intros i Hi. apply filter_In in Hi.
    exact (proj1 (Forall_forall _ _) Hall i (proj1 Hi)). }
  destruct (ToggleLike_store userUUID postID like c) as [[_ E]|[[_ E]|[_ E]]];
    rewrite E; clear E.
  - split; assumption.
  - split; [apply NoDup_map_filter, Hnd | exact Hf].
  - split.
    + rewrite map_app. apply NoDup_app.
      * apply NoDup_map_filter, Hnd.
      * repeat constructor; simpl; tauto.
      * intros k Hk [<-|[]]. apply in_map_iff in Hk. destruct Hk as [i [Hi Hin]].
        apply filter_In in Hin. destruct Hin as [_ Hin].
        change (pair_key i = (userUUID, postID)) in Hi.
        apply same_pair_eq in Hi. rewrite Hi in Hin. discriminate.
    + apply Forall_app. split; [exact Hf|].
      constructor; [|constructor]. simpl. destruct like; reflexivity.
Qed.

Lemma presses_keep (ps : list press) : forall c : utils.DataBase,
  NoDup (map pair_key (store c)) /\
  Forall (fun i => utils.liked i = negb (utils.disliked i)) (store c) ->
  NoDup (map pair_key (store (run_presses ps c))) /\
  Forall (fun i => utils.liked i = negb (utils.disliked i)) (store (run_presses ps c)).
Proof.
  induction ps as [|p ps IH]; intros c H; simpl; [exact H|].
  apply IH, ToggleLike_keeps, H.
Qed.

Lemma unique_pair_not_both userUUID postID rows :
  NoDup (map pair_key rows) ->
  Forall (fun i => utils.liked i = negb (utils.disliked i)) rows ->
  u_holds_like userUUID postID rows && u_holds_dislike userUUID postID rows = false.
Proof.
  intros Hnd Hall.
  destruct (u_holds_like userUUID postID rows) eqn:L; [|reflexivity].
  destruct (u_holds_dislike userUUID postID rows) eqn:D; [|reflexivity].
  exfalso. unfold u_holds_like, u_holds_dislike in *.
  apply existsb_exists in L. destruct L as [a [Ha La]].
  apply existsb_exists in D. destruct D as [b [Hb Db]].
  apply andb_true_iff in La. destruct La as [Ka Va].
  apply andb_true_iff in Db. destruct Db as [Kb Vb].
  apply same_pair_eq in Ka. apply same_pair_eq in Kb.
  assert (a = b) as ->.
  { apply (NoDup_map_injective pair_key rows); congruence. }
  pose proof (proj1 (Forall_forall _ _) Hall b Hb) as E. simpl in E.
  rewrite Va, Vb in E. discriminate.
Qed.

(** C8. Whatever toggles are called, on posts and on comments, with
    whatever values and whatever storage faults, starting from the empty
    tables, no pair is recorded as both liked and disliked at any point
    (every prefix of a sequence is a sequence); the same holds for the
    interactions table under any sequence of [ToggleLike] calls. *)
Theorem never_liked_and_disliked
    (email_first : bool) (t : Time) (fs : list (option string))
    (ops : list toggle) (ps : list press)
    (target user : Z) (userUUID : string) :
  let c := run_toggles ops (db.Open (empty_store email_first) t fs) in
  let d := run_presses ps (mkConn t fs []) in
  holds_like target user (post_likes (store c))
    && holds_dislike target user (post_likes (store c)) = false /\
  holds_like target user (comment_likes (store c))
    && holds_dislike target user (comment_likes (store c)) = false /\
  u_holds_like userUUID target (store d)
    && u_holds_dislike userUUID target (store d) = false.
Proof.
  intros c d.
  destruct (toggles_keep_keys ops (db.Open (empty_store email_first) t fs)) as [Hp Hc].
  { simpl. split; constructor. }
  destruct (presses_keep ps (mkConn t fs [])) as [Hn Hx].
  { simpl. split; constructor. }
  repeat split.
  - apply unique_key_not_both, Hp.
  - apply unique_key_not_both, Hc.
  - apply unique_pair_not_both; assumption.
Qed.


(** ** Overwriting toggles *)

Lemma filter_twice {A} (f : A -> bool) (l : list A) :
  filter f (filter f l) = filter f l.
Proof.
  induction l as [|a l IH]; simpl; [reflexivity|].
  destruct (f a) eqn:E; simpl; [rewrite E, IH|]; auto.
Qed.

Lemma interactions_of_others userUUID postID rows :
  interactions_of userUUID postID
    (filter (fun i => negb (utils.same_pair userUUID postID i)) rows) = [].
Proof.
  unfold interactions_of. induction rows as [|a l IH]; simpl; [reflexivity|].
  destruct (utils.same_pair userUUID postID a) eqn:E; simpl; [|rewrite E]; exact IH.
Qed.

(** Once a pair has a row that is a like or a dislike, calls that all run
    leave it one. *)
Lemma presses_keep_stance userUUID postID (ps : list press) : forall c : utils.DataBase,
  faults c = [] ->
  (exists i, In i (store c) /\ utils.same_pair userUUID postID i = true /\
             utils.liked i || utils.disliked i = true) ->
  exists i, In i (store (run_presses ps c)) /\
             utils.same_pair userUUID postID i = true /\
             utils.liked i || utils.disliked i = true.
Proof.
  induction ps as [|p ps IH]; intros c Hf H; simpl; [exact H|].
  rewrite ToggleLike_run by exact Hf. simpl. apply IH; [reflexivity|]. simpl.
  destruct H as [i [Hin [Hk Hv]]].
  destruct (utils.same_pair (press_user p) (press_post p) i) eqn:E.
  - exists (utils.mkInteraction (press_user p) (press_post p) (press_like p)
                                (negb (press_like p))).
    split; [apply in_or_app; right; left; reflexivity|].
    apply same_pair_eq in E. apply same_pair_eq in Hk.
    split; [apply same_pair_eq; unfold pair_key in *; simpl; congruence|].
    simpl. destruct (press_like p); reflexivity.
  - exists i. split; [|split; assumption].
    apply in_or_app. left. apply filter_In. split; [exact Hin|]. rewrite E. reflexivity.
Qed.

Lemma stance_of_row userUUID postID rows :
  (exists i, In i rows /\ utils.same_pair userUUID postID i = true /\
             utils.liked i || utils.disliked i = true) ->
  u_stance userUUID postID rows <> Neutral.
Proof.
  intros [i [Hin [Hk Hv]]]. unfold u_stance.
  destruct (u_holds_like userUUID postID rows) eqn:L; [discriminate|].
  destruct (u_holds_dislike userUUID postID rows) eqn:D; [discriminate|].
  exfalso. apply orb_true_iff in Hv. destruct Hv as [Hv|Hv].
  - assert (u_holds_like userUUID postID rows = true); [|congruence].
    apply existsb_exists. exists i. rewrite Hk, Hv. auto.
  - assert (u_holds_dislike userUUID postID rows = true); [|congruence].
    apply existsb_exists. exists i. rewrite Hk, Hv. auto.
Qed.

(** C10. In the delete-then-insert variant a call of [ToggleLike] that
    meets no storage fault returns nil and, whatever the table held
    before, leaves exactly one row for the pair: liked = like, disliked =
    not like.  Calling it again with the same arguments leaves the table
    as the first call left it, and after it no sequence of further calls
    brings the pair back to Neutral. *)
Theorem ToggleLike_overwrites
    (c : utils.DataBase) (userUUID : string) (postID : Z) (like : bool) :
  faults c = [] ->
  let c1 := snd (utils.ToggleLike userUUID postID like c) in
  fst (utils.ToggleLike userUUID postID like c) = None /\
  interactions_of userUUID postID (store c1) =
    [utils.mkInteraction userUUID postID like (negb like)] /\
  fst (utils.ToggleLike userUUID postID like c1) = None /\
  store (snd (utils.ToggleLike userUUID postID like c1)) = store c1 /\
  u_stance userUUID postID (store c1) = (if like then Liked else Disliked) /\
  forall ps : list press, u_stance userUUID postID (store (run_presses ps c1)) <> Neutral.
Proof.
  intros Hf c1. subst c1. rewrite (ToggleLike_run _ _ _ c Hf). simpl.
  assert (Hof : interactions_of userUUID postID
            (filter (fun i => negb (utils.same_pair userUUID postID i)) (store c)
             ++ [utils.mkInteraction userUUID postID like (negb like)]) =
            [utils.mkInteraction userUUID postID like (negb like)]).
  { unfold interactions_of. rewrite filter_app.
    fold (interactions_of userUUID postID
            (filter (fun i => negb (utils.same_pair userUUID postID i)) (store c))).
    rewrite interactions_of_others. simpl. rewrite same_pair_new. reflexivity. }
  split; [reflexivity|]. split; [exact Hof|].
  split; [reflexivity|]. split.
  - rewrite filter_app, filter_twice. simpl. rewrite same_pair_new. simpl.
    rewrite app_nil_r. destruct like; reflexivity.
  - split.
    + unfold u_stance, u_holds_like, u_holds_dislike.
      rewrite !existsb_app. simpl. rewrite same_pair_new. simpl.
      assert (Hno : forall g, existsb (fun i => utils.same_pair userUUID postID i && g i)
                 (filter (fun i => negb (utils.same_pair userUUID postID i)) (store c))
               = false).
      { intros g. destruct (existsb _ _) eqn:E; [|reflexivity].
        apply existsb_exists in E. destruct E as [i [Hin Hi]].
        apply filter_In in Hin. destruct Hin as [_ Hin].
        apply andb_true_iff in Hi. destruct Hi as [Hi _]. rewrite Hi in Hin. discriminate. }
      rewrite !Hno. destruct like; reflexivity.
    + intros ps. apply stance_of_row. apply presses_keep_stance; [reflexivity|].
      exists (utils.mkInteraction userUUID postID like (negb like)). simpl.
      split; [apply in_or_app; right; left; reflexivity|].
      split; [apply same_pair_new | destruct like; reflexivity].
Qed.

Lemma ToggleLike_overwrites_witness :
  let c := mkConn 0 [] [utils.mkInteraction "u1" 7 true false;
                        utils.mkInteraction "u2" 7 true false] in
  faults c = [] /\
  store (snd (utils.ToggleLike "u1" 7 true c)) =
    [utils.mkInteraction "u2" 7 true false; utils.mkInteraction "u1" 7 true false] /\
  interactions_of "u1" 7 (store (snd (utils.ToggleLike "u1" 7 true c))) =
    [utils.mkInteraction "u1" 7 true (negb true)].
Proof.
  split; [reflexivity | split; [reflexivity |]].
  exact (proj1 (proj2 (ToggleLike_overwrites
                         (mkConn 0 [] [utils.mkInteraction "u1" 7 true false;
                                       utils.mkInteraction "u2" 7 true false])
                         "u1" 7 true eq_refl))).
Defined.

(** ** How Neutral is stored *)

Lemma upsert_values target user value rows :
  value = 1 \/ value = -1 ->
  Forall stored_value rows ->
  Forall stored_value (models.upsert target user value rows).
Proof.
  intros Hv Hall. unfold models.upsert.
  destruct (existsb (models.same_key target user) rows).
  - apply Forall_forall. intros r Hr. apply in_map_iff in Hr.
    destruct Hr as [r0 [<- Hr0]].
    destruct (models.same_key target user r0).
    + unfold stored_value; simpl. destruct (Like.value r0 =? value); lia.
    + exact (proj1 (Forall_forall _ _) Hall r0 Hr0).
  - apply Forall_app. split; [exact Hall|].
    constructor; [|constructor]. unfold stored_value; simpl. lia.
Qed.

Lemma buttons_send_one_or_minus_one (bs : list button) :
  Forall (fun o => toggle_value o = 1 \/ toggle_value o = -1) (map button_toggle bs).
Proof.
  apply Forall_forall. intros o Ho. apply in_map_iff in Ho.
  destruct Ho as [b [<- _]]. destruct b as [p u e|k u e]; destruct e; simpl; lia.
Qed.

Lemma buttons_store_values (bs : list button) (c : DB) :
  Forall stored_value (post_likes (store c)) /\
  Forall stored_value (comment_likes (store c)) ->
  Forall stored_value (post_likes (store (run_toggles (map button_toggle bs) c))) /\
  Forall stored_value (comment_likes (store (run_toggles (map button_toggle bs) c))).
Proof.
  apply (run_toggles_preserves (fun v => v = 1 \/ v = -1)
           (fun s => Forall stored_value (post_likes s) /\
                     Forall stored_value (comment_likes s))).
  - intros s p u v Hv [H1 H2]. simpl. split; [apply upsert_values; assumption | exact H2].
  - intros s k u v Hv [H1 H2]. simpl. split; [exact H1 | apply upsert_values; assumption].
  - apply buttons_send_one_or_minus_one.
Qed.

Lemma like_row_stored target user rows x :
  Forall stored_value rows -> like_row target user rows = Some x ->
  x = 1 \/ x = -1 \/ x = 0.
Proof.
  unfold like_row. intros Hall H.
  destruct (find (models.same_key target user) rows) as [r|] eqn:F; [|discriminate].
  apply find_some in F. simpl in H. injection H as <-.
  exact (proj1 (Forall_forall _ _) Hall r (proj1 F)).
Qed.

(** C9, as the code has it.  Pressing the same button twice does not
    remove the row: Like, Like on a new pair leaves the row (1, 1, 0),
    which reads as Neutral and is neither a like nor a dislike. *)
Lemma neutral_row_is_kept :
  let c := run_toggles (post_presses 1 1 [PressLike; PressLike])
                       (db.Open (empty_store true) 0 []) in
  post_likes (store c) = [Like.mk 1 1 0] /\
  stance 1 1 (post_likes (store c)) = Neutral /\
  like_row 1 1 (post_likes (store c)) = Some 0 /\
  holds_like 1 1 (post_likes (store c)) = false /\
  holds_dislike 1 1 (post_likes (store c)) = false.
Proof. vm_compute. repeat split. Qed.

(** C9, amended.  Neutral is stored as no row or as a row whose value is
    0.  In every state reached from the empty tables by button presses
    (storage faults or not) a stored row carries 1, -1 or 0, and a pair is
    Neutral exactly when it has no row or its row carries 0.  A toggle
    that runs never leaves its pair without a row: when it brings the
    pair to Neutral the row carries 0, as after pressing twice a button
    that is not the pair's current stance. *)
Theorem neutral_is_no_row_or_zero
    (email_first : bool) (t : Time) (fs : list (option string))
    (bs : list button) (target user : Z) (e : Event) :
  let c := run_toggles (map button_toggle bs) (db.Open (empty_store email_first) t fs) in
  let rows := post_likes (store c) in
  let c1 := snd (models.TogglePostLike target user (event_value e) c) in
  let c2 := run_toggles (post_presses target user [e; e]) c in
  Forall stored_value rows /\
  Forall stored_value (comment_likes (store c)) /\
  (stance target user rows = Neutral <->
   like_row target user rows = None \/ like_row target user rows = Some 0) /\
  (fst (models.TogglePostLike target user (event_value e) c) = None ->
   like_row target user (post_likes (store c1)) <> None /\
   (stance target user (post_likes (store c1)) = Neutral ->
    like_row target user (post_likes (store c1)) = Some 0)) /\
  (faults c = [] -> stance target user rows <> requested e ->
   like_row target user (post_likes (store c2)) = Some 0 /\
   stance target user (post_likes (store c2)) = Neutral).
Proof.
  intros c rows c1 c2. subst rows.
  assert (Hk : foreign_keys (store c) = false).
  { subst c. apply (run_toggles_preserves (fun _ => True)
                      (fun s => foreign_keys s = false)); auto.
    apply Forall_forall. trivial. }
  destruct (buttons_store_values bs (db.Open (empty_store email_first) t fs)) as [Hp Hc].
  { simpl. split; constructor. }
  fold c in Hp, Hc.
  split; [exact Hp|]. split; [exact Hc|]. split; [|split].
  - unfold stance. destruct (like_row target user (post_likes (store c))) as [x|] eqn:L.
    + destruct (like_row_stored _ _ _ _ Hp L) as [-> | [-> | ->]]; simpl;
        split; intros H; try discriminate; auto;
        destruct H as [H|H]; discriminate.
    + split; auto.
  - intros Hok.
    assert (E : store c1 =
                with_post_likes (models.upsert target user (event_value e)
                                  (post_likes (store c))) (store c)).
    { subst c1. revert Hok.
      unfold models.TogglePostLike, Exec, next_fault.
      destruct (faults c) as [|[msg|] fs']; simpl; try discriminate;
        unfold models.toggle_post_like; rewrite Hk, andb_false_r; simpl; reflexivity. }
    rewrite E. simpl. rewrite like_row_upsert. split; [discriminate|].
    unfold stance. rewrite like_row_upsert.
    destruct (like_row target user (post_likes (store c))) as [x|].
    + destruct (x =? event_value e); [reflexivity|].
      destruct e; simpl; discriminate.
    + destruct e; simpl; discriminate.
  - intros Hf Hne. subst c2.
    assert (S2 : stance target user
                   (post_likes (store (run_toggles (post_presses target user [e; e]) c))) =
                 Neutral).
    { rewrite post_presses_stance by assumption. simpl.
      destruct (stance target user (post_likes (store c))), e; simpl in *; congruence. }
    split; [|exact S2].
    simpl. rewrite (TogglePostLike_run c) by assumption. simpl.
    rewrite TogglePostLike_run by (simpl; auto). simpl.
    rewrite !like_row_upsert. f_equal.
    destruct (like_row target user (post_likes (store c))) as [x|] eqn:L.
    + unfold stance in Hne. rewrite L in Hne.
      destruct (x =? event_value e) eqn:X.
      * apply Z.eqb_eq in X. subst x. exfalso. apply Hne. destruct e; reflexivity.
      * rewrite Z.eqb_refl. reflexivity.
    + rewrite Z.eqb_refl. reflexivity.
Qed.

Lemma neutral_is_no_row_or_zero_witness :
  let c := db.Open (empty_store true) 0 [] in
  let c2 := run_toggles (post_presses 7 3 [PressDislike; PressDislike]) c in
  faults c = [] /\
  stance 7 3 (post_likes (store c)) <> requested PressDislike /\
  like_row 7 3 (post_likes (store c2)) = Some 0 /\
  stance 7 3 (post_likes (store c2)) = Neutral.
Proof.
  split; [reflexivity | split; [discriminate |]].
  refine (proj2 (proj2 (proj2 (proj2
            (neutral_is_no_row_or_zero true 0 [] [] 7 3 PressDislike)))) eq_refl _).
  discriminate.
Defined.

(** ** Issuing sessions *)

Lemma revoke_if_active_ID u t x :
  Session.ID (revoke_if_active u t x) = Session.ID x.
Proof.
  unfold revoke_if_active.
  destruct ((Session.UserID x =? u) && models.is_null (Session.RevokedAt x)); reflexivity.
Qed.

Lemma session_known_revoked sid u t s :
  models.session_known sid (with_sessions (map (revoke_if_active u t) (sessions s)) s) =
  models.session_known sid s.
Proof.
  unfold models.session_known. simpl.
  induction (sessions s) as [|x l IH]; simpl; [reflexivity|].
  rewrite revoke_if_active_ID, IH. reflexivity.
Qed.

(** After the UPDATE no row of the user is left unrevoked. *)
Lemma unrevoked_after_revoke u t (l : list Session.t) :
  filter (fun x => (Session.UserID x =? u) && models.is_null (Session.RevokedAt x))
         (map (revoke_if_active u t) l) = [].
Proof.
  induction l as [|x l IH]; simpl; [reflexivity|].
  assert (E : (Session.UserID (revoke_if_active u t x) =? u)
              && models.is_null (Session.RevokedAt (revoke_if_active u t x)) = false).
  { destruct x as [id uid created expires revoked]. unfold revoke_if_active. simpl.
    destruct (uid =? u) eqn:U; destruct revoked; simpl; rewrite ?U; reflexivity. }
  rewrite E. exact IH.
Qed.

(** The three ways [CreateSession] can end: the UPDATE failed; the UPDATE
    ran and the INSERT failed; both ran. *)
Lemma CreateSession_store u sid expires (c : DB) :
  let revoked := with_sessions (map (revoke_if_active u (now c)) (sessions (store c)))
                               (store c) in
  let r := models.CreateSession u sid expires c in
  (fst r <> None /\ store (snd r) = store c) \/
  (fst r <> None /\ store (snd r) = revoked) \/
  (fst r = None /\
   store (snd r) =
     with_sessions (sessions revoked ++ [Session.mk sid u (now c) expires None]) revoked).
Proof.
  destruct c as [n f s]. unfold models.CreateSession, Exec, next_fault. simpl.
  destruct f as [|[m1|] [|[m2|] fs]]; simpl;
    try (left; split; [discriminate | reflexivity]);
    try (right; left; split; [discriminate | reflexivity]);
    unfold models.insert_session;
    match goal with |- context [if ?b then _ else _] => destruct b end; simpl;
    try (right; left; split; [discriminate | reflexivity]);
    match goal with |- context [if ?b then _ else _] => destruct b end; simpl;
    try (right; left; split; [discriminate | reflexivity]);
    right; right; split; reflexivity.
Qed.

(** Whatever the table held, an issuance that returns nil leaves the
    user with one unrevoked row, the new one. *)
Lemma CreateSession_leaves_one u sid expires (c : DB) :
  fst (models.CreateSession u sid expires c) = None ->
  unrevoked u (store (snd (models.CreateSession u sid expires c))) =
    [Session.mk sid u (now c) expires None].
Proof.
  intros Hok.
  destruct (CreateSession_store u sid expires c) as [[H _]|[[H _]|[_ E]]];
    try contradiction.
  rewrite E. unfold unrevoked. simpl.
  rewrite filter_app, unrevoked_after_revoke. simpl.
  rewrite Z.eqb_refl. reflexivity.
Qed.

(** With no fault pending, foreign keys off and a token not yet in the
    table, both statements run. *)
Lemma CreateSession_run u sid expires (c : DB) :
  faults c = [] -> foreign_keys (store c) = false ->
  models.session_known sid (store c) = false ->
  models.CreateSession u sid expires c =
    (None, mkConn (now c) []
             (with_sessions
                (map (revoke_if_active u (now c)) (sessions (store c))
                 ++ [Session.mk sid u (now c) expires None]) (store c))).
Proof.
  destruct c as [n f s]. simpl. intros -> Hk Hn.
  unfold models.CreateSession, Exec, next_fault. simpl.
  unfold models.insert_session.
  fold (revoke_if_active u n).
  change (map (fun x => revoke_if_active u n x) (sessions s))
    with (map (revoke_if_active u n) (sessions s)).
  rewrite session_known_revoked, Hn. simpl. rewrite Hk. reflexivity.
Qed.

Lemma session_known_app sid s l :
  models.session_known sid (with_sessions (sessions s ++ l) s) =
  models.session_known sid s || existsb (fun x => String.eqb (Session.ID x) sid) l.
Proof. unfold models.session_known. simpl. apply existsb_app. Qed.

Lemma run_issues_app u (xs ys : list issue) (c : DB) :
  run_issues u (xs ++ ys) c =
  (fst (run_issues u xs c) ++ fst (run_issues u ys (snd (run_issues u xs c))),
   snd (run_issues u ys (snd (run_issues u xs c)))).
Proof.
  revert c. induction xs as [|x xs IH]; intros c; simpl.
  - destruct (run_issues u ys c); reflexivity.
  - destruct (do_issue u x c) as [e c1]. rewrite IH.
    destruct (run_issues u xs c1) as [es c2]. simpl. reflexivity.
Qed.

(** A run of issuances with fresh, pairwise different tokens: every call
    returns nil, and the table knows the old tokens and the issued ones. *)
Lemma run_issues_fresh u (calls : list issue) : forall c : DB,
  faults c = [] -> foreign_keys (store c) = false ->
  NoDup (map issue_id calls) ->
  (forall i, In i calls -> models.session_known (issue_id i) (store c) = false) ->
  Forall (fun e => e = None) (fst (run_issues u calls c)) /\
  faults (snd (run_issues u calls c)) = [] /\
  foreign_keys (store (snd (run_issues u calls c))) = false /\
  forall sid, models.session_known sid (store (snd (run_issues u calls c))) =
              models.session_known sid (store c)
              || existsb (fun i => String.eqb (issue_id i) sid) calls.
Proof.
  induction calls as [|i calls IH]; intros c Hf Hk Hnd Hnew; simpl.
  - repeat split; auto. intros sid. rewrite orb_false_r. reflexivity.
  - unfold do_issue.
    rewrite CreateSession_run; simpl; auto; [|apply Hnew; left; reflexivity].
    inversion Hnd as [|? ? Hi Hcalls]; subst.
    set (c1 := mkConn (issue_at i) []
                 (with_sessions
                    (map (revoke_if_active u (issue_at i)) (sessions (store c))
                     ++ [Session.mk (issue_id i) u (issue_at i) (issue_expires i) None])
                    (store c))).
    assert (Hknown : forall sid, models.session_known sid (store c1) =
                       models.session_known sid (store c) || String.eqb (issue_id i) sid).
    { intros sid. unfold c1. simpl.
      change (with_sessions (?l ++ ?x) (store c))
        with (with_sessions
                (sessions (with_sessions l (store c)) ++ x)
                (with_sessions l (store c))).
      rewrite session_known_app, session_known_revoked. simpl.
      rewrite orb_false_r. reflexivity. }
    destruct (IH c1) as [Hall [Hf' [Hk' Hs]]]; auto.
    + intros j Hj. rewrite Hknown. rewrite (Hnew j (or_intror Hj)). simpl.
      destruct (String.eqb (issue_id i) (issue_id j)) eqn:E; [|reflexivity].
      exfalso. apply Hi. apply String.eqb_eq in E. rewrite E. apply in_map, Hj.
    + destruct (run_issues u calls c1) as [es c2]. simpl in *.
      repeat split; auto.
      intros sid. rewrite Hs, Hknown, orb_assoc. reflexivity.
Qed.

Lemma run_issues_length u (calls : list issue) : forall c : DB,
  List.length (fst (run_issues u calls c)) = List.length calls.
Proof.
  induction calls as [|i calls IH]; intros c; simpl; [reflexivity|].
  destruct (do_issue u i c) as [e c1]. specialize (IH c1).
  destruct (run_issues u calls c1) as [es c2]. simpl in *. congruence.
Qed.

(** C2. Take any table, any N and any N issuances for one user whose
    tokens are fresh (pairwise different and unknown to the table), on a
    connection as [db.Open] makes them and with no storage fault pending.
    Every call returns nil, and after the Nth the user has exactly one
    row with revoked_at NULL: the session the Nth call inserted. *)
Theorem one_unrevoked_session_after_issue
    (c : DB) (u : Z) (calls : list issue) (last : issue) :
  faults c = [] ->
  foreign_keys (store c) = false ->
  NoDup (map issue_id (calls ++ [last])) ->
  (forall i, In i (calls ++ [last]) -> models.session_known (issue_id i) (store c) = false) ->
  Forall (fun e => e = None) (fst (run_issues u (calls ++ [last]) c)) /\
  List.length (fst (run_issues u (calls ++ [last]) c)) = S (List.length calls) /\
  unrevoked u (store (snd (run_issues u (calls ++ [last]) c))) = [session_of u last].
Proof.
  intros Hf Hk Hnd Hnew.
  destruct (run_issues_fresh u (calls ++ [last]) c Hf Hk Hnd Hnew) as [Hall _].
  split; [exact Hall|]. split.
  - rewrite run_issues_length, length_app. simpl. lia.
  - rewrite run_issues_app in *. simpl in *.
    apply Forall_app in Hall. destruct Hall as [_ Hlast].
    destruct (do_issue u last (snd (run_issues u calls c))) as [e c1] eqn:E.
    simpl in *. inversion Hlast as [|? ? He _]; subst.
    unfold do_issue in E.
    pose proof (CreateSession_leaves_one u (issue_id last) (issue_expires last)
                  (at_time (issue_at last) (snd (run_issues u calls c)))) as H.
    rewrite E in H. simpl in H. apply H. reflexivity.
Qed.

Lemma one_unrevoked_session_after_issue_witness :
  let u1 := User.mk 1 "a@b.com" "alice" "hash" 0 in
  let old := Session.mk "s0" 1 5 100 None in
  let c := mkConn 10 [] (with_sessions [old] (with_users [u1] 1 (empty_store true))) in
  let calls := [mkIssue 20 "s1" 120; mkIssue 30 "s2" 130] in
  unrevoked 1 (store c) = [old] /\
  sessions (store (snd (run_issues 1 (calls ++ [mkIssue 40 "s3" 140]) c))) =
    [Session.mk "s0" 1 5 100 (Some 20); Session.mk "s1" 1 20 120 (Some 30);
     Session.mk "s2" 1 30 130 (Some 40); Session.mk "s3" 1 40 140 None] /\
  unrevoked 1 (store (snd (run_issues 1 (calls ++ [mkIssue 40 "s3" 140]) c))) =
    [session_of 1 (mkIssue 40 "s3" 140)].
Proof.
  split; [reflexivity | split; [reflexivity |]].
  refine (proj2 (proj2 (one_unrevoked_session_after_issue
            (mkConn 10 [] (with_sessions [Session.mk "s0" 1 5 100 None]
                             (with_users [User.mk 1 "a@b.com" "alice" "hash" 0] 1
                                         (empty_store true))))
            1 [mkIssue 20 "s1" 120; mkIssue 30 "s2" 130] (mkIssue 40 "s3" 140)
            eq_refl eq_refl _ _))).
  - simpl. repeat constructor; simpl; intuition discriminate.
  - simpl. intros i [<-|[<-|[<-|[]]]]; reflexivity.
Defined.

(** ** Validating a token *)

(** What [currentUser] computes when no storage fault hits its two
    queries. *)
Lemma validate_run (token : string) (c : DB) :
  faults c = [] ->
  validate token c =
    match session_row token (store c) with
    | None => None
    | Some sess =>
        if negb (server.is_nil (Session.RevokedAt sess)) || (Session.ExpiresAt sess <? now c)
        then None
        else user_row (Session.UserID sess) (store c)
    end.
Proof.
  intros Hf. unfold validate, server.currentUser. simpl.
  unfold models.GetSession. rewrite QueryRow_no_fault by exact Hf.
  fold (session_row token (store c)).
  destruct (session_row token (store c)) as [sess|]; [|reflexivity].
  destruct (negb (server.is_nil (Session.RevokedAt sess))
            || (Session.ExpiresAt sess <? now c)); [reflexivity|].
  rewrite QueryRow_no_fault by exact Hf.
  fold (user_row (Session.UserID sess) (store c)).
  destruct (user_row (Session.UserID sess) (store c)); reflexivity.
Qed.

(** Without the cookie nobody is signed in, whatever the tables hold. *)
Lemma currentUser_without_cookie (r : server.Request) (c : DB) :
  server.Request_Cookie r server.CookieName = None ->
  server.currentUser r c = (None, c).
Proof. intros H. unfold server.currentUser. rewrite H. reflexivity. Qed.

(** C3, as the code has it.  At the very instant of expiry the session
    still validates: the test is [ExpiresAt.Before(now)]. *)
Lemma session_valid_at_expiry :
  let alice := User.mk 1 "a@b.com" "alice" "hash" 0 in
  let sess := Session.mk "tok" 1 0 100 None in
  let c := mkConn 100 [] (with_sessions [sess] (with_users [alice] 1 (empty_store true))) in
  session_row "tok" (store c) = Some sess /\
  Session.RevokedAt sess = None /\
  now c >= Session.ExpiresAt sess /\
  validate "tok" c = Some alice.
Proof. vm_compute. repeat split; discriminate. Qed.

(** C3, amended.  With no storage fault on the two lookups, validation
    answers Invalid exactly when the token is unknown, or revoked_at is
    set, or expires_at is strictly before the current time, or the
    owning user has no row; in every other case it answers the row of the
    owning user.  A session whose expires_at is strictly in the past is
    Invalid whatever its revoked_at. *)
Theorem validate_invalid_iff (c : DB) (token : string) :
  faults c = [] ->
  (validate token c = None <->
   session_row token (store c) = None \/
   exists sess, session_row token (store c) = Some sess /\
     (Session.RevokedAt sess <> None \/
      Session.ExpiresAt sess < now c \/
      user_row (Session.UserID sess) (store c) = None)) /\
  (forall sess, session_row token (store c) = Some sess ->
     Session.RevokedAt sess = None -> now c <= Session.ExpiresAt sess ->
     validate token c = user_row (Session.UserID sess) (store c)) /\
  (forall u, validate token c = Some u ->
     exists sess, session_row token (store c) = Some sess /\
                  User.ID u = Session.UserID sess /\ In u (users (store c))) /\
  (forall sess, session_row token (store c) = Some sess ->
     Session.ExpiresAt sess < now c -> validate token c = None).
Proof.
  intros Hf. rewrite (validate_run token c Hf).
  destruct (session_row token (store c)) as [sess|] eqn:S.
  2: { split; [|split; [|split]].
       - split; auto.
       - intros x Hx; discriminate.
       - intros u Hu; discriminate.
       - intros x Hx; discriminate. }
  split; [|split; [|split]].
  - split.
    + intros H. right. exists sess. split; [reflexivity|].
      destruct (Session.RevokedAt sess) as [r|]; [left; discriminate|]. simpl in H.
      destruct (Session.ExpiresAt sess <? now c) eqn:X.
      * right; left. apply Z.ltb_lt, X.
      * right; right. exact H.
    + intros [H|[x [Hx H]]]; [discriminate|]. injection Hx as <-.
      destruct H as [H|[H|H]].
      * destruct (Session.RevokedAt sess); [reflexivity | congruence].
      * apply Z.ltb_lt in H. rewrite H, orb_true_r. reflexivity.
      * destruct (negb _ || _); [reflexivity | exact H].
  - intros x Hx R Hle. injection Hx as <-. rewrite R. simpl.
    destruct (Session.ExpiresAt sess <? now c) eqn:X; [|reflexivity].
    apply Z.ltb_lt in X. lia.
  - intros u Hu. exists sess. split; [reflexivity|].
    destruct (negb _ || _); [discriminate|].
    unfold user_row in Hu. apply find_some in Hu. destruct Hu as [Hin Hid].
    apply Z.eqb_eq in Hid. auto.
  - intros x Hx Hlt. injection Hx as <-.
    apply Z.ltb_lt in Hlt. rewrite Hlt, orb_true_r. reflexivity.
Qed.

Lemma validate_invalid_iff_witness :
  let alice := User.mk 1 "a@b.com" "alice" "hash" 0 in
  let sess := Session.mk "tok" 1 0 100 None in
  let c := mkConn 101 [] (with_sessions [sess] (with_users [alice] 1 (empty_store true))) in
  faults c = [] /\
  session_row "tok" (store c) = Some sess /\
  Session.ExpiresAt sess < now c /\
  validate "tok" c = None.
Proof.
  split; [reflexivity | split; [reflexivity | split; [reflexivity |]]].
  exact (proj2 (proj2 (proj2 (validate_invalid_iff
           (mkConn 101 [] (with_sessions [Session.mk "tok" 1 0 100 None]
                            (with_users [User.mk 1 "a@b.com" "alice" "hash" 0] 1
                                        (empty_store true))))
           "tok" eq_refl)))
         (Session.mk "tok" 1 0 100 None) eq_refl eq_refl).
Defined.

(** ** A failed issuance *)

(** When [CreateSession] returns an error the table is either untouched
    (the UPDATE failed) or holds the revocations without the new row (the
    INSERT failed): nothing undoes the UPDATE. *)
Lemma CreateSession_error u sid expires (c : DB) :
  fst (models.CreateSession u sid expires c) <> None ->
  store (snd (models.CreateSession u sid expires c)) = store c \/
  (store (snd (models.CreateSession u sid expires c)) =
     with_sessions (map (revoke_if_active u (now c)) (sessions (store c))) (store c) /\
   unrevoked u (store (snd (models.CreateSession u sid expires c))) = []).
Proof.
  intros Herr.
  destruct (CreateSession_store u sid expires c) as [[_ E]|[[_ E]|[H _]]].
  - left. exact E.
  - right. split; [exact E|]. rewrite E. unfold unrevoked. simpl.
    apply unrevoked_after_revoke.
  - contradiction.
Qed.

(** The login handler sets the cookie on the success path only. *)
Lemma handleLogin_cookie_means_success
    (cmp : string -> string -> bool) (sid : string) (r : server.Request) (c : DB) :
  server.SetCookies (fst (server.handleLogin cmp sid server.blank r c)) <> [] ->
  server.Code (fst (server.handleLogin cmp sid server.blank r c)) = server.StatusSeeOther.
Proof.
  unfold server.handleLogin.
  destruct (String.eqb (server.Method r) server.MethodGet).
  { destruct (server.currentUser r c). simpl. congruence. }
  destruct (String.eqb (server.Method r) server.MethodPost); [|simpl; congruence].
  destruct (models.GetUserByEmail (server.FormValue r "email") c) as [[e|user] c1];
    [simpl; congruence|].
  destruct (negb (cmp (User.PasswordHash user) (server.FormValue r "password")));
    [simpl; congruence|].
  destruct (models.CreateSession _ _ _ c1) as [[e|] c2]; simpl; congruence.
Qed.

(** C4, on the code.  Alice holds one unrevoked session.  She logs in
    again and the INSERT of [CreateSession] fails (here: the database is
    locked; a token already in the table does the same).  The caller gets
    the error and the handler answers 500 without a cookie, but the
    UPDATE has been kept: her old session is revoked and she is left with
    no unrevoked session. *)
Theorem failed_issue_keeps_the_revocation :
  let alice := User.mk 1 "a@b.com" "alice" "hash" 0 in
  let old := Session.mk "s0" 1 5 100 None in
  let tables := with_sessions [old] (with_users [alice] 1 (empty_store true)) in
  let locked := mkConn 10 [None; Some "database is locked"] tables in
  let r := models.CreateSession 1 "s1" 110 locked in
  let r' := models.CreateSession 1 "s0" 110 (mkConn 10 [] tables) in
  let request := server.mkRequest server.MethodPost []
                   [("email", "a@b.com"); ("password", "secret")] in
  let h := server.handleLogin (fun _ _ => true) "s1" server.blank request
             (mkConn 10 [None; None; Some "database is locked"] tables) in
  unrevoked 1 tables = [old] /\
  (fst r = Some (SqliteError "database is locked") /\
   sessions (store (snd r)) = [Session.mk "s0" 1 5 100 (Some 10)] /\
   unrevoked 1 (store (snd r)) = []) /\
  (fst r' = Some (SqliteError models.unique_session) /\
   sessions (store (snd r')) = [Session.mk "s0" 1 5 100 (Some 10)] /\
   unrevoked 1 (store (snd r')) = []) /\
  (server.Code (fst h) = 500 /\
   server.Body (fst h) = server.Text "could not create session" /\
   server.SetCookies (fst h) = [] /\
   unrevoked 1 (store (snd h)) = []).
Proof. vm_compute. repeat split. Qed.

(** ** Revoking a token *)

Lemma revoke_unknown_token (token : string) (c : DB) :
  models.session_known token (store c) = false ->
  store (snd (revoke_token token c)) = store c.
Proof.
  intros Hn. destruct c as [n f s]. unfold revoke_token, Exec, next_fault. simpl.
  assert (E : map (fun x => if String.eqb (Session.ID x) token
                            then models.revoke n x else x) (sessions s) = sessions s).
  { unfold models.session_known in Hn. simpl in Hn.
    induction (sessions s) as [|x l IH]; simpl in *; [reflexivity|].
    apply orb_false_iff in Hn. destruct Hn as [Hx Hl].
    rewrite Hx, (IH Hl). reflexivity. }
  destruct f as [|[msg|] fs]; simpl; try reflexivity;
    unfold server.revoke_session; rewrite E; destruct s; reflexivity.
Qed.

(** Logging out never shows a storage error: a POST is always answered
    by the redirect. *)
Lemma handleLogout_always_redirects (r : server.Request) (c : DB) :
  server.Method r = server.MethodPost ->
  server.Code (fst (server.handleLogout server.blank r c)) = server.StatusSeeOther /\
  server.Location (fst (server.handleLogout server.blank r c)) = "/".
Proof.
  intros Hm. unfold server.handleLogout. rewrite Hm. simpl.
  destruct (server.Request_Cookie r server.CookieName); [|split; reflexivity].
  destruct (Exec _ c). split; reflexivity.
Qed.

(** Revoking twice at one instant is revoking once. *)
Lemma revoke_twice_same_instant (token : string) (c : DB) :
  faults c = [] ->
  store (snd (revoke_token token (snd (revoke_token token c)))) =
  store (snd (revoke_token token c)).
Proof.
  destruct c as [n f s]. simpl. intros ->.
  unfold revoke_token, Exec, next_fault, server.revoke_session. simpl.
  unfold with_sessions. simpl. f_equal.
  rewrite map_map. apply map_ext. intros x.
  destruct (String.eqb (Session.ID x) token) eqn:E; simpl; rewrite E; reflexivity.
Qed.

Lemma find_map_same {A} (p : A -> bool) (g : A -> A) (l : list A) :
  (forall x, p (g x) = p x) ->
  find p (map g l) = option_map g (find p l).
Proof.
  intros Hp. induction l as [|x l IH]; simpl; [reflexivity|].
  rewrite Hp. destruct (p x); [reflexivity | exact IH].
Qed.

(** What validation can tell is the same after two revocations as after
    one, at whatever instants: only the stored timestamp differs. *)
Lemma revoke_again_same_validation (token : string) (c : DB) (t1 t2 t : Time)
    (other : string) :
  faults c = [] ->
  let once := snd (revoke_token token (at_time t1 c)) in
  let twice := snd (revoke_token token (at_time t2 once)) in
  validate other (at_time t twice) = validate other (at_time t once).
Proof.
  destruct c as [n f s]. simpl. intros ->.
  rewrite !validate_run by reflexivity.
  unfold revoke_token, Exec, next_fault, server.revoke_session, session_row. simpl.
  set (g := fun (t0 : Time) (x : Session.t) =>
              if String.eqb (Session.ID x) token then models.revoke t0 x else x).
  change (map (fun x => if String.eqb (Session.ID x) token then models.revoke t2 x else x))
    with (map (g t2)).
  change (map (fun x => if String.eqb (Session.ID x) token then models.revoke t1 x else x))
    with (map (g t1)).
  assert (Hid : forall t0 x, String.eqb (Session.ID (g t0 x)) other
                             = String.eqb (Session.ID x) other).
  { intros t0 x. unfold g. destruct (String.eqb (Session.ID x) token); reflexivity. }
  rewrite (find_map_same _ (g t2) _ (Hid t2)).
  rewrite (find_map_same _ (g t1) _ (Hid t1)).
  destruct (find (fun x => String.eqb (Session.ID x) other) (sessions s)) as [x|];
    [|reflexivity].
  simpl. unfold g. destruct (String.eqb (Session.ID x) token) eqn:E; simpl; rewrite E.
  - reflexivity.
  - reflexivity.
Qed.

(** C5, on the code.  The UPDATE of the logout handler has no
    [revoked_at IS NULL] guard: a second revocation, ten instants later,
    rewrites the timestamp the first one stored, so the table after two
    calls is not the table after one. *)
Theorem second_revoke_rewrites_the_timestamp :
  let sess := Session.mk "tok" 1 0 100 None in
  let c := mkConn 10 [] (with_sessions [sess] (empty_store true)) in
  let once := snd (revoke_token "tok" c) in
  let twice := snd (revoke_token "tok" (at_time 20 once)) in
  let request := server.mkRequest server.MethodPost [(server.CookieName, "tok")] [] in
  let once' := snd (server.handleLogout server.blank request c) in
  let twice' := snd (server.handleLogout server.blank request (at_time 20 once')) in
  sessions (store once) = [Session.mk "tok" 1 0 100 (Some 10)] /\
  sessions (store twice) = [Session.mk "tok" 1 0 100 (Some 20)] /\
  store twice <> store once /\
  store once' = store once /\
  store twice' = store twice.
Proof. vm_compute. repeat split. discriminate. Qed.

(** ** Reacting to a post that does not exist *)

(** What the FOREIGN KEY clause of [post_likes] would do on a connection
    that had foreign keys on: the INSERT is refused and no row is
    written. *)
Lemma foreign_keys_on_refuse (c : DB) (postID userID value : Z) :
  faults c = [] -> foreign_keys (store c) = true ->
  post_exists postID (store c) = false ->
  like_row postID userID (post_likes (store c)) = None ->
  models.TogglePostLike postID userID value c = (Some (SqliteError fk_failed), c).
Proof.
  intros Hf Hk Hp Hrow. unfold models.TogglePostLike.
  rewrite Exec_no_fault by exact Hf. unfold models.toggle_post_like.
  rewrite Hk, Hp. simpl.
  destruct (existsb (models.same_key postID userID) (post_likes (store c))) eqn:E;
    [|reflexivity].
  apply find_some_existsb in E. destruct E as [r [Hr _]].
  unfold like_row in Hrow. rewrite Hr in Hrow. discriminate.
Qed.

(** C6, on the code.  No post exists.  Alice, signed in, sends the Like
    button for post 999: the handler checks the value only, the
    connection of [db.Open] has foreign keys off, the row (999, 1, 1) is
    written and the answer is the redirect to the post page. *)
Theorem like_is_recorded_for_a_missing_post :
  let alice := User.mk 1 "a@b.com" "alice" "hash" 0 in
  let c := db.Open (with_users [alice] 1 (empty_store true)) 0 [] in
  let request := server.mkRequest server.MethodPost []
                   [("post_id", "999"); ("value", "1")] in
  let out := server.handlePostLike server.blank request alice c in
  posts (store c) = [] /\
  post_exists 999 (store c) = false /\
  server.Code (fst out) = 303 /\
  server.Location (fst out) = "/post?id=999" /\
  post_likes (store (snd out)) = [Like.mk 999 1 1] /\
  stance 999 1 (post_likes (store (snd out))) = Liked.
Proof. vm_compute. repeat split. Qed.

(** ** Registering a user *)

(** C7. With no storage fault pending, [CreateUser] on an email that is
    taken (and a free username) returns ErrDuplicateEmail, on a username
    that is taken (and a free email) ErrDuplicateUsername, on both one of
    the two, and writes nothing in these cases; when both are free it
    returns nil and appends the row.  On the empty tables: after
    (a@x.com, bob), registering (a@x.com, carol) fails with
    ErrDuplicateEmail and then (c@x.com, bob) with ErrDuplicateUsername,
    whichever index SQLite consults first. *)
Theorem CreateUser_distinguishes_duplicates
    (c : DB) (email username passwordHash : string) :
  faults c = [] ->
  let r := models.CreateUser email username passwordHash c in
  (models.email_taken email (store c) = true ->
   models.username_taken username (store c) = false ->
   fst r = Some ErrDuplicateEmail /\ store (snd r) = store c) /\
  (models.email_taken email (store c) = false ->
   models.username_taken username (store c) = true ->
   fst r = Some ErrDuplicateUsername /\ store (snd r) = store c) /\
  (models.email_taken email (store c) = true ->
   models.username_taken username (store c) = true ->
   (fst r = Some ErrDuplicateEmail \/ fst r = Some ErrDuplicateUsername) /\
   store (snd r) = store c) /\
  (models.email_taken email (store c) = false ->
   models.username_taken username (store c) = false ->
   fst r = None /\
   users (store (snd r)) =
     users (store c) ++ [User.mk (users_seq (store c) + 1) email username passwordHash (now c)]) /\
  (forall (email_first : bool) (t : Time) (h1 h2 h3 : string),
     let c0 := db.Open (empty_store email_first) t [] in
     let r1 := models.CreateUser "a@x.com" "bob" h1 c0 in
     let r2 := models.CreateUser "a@x.com" "carol" h2 (snd r1) in
     let r3 := models.CreateUser "c@x.com" "bob" h3 (snd r2) in
     fst r1 = None /\
     fst r2 = Some ErrDuplicateEmail /\
     fst r3 = Some ErrDuplicateUsername /\
     fst r2 <> Some ErrDuplicateUsername /\
     users (store (snd r3)) = [User.mk 1 "a@x.com" "bob" h1 t]).
Proof.
  intros Hf r. subst r. destruct c as [n f s]. simpl in Hf. subst f.
  unfold models.CreateUser, Exec, next_fault, models.insert_user. simpl.
  repeat split.
  - rewrite H, H0. destruct (email_index_first s); reflexivity.
  - rewrite H, H0. destruct (email_index_first s); reflexivity.
  - rewrite H, H0. destruct (email_index_first s); reflexivity.
  - rewrite H, H0. destruct (email_index_first s); reflexivity.
  - rewrite H, H0. destruct (email_index_first s); [left | right]; reflexivity.
  - rewrite H, H0. destruct (email_index_first s); reflexivity.
  - rewrite H, H0. destruct (email_index_first s); reflexivity.
  - rewrite H, H0. destruct (email_index_first s); reflexivity.
  - destruct email_first; reflexivity.
  - destruct email_first; reflexivity.
  - destruct email_first; reflexivity.
  - destruct email_first; discriminate.
  - destruct email_first; reflexivity.
Qed.

Lemma CreateUser_distinguishes_duplicates_witness :
  let bob := User.mk 1 "a@x.com" "bob" "h" 0 in
  let c := mkConn 5 [] (with_users [bob] 1 (empty_store false)) in
  faults c = [] /\
  models.email_taken "a@x.com" (store c) = true /\
  models.username_taken "carol" (store c) = false /\
  fst (models.CreateUser "a@x.com" "carol" "h2" c) = Some ErrDuplicateEmail /\
  store (snd (models.CreateUser "a@x.com" "carol" "h2" c)) = store c.
Proof.
  split; [reflexivity | split; [reflexivity | split; [reflexivity |]]].
  exact (proj1 (CreateUser_distinguishes_duplicates
                  (mkConn 5 [] (with_users [User.mk 1 "a@x.com" "bob" "h" 0] 1
                                           (empty_store false)))
                  "a@x.com" "carol" "h2" eq_refl)
               eq_refl eq_refl).
Defined.

(** The registration form shows which field is at fault: the body of the
    400 answer is the message of the sentinel. *)
Example handleRegister_names_the_field :
  let c0 := db.Open (empty_store true) 0 [] in
  let form e u := server.mkRequest server.MethodPost []
                    [("email", e); ("username", u); ("password", "secret")] in
  let r1 := server.handleRegister (fun p => p) server.blank (form "a@x.com" "bob") c0 in
  let r2 := server.handleRegister (fun p => p) server.blank (form "a@x.com" "carol") (snd r1) in
  let r3 := server.handleRegister (fun p => p) server.blank (form "c@x.com" "bob") (snd r2) in
  server.Code (fst r1) = 303 /\
  (server.Code (fst r2) = 400 /\ server.Body (fst r2) = server.Text "email already exists") /\
  (server.Code (fst r3) = 400 /\ server.Body (fst r3) = server.Text "username already exists").
Proof. vm_compute. repeat split. Qed.

(** ** strconv: what [atoi] returns *)

Lemma decimal_value_ge (d : Decimal.uint) : forall acc,
  0 <= acc -> acc <= decimal_value d acc.
Proof.
  induction d; intros acc Hacc; simpl; [lia|..];
    match goal with
    | |- _ <= decimal_value _ ?a => specialize (IHd a); lia
    end.
Qed.

Lemma decimal_value_of_uint_acc (d : Decimal.uint) : forall acc : positive,
  Z.pos (Pos.of_uint_acc d acc) = decimal_value d (Z.pos acc).
Proof.
  induction d; intros acc; cbn [Pos.of_uint_acc decimal_value];
    [reflexivity|..]; rewrite IHd; apply f_equal; lia.
Qed.

Lemma decimal_value_of_uint (d : Decimal.uint) :
  Z.of_N (Pos.of_uint d) = decimal_value d 0.
Proof.
  induction d; cbn [Pos.of_uint decimal_value Z.of_N]; try reflexivity;
    try exact IHd; rewrite decimal_value_of_uint_acc; reflexivity.
Qed.

(** The loop of [ParseUint] on a digit sequence whose value fits in 64
    bits: no range error, and the value is the one the digits denote. *)
Lemma maxUint64_value : server.maxUint64 = 18446744073709551615.
Proof. reflexivity. Qed.

Lemma cutoff_value : server.maxUint64 / 10 + 1 = 1844674407370955162.
Proof. reflexivity. Qed.

(** The loop of [ParseUint] on a digit sequence whose value fits in 64
    bits: no range error, and the value is the one the digits denote. *)
Lemma ParseUint_from_digits (d : Decimal.uint) : forall acc,
  0 <= acc -> decimal_value d acc <= server.maxUint64 ->
  server.ParseUint_from acc (NilEmpty.string_of_uint d) =
  server.Parsed (decimal_value d acc).
Proof.
  induction d; intros acc Hacc Hmax;
    cbn [NilEmpty.string_of_uint decimal_value server.ParseUint_from] in *;
    [reflexivity|..];
    match goal with
    | H : decimal_value ?l ?a <= _ |- _ =>
        pose proof (decimal_value_ge l a ltac:(lia)) as Hge
    end;
    match goal with
    | |- context [server.digit ?c] =>
        let v := eval vm_compute in (server.digit c) in
        change (server.digit c) with v
    end;
    cbv iota beta;
    rewrite cutoff_value; rewrite maxUint64_value in *;
    (destruct (acc >=? 1844674407370955162) eqn:E1;
     [apply Z.geb_le in E1; lia|]);
    (match goal with
     | |- context [?x >? ?y] => destruct (x >? y) eqn:E2
     end;
     [apply Z.gtb_lt in E2; lia|]);
    apply IHd; lia.
Qed.

(** On any string the loop stays within 64 bits. *)
Lemma ParseUint_from_range (s : string) : forall acc n,
  0 <= acc <= server.maxUint64 ->
  server.ParseUint_from acc s = server.Parsed n ->
  0 <= n <= server.maxUint64.
Proof.
  induction s as [|ch s IH]; intros acc n Hacc; simpl.
  - intros H. injection H as <-. exact Hacc.
  - unfold server.digit. cbv zeta.
    destruct ((48 <=? Z.of_N (N_of_ascii ch)) && (Z.of_N (N_of_ascii ch) <=? 57)) eqn:D;
      [|discriminate].
    apply andb_true_iff in D. destruct D as [D1 D2].
    apply Z.leb_le in D1. apply Z.leb_le in D2.
    destruct (acc >=? 1844674407370955162); [discriminate|].
    destruct (acc * 10 + (Z.of_N (N_of_ascii ch) - 48) >? server.maxUint64) eqn:E;
      [discriminate|].
    apply IH. pose proof (Zgt_cases (acc * 10 + (Z.of_N (N_of_ascii ch) - 48))
                            server.maxUint64) as G.
    rewrite E in G. lia.
Qed.

(** What [Atoi] returns on any string: a value in the range of a 64-bit
    [int], and with the error flag set either 0 or one of the two bounds. *)
Lemma Atoi_cases (s : string) :
  minInt <= fst (server.Atoi s) <= maxInt /\
  (snd (server.Atoi s) = true ->
   fst (server.Atoi s) = 0 \/ fst (server.Atoi s) = maxInt \/ fst (server.Atoi s) = minInt).
Proof.
  unfold server.Atoi, minInt, maxInt.
  set (sd := match s with
             | String "+" s' => (false, s')
             | String "-" s' => (true, s')
             | _ => (false, s)
             end).
  destruct sd as [neg digits].
  destruct s as [|ch s']; [cbn [fst snd]; split; [lia | auto]|].
  unfold server.ParseUint.
  assert (Hp : forall n, server.ParseUint_from 0 digits = server.Parsed n ->
                         0 <= n <= server.maxUint64).
  { intros n. apply ParseUint_from_range. rewrite maxUint64_value. lia. }
  assert (Hun : forall un,
            0 <= un <= server.maxUint64 ->
            let r := if negb neg && (un >=? 2 ^ 63) then (2 ^ 63 - 1, true)
                     else if neg && (un >? 2 ^ 63) then (- 2 ^ 63, true)
                     else (if neg then - un else un, false) in
            - 2 ^ 63 <= fst r <= 2 ^ 63 - 1 /\
            (snd r = true -> fst r = 0 \/ fst r = 2 ^ 63 - 1 \/ fst r = - 2 ^ 63)).
  { intros un Hr. rewrite maxUint64_value in Hr.
    change (2 ^ 63) with 9223372036854775808.
    destruct neg; cbn [negb andb].
    - pose proof (Zgt_cases un 9223372036854775808) as G.
      destruct (un >? 9223372036854775808); cbn [fst snd];
        (split; [lia | intros; try discriminate; auto]).
    - pose proof (Zge_cases un 9223372036854775808) as G.
      destruct (un >=? 9223372036854775808); cbn [fst snd];
        (split; [lia | intros; try discriminate; auto]). }
  destruct digits as [|c ds]; [cbn [fst snd]; split; [lia | auto]|].
  destruct (server.ParseUint_from 0 (String c ds)) as [| |n] eqn:P.
  - cbn [fst snd]. split; [lia | auto].
  - apply Hun. rewrite maxUint64_value. lia.
  - apply Hun. apply Hp. reflexivity.
Qed.

(** X2. Whatever the string, [atoi] returns a value in the range of a
    64-bit [int]; and whenever [strconv.Atoi] reports an error (which
    [atoi] drops) the value is 0, for what is not a number, or the
    nearest bound, for digits beyond the range. *)
Theorem atoi_in_int_range (s : string) :
  minInt <= server.atoi s <= maxInt /\
  (snd (server.Atoi s) = true ->
   server.atoi s = 0 \/ server.atoi s = maxInt \/ server.atoi s = minInt) /\
  (server.atoi s <> 0 -> s <> "").
Proof.
  unfold server.atoi. destruct (Atoi_cases s) as [Hr He].
  split; [exact Hr|]. split; [exact He|].
  intros Hz Hs. subst s. apply Hz. reflexivity.
Qed.

(** [Atoi] on the digits of a number below 2^63, and on the same digits
    behind a minus sign up to 2^63. *)
Lemma Atoi_digits (d : Decimal.uint) :
  d <> Decimal.Nil -> decimal_value d 0 <= maxInt ->
  server.Atoi (NilEmpty.string_of_uint d) = (decimal_value d 0, false).
Proof.
  intros Hd Hmax.
  assert (Hp : server.ParseUint_from 0 (NilEmpty.string_of_uint d) =
               server.Parsed (decimal_value d 0)).
  { apply ParseUint_from_digits; [lia|]. rewrite maxUint64_value.
    unfold maxInt in Hmax. lia. }
  pose proof (decimal_value_ge d 0 ltac:(lia)) as Hge.
  assert (Hlt : (decimal_value d 0 >=? 2 ^ 63) = false).
  { pose proof (Zge_cases (decimal_value d 0) (2 ^ 63)) as G.
    destruct (decimal_value d 0 >=? 2 ^ 63); [unfold maxInt in Hmax; lia | reflexivity]. }
  destruct d; [contradiction|..];
    cbn [NilEmpty.string_of_uint] in *;
    cbv beta iota zeta delta [server.Atoi server.ParseUint];
    rewrite Hp; cbv beta iota; cbn [negb andb]; rewrite Hlt; reflexivity.
Qed.

Lemma Atoi_minus_digits (d : Decimal.uint) :
  d <> Decimal.Nil -> decimal_value d 0 <= 2 ^ 63 ->
  server.Atoi (String "-" (NilEmpty.string_of_uint d)) = (- decimal_value d 0, false).
Proof.
  intros Hd Hmax.
  assert (Hp : server.ParseUint_from 0 (NilEmpty.string_of_uint d) =
               server.Parsed (decimal_value d 0)).
  { apply ParseUint_from_digits; [lia|]. rewrite maxUint64_value. lia. }
  assert (Hle : (decimal_value d 0 >? 2 ^ 63) = false).
  { pose proof (Zgt_cases (decimal_value d 0) (2 ^ 63)) as G.
    destruct (decimal_value d 0 >? 2 ^ 63); [lia | reflexivity]. }
  destruct d; [contradiction|..];
    cbn [NilEmpty.string_of_uint] in *;
    cbv beta iota zeta delta [server.Atoi server.ParseUint];
    rewrite Hp; cbv beta iota; cbn [negb andb]; rewrite Hle; reflexivity.
Qed.

(** [strconv.Atoi] on what [strconv.Itoa] printed: the number, and no
    error. *)
Lemma Atoi_itoa (n : Z) :
  minInt <= n <= maxInt -> server.Atoi (server.itoa n) = (n, false).
Proof.
  unfold minInt, maxInt. intros Hn. unfold server.itoa.
  destruct n as [|p|p]; [reflexivity|..]; cbn [Z.to_int NilZero.string_of_int].
  - pose proof (DecimalPos.Unsigned.to_uint_nonnil p) as Hnil.
    assert (Hv : decimal_value (Pos.to_uint p) 0 = Z.pos p).
    { rewrite <- decimal_value_of_uint, DecimalPos.Unsigned.of_to. reflexivity. }
    replace (NilZero.string_of_uint (Pos.to_uint p))
      with (NilEmpty.string_of_uint (Pos.to_uint p))
      by (destruct (Pos.to_uint p); [contradiction | reflexivity..]).
    rewrite Atoi_digits; [rewrite Hv; reflexivity | exact Hnil |].
    rewrite Hv. unfold maxInt. lia.
  - pose proof (DecimalPos.Unsigned.to_uint_nonnil p) as Hnil.
    assert (Hv : decimal_value (Pos.to_uint p) 0 = Z.pos p).
    { rewrite <- decimal_value_of_uint, DecimalPos.Unsigned.of_to. reflexivity. }
    replace (NilZero.string_of_uint (Pos.to_uint p))
      with (NilEmpty.string_of_uint (Pos.to_uint p))
      by (destruct (Pos.to_uint p); [contradiction | reflexivity..]).
    rewrite Atoi_minus_digits; [rewrite Hv; reflexivity | exact Hnil |].
    rewrite Hv. lia.
Qed.

(** X1. Printing a Go [int] with [itoa] and reading it back with [atoi]
    gives the number again, over the whole 64-bit range, with no error
    from [strconv.Atoi]; so two different numbers never print alike. *)
Theorem atoi_itoa (n : Z) :
  minInt <= n <= maxInt ->
  server.atoi (server.itoa n) = n /\
  snd (server.Atoi (server.itoa n)) = false /\
  (forall m, minInt <= m <= maxInt -> server.itoa m = server.itoa n -> m = n).
Proof.
  intros Hn. unfold server.atoi. rewrite (Atoi_itoa n Hn).
  split; [reflexivity|]. split; [reflexivity|].
  intros m Hm E.
  pose proof (Atoi_itoa m Hm) as Em. rewrite E, (Atoi_itoa n Hn) in Em.
  injection Em as Em. symmetry. exact Em.
Qed.

Lemma atoi_itoa_witness :
  (minInt <= -9223372036854775808 <= maxInt) /\
  server.itoa (-9223372036854775808) = "-9223372036854775808" /\
  server.atoi (server.itoa (-9223372036854775808)) = -9223372036854775808.
Proof.
  split; [vm_compute; split; discriminate | split; [reflexivity |]].
  apply (fun H => proj1 (atoi_itoa (-9223372036854775808) H)).
  vm_compute. split; discriminate.
Defined.

(** ** Sessions: issue, look up, revoke *)

Lemma session_row_unknown (sid : string) (s : Store) :
  models.session_known sid s = false -> session_row sid s = None.
Proof. apply find_none_existsb. Qed.

Lemma session_row_known (sid : string) (s : Store) (x : Session.t) :
  session_row sid s = Some x -> models.session_known sid s = true.
Proof.
  unfold session_row, models.session_known. intros H. apply find_some in H.
  apply existsb_exists. exists x. exact H.
Qed.

Lemma session_row_ID (sid : string) (s : Store) (x : Session.t) :
  session_row sid s = Some x -> Session.ID x = sid.
Proof.
  unfold session_row. intros H. apply find_some in H. apply String.eqb_eq, H.
Qed.

(** The row of a token after an issuance that ran: the new row for the
    new token, the old row (revoked if it was the user's) for any other. *)
Lemma session_row_after_issue (u : Z) (sid : string) (expires t : Time)
    (s : Store) (tok : string) :
  models.session_known sid s = false ->
  session_row tok
    (with_sessions (map (revoke_if_active u t) (sessions s)
                    ++ [Session.mk sid u t expires None]) s) =
  if String.eqb sid tok then Some (Session.mk sid u t expires None)
  else option_map (revoke_if_active u t) (session_row tok s).
Proof.
  intros Hnew. unfold session_row. simpl.
  assert (Hm : find (fun x => String.eqb (Session.ID x) tok)
                    (map (revoke_if_active u t) (sessions s)) =
               option_map (revoke_if_active u t)
                 (find (fun x => String.eqb (Session.ID x) tok) (sessions s))).
  { apply find_map_same. intros x. rewrite revoke_if_active_ID. reflexivity. }
  destruct (String.eqb sid tok) eqn:E.
  - apply String.eqb_eq in E. subst tok.
    apply session_row_unknown in Hnew. unfold session_row in Hnew.
    rewrite Hnew in Hm. simpl in Hm.
    rewrite (find_app_none _ _ _ Hm). simpl. rewrite String.eqb_refl. reflexivity.
  - destruct (find (fun x => String.eqb (Session.ID x) tok) (sessions s)) as [x|] eqn:F;
      simpl in Hm.
    + rewrite (find_app_some _ _ _ _ Hm). reflexivity.
    + rewrite (find_app_none _ _ _ Hm). simpl. rewrite E. reflexivity.
Qed.

(** X3. An issuance with a fresh token, no fault pending and foreign
    keys off returns nil, and looking the token up gives the row just
    written: its user, its expiry, created now, not revoked. *)
Theorem GetSession_after_CreateSession
    (c : DB) (u : Z) (sid : string) (expires : Time) :
  faults c = [] ->
  foreign_keys (store c) = false ->
  models.session_known sid (store c) = false ->
  fst (models.CreateSession u sid expires c) = None /\
  models.GetSession sid (snd (models.CreateSession u sid expires c)) =
    (inr (Session.mk sid u (now c) expires None),
     snd (models.CreateSession u sid expires c)).
Proof.
  intros Hf Hk Hnew. rewrite CreateSession_run by assumption. simpl.
  split; [reflexivity|].
  unfold models.GetSession. rewrite QueryRow_no_fault by reflexivity. simpl.
  pose proof (session_row_after_issue u sid expires (now c) (store c) sid Hnew) as H.
  unfold session_row in H. simpl in H. rewrite H, String.eqb_refl. reflexivity.
Qed.

Lemma GetSession_after_CreateSession_witness :
  let c := mkConn 7 [] (with_sessions [Session.mk "s0" 1 5 100 None] (empty_store true)) in
  faults c = [] /\
  models.session_known "s1" (store c) = false /\
  fst (models.GetSession "s1" (snd (models.CreateSession 1 "s1" 107 c))) =
    inr (Session.mk "s1" 1 7 107 None).
Proof.
  split; [reflexivity | split; [reflexivity |]].
  exact (f_equal fst (proj2 (GetSession_after_CreateSession
           (mkConn 7 [] (with_sessions [Session.mk "s0" 1 5 100 None] (empty_store true)))
           1 "s1" 107 eq_refl eq_refl eq_refl))).
Defined.

(** X6. After an issuance that ran, every token the user held before is
    Invalid at every instant, and the tokens of other users validate as
    they did. *)
Theorem CreateSession_invalidates_prior_tokens
    (c : DB) (u : Z) (sid : string) (expires : Time) :
  faults c = [] ->
  foreign_keys (store c) = false ->
  models.session_known sid (store c) = false ->
  let c' := snd (models.CreateSession u sid expires c) in
  (forall tok sess t, session_row tok (store c) = Some sess ->
     Session.UserID sess = u -> validate tok (at_time t c') = None) /\
  (forall tok sess t, session_row tok (store c) = Some sess ->
     Session.UserID sess <> u ->
     validate tok (at_time t c') = validate tok (at_time t c)).
Proof.
  intros Hf Hk Hnew c'. subst c'. rewrite CreateSession_run by assumption. simpl.
  assert (Hne : forall tok sess, session_row tok (store c) = Some sess ->
                  String.eqb sid tok = false).
  { intros tok sess H. apply session_row_known in H.
    destruct (String.eqb sid tok) eqn:E; [|reflexivity].
    apply String.eqb_eq in E. congruence. }
  split; intros tok sess t Hrow Hu;
    rewrite !validate_run by (simpl; assumption || reflexivity); simpl;
    rewrite session_row_after_issue by exact Hnew;
    rewrite (Hne tok sess Hrow), Hrow; simpl.
  - unfold revoke_if_active. apply Z.eqb_eq in Hu. rewrite Hu.
    destruct (Session.RevokedAt sess) eqn:R; simpl; [rewrite R|]; reflexivity.
  - unfold revoke_if_active. apply Z.eqb_neq in Hu. rewrite Hu. reflexivity.
Qed.

Lemma CreateSession_invalidates_prior_tokens_witness :
  let alice := User.mk 1 "a@b.com" "alice" "h" 0 in
  let c := mkConn 7 [] (with_sessions [Session.mk "s0" 1 5 100 None]
                          (with_users [alice] 1 (empty_store true))) in
  validate "s0" (at_time 8 c) = Some alice /\
  validate "s0" (at_time 8 (snd (models.CreateSession 1 "s1" 107 c))) = None.
Proof.
  split; [reflexivity|].
  exact (proj1 (CreateSession_invalidates_prior_tokens
           (mkConn 7 [] (with_sessions [Session.mk "s0" 1 5 100 None]
                           (with_users [User.mk 1 "a@b.com" "alice" "h" 0] 1
                                       (empty_store true))))
           1 "s1" 107 eq_refl eq_refl eq_refl)
         "s0" (Session.mk "s0" 1 5 100 None) 8 eq_refl eq_refl).
Defined.

(** ** Logging in and out *)

Lemma handleLogin_run (cmp : string -> string -> bool) (sid : string)
    (w : server.Response) (r : server.Request) (c : DB) (user : User.t) :
  faults c = [] ->
  foreign_keys (store c) = false ->
  server.Method r = server.MethodPost ->
  find (fun u => String.eqb (User.Email u) (server.FormValue r "email"))
       (users (store c)) = Some user ->
  cmp (User.PasswordHash user) (server.FormValue r "password") = true ->
  models.session_known sid (store c) = false ->
  server.handleLogin cmp sid w r c =
    (server.http_Redirect "/" server.StatusSeeOther
       (server.http_SetCookie
          (server.mkCookie server.CookieName sid "/" (Some (now c + 24 * Hour)) 0 true) w),
     mkConn (now c) []
       (with_sessions
          (map (revoke_if_active (User.ID user) (now c)) (sessions (store c))
           ++ [Session.mk sid (User.ID user) (now c) (now c + 24 * Hour) None])
          (store c))).
Proof.
  intros Hf Hk Hm Hu Hp Hnew. unfold server.handleLogin. rewrite Hm.
  change (String.eqb server.MethodPost server.MethodGet) with false.
  change (String.eqb server.MethodPost server.MethodPost) with true.
  cbv iota. unfold models.GetUserByEmail.
  rewrite QueryRow_no_fault by exact Hf. rewrite Hu, Hp. cbn [negb].
  rewrite CreateSession_run by assumption. reflexivity.
Qed.

(** X4. A login with the right password, a fresh token and no storage
    fault answers 303 to "/" with one cookie: the token, http-only,
    expiring 24 hours from now.  Presented at any instant up to that
    expiry the token validates as the user who logged in; after it, as
    nobody. *)
Theorem login_cookie_authenticates
    (cmp : string -> string -> bool) (sid : string)
    (r : server.Request) (c : DB) (user : User.t) :
  faults c = [] ->
  foreign_keys (store c) = false ->
  server.Method r = server.MethodPost ->
  find (fun u => String.eqb (User.Email u) (server.FormValue r "email"))
       (users (store c)) = Some user ->
  cmp (User.PasswordHash user) (server.FormValue r "password") = true ->
  models.session_known sid (store c) = false ->
  user_row (User.ID user) (store c) = Some user ->
  let out := server.handleLogin cmp sid server.blank r c in
  server.Code (fst out) = 303 /\
  server.Location (fst out) = "/" /\
  server.SetCookies (fst out) =
    [server.mkCookie "session_id" sid "/" (Some (now c + 24 * Hour)) 0 true] /\
  (forall t, t <= now c + 24 * Hour -> validate sid (at_time t (snd out)) = Some user) /\
  (forall t, now c + 24 * Hour < t -> validate sid (at_time t (snd out)) = None).
Proof.
  intros Hf Hk Hm Hu Hp Hnew Hrow out. subst out.
  rewrite (handleLogin_run cmp sid server.blank r c user) by assumption.
  split; [reflexivity|]. split; [reflexivity|]. split; [reflexivity|].
  split; intros t Ht; rewrite validate_run by reflexivity; simpl;
    rewrite session_row_after_issue by exact Hnew;
    rewrite String.eqb_refl; simpl.
  - match goal with
    | |- context [?a <? t] => destruct (Z.ltb_spec a t) as [E|E]
    end; [unfold Hour in *; lia | exact Hrow].
  - match goal with
    | |- context [?a <? t] => destruct (Z.ltb_spec a t) as [E|E]
    end; [reflexivity | unfold Hour in *; lia].
Qed.

Lemma login_cookie_authenticates_witness :
  let alice := User.mk 1 "a@b.com" "alice" "secret" 0 in
  let c := mkConn 1000 [] (with_users [alice] 1 (empty_store true)) in
  let r := server.mkRequest "POST" [] [("email", "a@b.com"); ("password", "secret")] in
  let out := server.handleLogin String.eqb "s1" server.blank r c in
  server.Code (fst out) = 303 /\
  validate "s1" (at_time (1000 + 24 * Hour) (snd out)) = Some alice.
Proof.
  pose proof (login_cookie_authenticates String.eqb "s1"
                (server.mkRequest "POST" [] [("email", "a@b.com"); ("password", "secret")])
                (mkConn 1000 [] (with_users [User.mk 1 "a@b.com" "alice" "secret" 0] 1
                                            (empty_store true)))
                (User.mk 1 "a@b.com" "alice" "secret" 0)
                eq_refl eq_refl eq_refl eq_refl eq_refl eq_refl eq_refl) as H.
  split; [exact (proj1 H)|].
  apply (proj1 (proj2 (proj2 (proj2 H)))). simpl. apply Z.le_refl.
Defined.



Lemma revoke_token_run (token : string) (c : DB) :
  faults c = [] ->
  revoke_token token c =
    (None, mkConn (now c) []
             (with_sessions
                (map (fun x => if String.eqb (Session.ID x) token
                               then models.revoke (now c) x else x)
                     (sessions (store c))) (store c))).
Proof.
  intros Hf. unfold revoke_token. rewrite Exec_no_fault by exact Hf. reflexivity.
Qed.

(** X5. A POST to logout carrying a token, with no storage fault,
    answers 303 to "/" and expires the cookie; from then on the token is
    Invalid at every instant, and every other token validates as it did
    before. *)
Theorem logout_invalidates_the_token (r : server.Request) (c : DB) (token : string) :
  faults c = [] ->
  server.Method r = server.MethodPost ->
  server.Request_Cookie r server.CookieName = Some token ->
  let out := server.handleLogout server.blank r c in
  server.Code (fst out) = 303 /\
  server.Location (fst out) = "/" /\
  server.SetCookies (fst out) = [server.mkCookie "session_id" "" "/" None (-1) false] /\
  (forall t, validate token (at_time t (snd out)) = None) /\
  (forall other t, other <> token ->
     validate other (at_time t (snd out)) = validate other (at_time t c)).
Proof.
  intros Hf Hm Hck out. subst out. unfold server.handleLogout. rewrite Hm, Hck.
  change (negb (String.eqb server.MethodPost server.MethodPost)) with false. cbv iota.
  fold (revoke_token token). rewrite revoke_token_run by exact Hf.
  split; [reflexivity|]. split; [reflexivity|]. split; [reflexivity|].
  set (g := fun x : Session.t =>
              if String.eqb (Session.ID x) token then models.revoke (now c) x else x).
  assert (Hid : forall tok x, String.eqb (Session.ID (g x)) tok
                              = String.eqb (Session.ID x) tok).
  { intros tok x. unfold g. destruct (String.eqb (Session.ID x) token); reflexivity. }
  split.
  - intros t. rewrite validate_run by reflexivity. unfold session_row. simpl.
    rewrite (find_map_same _ g _ (Hid token)).
    destruct (find (fun x => String.eqb (Session.ID x) token) (sessions (store c)))
      as [x|] eqn:F; [|reflexivity].
    apply find_some in F. destruct F as [_ F]. simpl. unfold g. rewrite F. reflexivity.
  - intros other t Hne. rewrite !validate_run by (simpl; assumption || reflexivity).
    unfold session_row. simpl. rewrite (find_map_same _ g _ (Hid other)).
    destruct (find (fun x => String.eqb (Session.ID x) other) (sessions (store c)))
      as [x|] eqn:F; [|reflexivity].
    apply find_some in F. destruct F as [_ F]. apply String.eqb_eq in F.
    simpl. unfold g. rewrite F.
    destruct (String.eqb other token) eqn:E; [|reflexivity].
    apply String.eqb_eq in E. contradiction.
Qed.

Lemma logout_invalidates_the_token_witness :
  let alice := User.mk 1 "a@b.com" "alice" "h" 0 in
  let c := mkConn 7 [] (with_sessions [Session.mk "s0" 1 5 100 None]
                          (with_users [alice] 1 (empty_store true))) in
  let r := server.mkRequest "POST" [("session_id", "s0")] [] in
  validate "s0" c = Some alice /\
  validate "s0" (at_time 7 (snd (server.handleLogout server.blank r c))) = None.
Proof.
  split; [reflexivity|].
  exact (proj1 (proj2 (proj2 (proj2 (logout_invalidates_the_token
           (server.mkRequest "POST" [("session_id", "s0")] [])
           (mkConn 7 [] (with_sessions [Session.mk "s0" 1 5 100 None]
                           (with_users [User.mk 1 "a@b.com" "alice" "h" 0] 1
                                       (empty_store true))))
           "s0" eq_refl eq_refl eq_refl)))) 7).
Defined.

(** ** The sessions table as a record of grants *)

Lemma same_grant_refl (x : Session.t) : same_grant x x.
Proof. unfold same_grant. auto. Qed.

Lemma same_grant_trans (x y z : Session.t) :
  same_grant x y -> same_grant y z -> same_grant x z.
Proof.
  unfold same_grant. intros [A [B [C [D E]]]] [A' [B' [C' [D' E']]]].
  repeat split; try congruence. auto.
Qed.

Lemma same_grant_revoke (t : Time) (x : Session.t) : same_grant x (models.revoke t x).
Proof. unfold same_grant, models.revoke. simpl. repeat split; discriminate. Qed.

(** The rows a session statement can leave: the table as it was, every
    row passed through a function that keeps the grant, or that and one
    more row at the end. *)
Lemma do_session_op_rows (o : session_op) (c : DB) :
  exists (g : Session.t -> Session.t) (extra : list Session.t),
    (forall x, same_grant x (g x)) /\
    sessions (store (do_session_op o c)) = map g (sessions (store c)) ++ extra.
Proof.
  destruct o as [t u sid expires | t token]; simpl.
  - destruct (CreateSession_store u sid expires (at_time t c)) as [[_ E]|[[_ E]|[_ E]]];
      rewrite E; simpl.
    + exists (fun x => x), []. split; [apply same_grant_refl|].
      rewrite map_id, app_nil_r. reflexivity.
    + exists (revoke_if_active u t), []. split; [|rewrite app_nil_r; reflexivity].
      intros x. unfold revoke_if_active.
      destruct (_ && _); [apply same_grant_revoke | apply same_grant_refl].
    + exists (revoke_if_active u t), [Session.mk sid u t expires None].
      split; [|reflexivity].
      intros x. unfold revoke_if_active.
      destruct (_ && _); [apply same_grant_revoke | apply same_grant_refl].
  - unfold revoke_token, Exec, next_fault. simpl.
    destruct (faults c) as [|[msg|] fs]; simpl.
    + exists (fun x => if String.eqb (Session.ID x) token then models.revoke t x else x), [].
      split; [|rewrite app_nil_r; reflexivity].
      intros x. destruct (String.eqb _ _); [apply same_grant_revoke | apply same_grant_refl].
    + exists (fun x => x), []. split; [apply same_grant_refl|].
      rewrite map_id, app_nil_r. reflexivity.
    + exists (fun x => if String.eqb (Session.ID x) token then models.revoke t x else x), [].
      split; [|rewrite app_nil_r; reflexivity].
      intros x. destruct (String.eqb _ _); [apply same_grant_revoke | apply same_grant_refl].
Qed.

Lemma do_session_op_keeps (o : session_op) (c : DB) (tok : string) (x : Session.t) :
  session_row tok (store c) = Some x ->
  exists y, session_row tok (store (do_session_op o c)) = Some y /\ same_grant x y.
Proof.
  intros Hrow. destruct (do_session_op_rows o c) as [g [extra [Hg E]]].
  exists (g x). split; [|apply Hg].
  unfold session_row in *. rewrite E. apply find_app_some.
  rewrite find_map_same.
  - rewrite Hrow. reflexivity.
  - intros z. destruct (Hg z) as [-> _]. reflexivity.
Qed.

(** X8. Sessions are never deleted and a revocation is never undone:
    through any sequence of logins and logouts, at any instants and under
    any storage faults, a token that has a row keeps a row with the same
    user, creation time and expiry, and once revoked stays revoked. *)
Theorem sessions_are_kept_and_stay_revoked
    (ops : list session_op) (c : DB) (tok : string) (x : Session.t) :
  session_row tok (store c) = Some x ->
  exists y, session_row tok (store (run_session_ops ops c)) = Some y /\ same_grant x y.
Proof.
  revert c x. induction ops as [|o ops IH]; intros c x Hrow; simpl.
  - exists x. split; [exact Hrow | apply same_grant_refl].
  - destruct (do_session_op_keeps o c tok x Hrow) as [y [Hy Hxy]].
    destruct (IH _ y Hy) as [z [Hz Hyz]].
    exists z. split; [exact Hz | exact (same_grant_trans _ _ _ Hxy Hyz)].
Qed.

Lemma sessions_are_kept_and_stay_revoked_witness :
  let c := mkConn 7 [None; Some "disk I/O error"]
             (with_sessions [Session.mk "s0" 1 5 100 (Some 6)] (empty_store true)) in
  let ops := [Login 8 1 "s1" 108; Logout 9 "s1"; Login 10 1 "s0" 110] in
  exists y, session_row "s0" (store (run_session_ops ops c)) = Some y /\
            same_grant (Session.mk "s0" 1 5 100 (Some 6)) y.
Proof.
  exact (sessions_are_kept_and_stay_revoked
           [Login 8 1 "s1" 108; Logout 9 "s1"; Login 10 1 "s0" 110]
           (mkConn 7 [None; Some "disk I/O error"]
              (with_sessions [Session.mk "s0" 1 5 100 (Some 6)] (empty_store true)))
           "s0" (Session.mk "s0" 1 5 100 (Some 6)) eq_refl).
Defined.

(** X9. [CreateSession] rewrites only the unrevoked rows of its user:
    whatever it returns, a row that is already revoked, or that belongs
    to another user, is still in the table exactly as it was, timestamp
    included. *)
Theorem CreateSession_touches_only_active_rows_of_the_user
    (c : DB) (u : Z) (sid : string) (expires : Time) (x : Session.t) :
  In x (sessions (store c)) ->
  Session.RevokedAt x <> None \/ Session.UserID x <> u ->
  In x (sessions (store (snd (models.CreateSession u sid expires c)))).
Proof.
  intros Hin Hx.
  assert (Hfix : revoke_if_active u (now c) x = x).
  { unfold revoke_if_active. destruct Hx as [Hx|Hx].
    - destruct (Session.RevokedAt x); [|congruence].
      rewrite andb_false_r. reflexivity.
    - apply Z.eqb_neq in Hx. rewrite Hx. reflexivity. }
  assert (Hmap : In x (map (revoke_if_active u (now c)) (sessions (store c)))).
  { rewrite <- Hfix. apply in_map, Hin. }
  destruct (CreateSession_store u sid expires c) as [[_ E]|[[_ E]|[_ E]]];
    rewrite E; simpl; auto.
  apply in_or_app. left. exact Hmap.
Qed.

Lemma CreateSession_touches_only_active_rows_of_the_user_witness :
  let old := Session.mk "s0" 1 5 100 (Some 6) in
  let c := mkConn 7 [] (with_sessions [old; Session.mk "s1" 1 6 106 None]
                          (empty_store true)) in
  sessions (store (snd (models.CreateSession 1 "s2" 107 c))) =
    [old; Session.mk "s1" 1 6 106 (Some 7); Session.mk "s2" 1 7 107 None] /\
  In old (sessions (store (snd (models.CreateSession 1 "s2" 107 c)))).
Proof.
  split; [reflexivity|].
  apply (CreateSession_touches_only_active_rows_of_the_user
           (mkConn 7 [] (with_sessions [Session.mk "s0" 1 5 100 (Some 6);
                                        Session.mk "s1" 1 6 106 None]
                           (empty_store true)))
           1 "s2" 107 (Session.mk "s0" 1 5 100 (Some 6))).
  - left. reflexivity.
  - left. discriminate.
Defined.

(** ** The users table *)

(** The two ways [CreateUser] can end: nothing written, or the new row
    appended with the next id, both columns having been free. *)
Lemma CreateUser_store (email username passwordHash : string) (c : DB) :
  let r := models.CreateUser email username passwordHash c in
  (fst r <> None /\ store (snd r) = store c) \/
  (fst r = None /\
   models.email_taken email (store c) = false /\
   models.username_taken username (store c) = false /\
   store (snd r) =
     with_users (users (store c)
                 ++ [User.mk (users_seq (store c) + 1) email username passwordHash (now c)])
                (users_seq (store c) + 1) (store c)).
Proof.
  assert (Hrun : forall n fs s,
            let r := models.CreateUser email username passwordHash (mkConn n fs s) in
            hd None fs = None ->
            (fst r <> None /\ store (snd r) = s) \/
            (fst r = None /\
             models.email_taken email s = false /\
             models.username_taken username s = false /\
             store (snd r) =
               with_users (users s ++ [User.mk (users_seq s + 1) email username
                                               passwordHash n])
                          (users_seq s + 1) s)).
  { intros n fs s r Hhd. subst r.
    unfold models.CreateUser, Exec, next_fault, models.insert_user. simpl.
    destruct fs as [|[msg|] fs]; try discriminate; simpl;
      destruct (email_index_first s), (models.email_taken email s) eqn:E,
               (models.username_taken username s) eqn:U; simpl;
      try (left; split; [discriminate | reflexivity]);
      right; repeat split; reflexivity. }
  destruct c as [n f s]. simpl.
  destruct f as [|[msg|] fs]; [apply Hrun; reflexivity | | apply Hrun; reflexivity].
  left. unfold models.CreateUser, Exec, next_fault. simpl.
  destruct (negb (String.eqb msg ""));
    [destruct (contains msg "UNIQUE constraint failed: users.email");
     [|destruct (contains msg "UNIQUE constraint failed: users.username")]|];
    simpl; split; discriminate || reflexivity.
Qed.

Lemma taken_In_email (email : string) (s : Store) :
  models.email_taken email s = false -> ~ In email (map User.Email (users s)).
Proof.
  intros H Hin. apply in_map_iff in Hin. destruct Hin as [u [Hu Hin]].
  assert (models.email_taken email s = true); [|congruence].
  apply existsb_exists. exists u. split; [exact Hin | apply String.eqb_eq, Hu].
Qed.

Lemma taken_In_username (username : string) (s : Store) :
  models.username_taken username s = false -> ~ In username (map User.Username (users s)).
Proof.
  intros H Hin. apply in_map_iff in Hin. destruct Hin as [u [Hu Hin]].
  assert (models.username_taken username s = true); [|congruence].
  apply existsb_exists. exists u. split; [exact Hin | apply String.eqb_eq, Hu].
Qed.

Lemma CreateUser_keeps_users_ok (email username passwordHash : string) (c : DB) :
  users_ok (store c) ->
  users_ok (store (snd (models.CreateUser email username passwordHash c))).
Proof.
  intros [He [Hu [Hi Hs]]].
  destruct (CreateUser_store email username passwordHash c) as [[_ E]|[_ [Te [Tu E]]]];
    rewrite E; [repeat split; assumption|].
  unfold users_ok. simpl. rewrite !map_app. simpl.
  split; [|split; [|split]].
  - apply NoDup_app; [exact He | repeat constructor; simpl; tauto |].
    intros x Hx [<-|[]]. exact (taken_In_email _ _ Te Hx).
  - apply NoDup_app; [exact Hu | repeat constructor; simpl; tauto |].
    intros x Hx [<-|[]]. exact (taken_In_username _ _ Tu Hx).
  - apply NoDup_app; [exact Hi | repeat constructor; simpl; tauto |].
    intros x Hx [<-|[]]. apply in_map_iff in Hx. destruct Hx as [v [Hv Hin]].
    pose proof (proj1 (Forall_forall _ _) Hs v Hin) as Hle. simpl in Hle. lia.
  - apply Forall_app. split.
    + apply Forall_forall. intros v Hv.
      pose proof (proj1 (Forall_forall _ _) Hs v Hv) as Hle. simpl in Hle. lia.
    + constructor; [simpl; lia | constructor].
Qed.

(** X10. Registrations never make two users share an email, a username
    or an id: from a table that meets the schema, any sequence of
    [CreateUser] calls, failing or not, leaves a table that meets it. *)
Theorem registrations_keep_users_unique (rs : list registration) (c : DB) :
  users_ok (store c) -> users_ok (store (run_registrations rs c)).
Proof.
  revert c. induction rs as [|r rs IH]; intros c H; simpl; [exact H|].
  apply IH, CreateUser_keeps_users_ok, H.
Qed.

Lemma registrations_keep_users_unique_witness :
  let rs := [mkRegistration "a@x.com" "bob" "h1"; mkRegistration "a@x.com" "carol" "h2";
             mkRegistration "c@x.com" "bob" "h3"; mkRegistration "d@x.com" "dan" "h4"] in
  let c := run_registrations rs (db.Open (empty_store false) 0 [None; None; Some "busy"]) in
  map User.ID (users (store c)) = [1; 2] /\
  map User.Email (users (store c)) = ["a@x.com"; "d@x.com"] /\
  users_ok (store c).
Proof.
  split; [reflexivity | split; [reflexivity |]].
  apply (registrations_keep_users_unique
           [mkRegistration "a@x.com" "bob" "h1"; mkRegistration "a@x.com" "carol" "h2";
            mkRegistration "c@x.com" "bob" "h3"; mkRegistration "d@x.com" "dan" "h4"]
           (db.Open (empty_store false) 0 [None; None; Some "busy"])).
  unfold users_ok. simpl. repeat split; constructor.
Defined.

(** X11. A registration with a free email and a free username, no fault
    pending, returns nil, and [GetUserByEmail] then finds the row just
    written (next id, the given username and hash), while it answers for
    every other email as it did before. *)
Theorem GetUserByEmail_after_CreateUser
    (c : DB) (email username passwordHash : string) :
  faults c = [] ->
  models.email_taken email (store c) = false ->
  models.username_taken username (store c) = false ->
  let c' := snd (models.CreateUser email username passwordHash c) in
  fst (models.CreateUser email username passwordHash c) = None /\
  models.GetUserByEmail email c' =
    (inr (User.mk (users_seq (store c) + 1) email username passwordHash (now c)), c') /\
  (forall other, other <> email ->
     fst (models.GetUserByEmail other c') = fst (models.GetUserByEmail other c)).
Proof.
  intros Hf He Hu c'. subst c'.
  destruct c as [n f s]. simpl in *. subst f.
  unfold models.CreateUser, Exec, next_fault, models.insert_user. simpl.
  rewrite He, Hu.
  assert (Hnone : find (fun u => String.eqb (User.Email u) email) (users s) = None).
  { apply find_none_existsb. exact He. }
  destruct (email_index_first s); simpl; (split; [reflexivity|]);
    unfold models.GetUserByEmail, QueryRow, next_fault; simpl;
    (split;
     [ rewrite (find_app_none _ _ _ Hnone); simpl; rewrite String.eqb_refl; reflexivity
     | intros other Hne;
       destruct (find (fun u => String.eqb (User.Email u) other) (users s)) as [v|] eqn:F;
       [ rewrite (find_app_some _ _ _ _ F); reflexivity
       | rewrite (find_app_none _ _ _ F); simpl;
         destruct (String.eqb email other) eqn:E;
         [apply String.eqb_eq in E; congruence | reflexivity] ] ]).
Qed.

Lemma GetUserByEmail_after_CreateUser_witness :
  let c := mkConn 3 [] (with_users [User.mk 1 "a@x.com" "bob" "h" 0] 1 (empty_store true)) in
  models.email_taken "c@x.com" (store c) = false /\
  fst (models.GetUserByEmail "c@x.com" (snd (models.CreateUser "c@x.com" "carol" "h2" c))) =
    inr (User.mk 2 "c@x.com" "carol" "h2" 3).
Proof.
  split; [reflexivity|].
  exact (f_equal fst (proj1 (proj2 (GetUserByEmail_after_CreateUser
           (mkConn 3 [] (with_users [User.mk 1 "a@x.com" "bob" "h" 0] 1 (empty_store true)))
           "c@x.com" "carol" "h2" eq_refl eq_refl eq_refl)))).
Defined.

(** ** Registering, then logging in *)

Lemma eqb_empty_false (x : string) : x <> "" -> String.eqb x "" = false.
Proof. intros H. apply String.eqb_neq, H. Qed.

(** X12. Registering with three non-empty fields, a free email and a
    free username answers 303 to /login; logging in next with the same
    email and password (bcrypt accepting the hash it made of it) answers 303
    with the session cookie, and that cookie validates as the user just
    registered.  No storage fault, a fresh token, a free next id. *)
Theorem register_then_login
    (gen : string -> string) (cmp : string -> string -> bool)
    (c : DB) (email username password sid : string) :
  cmp (gen password) password = true ->
  faults c = [] ->
  foreign_keys (store c) = false ->
  email <> "" -> username <> "" -> password <> "" ->
  models.email_taken email (store c) = false ->
  models.username_taken username (store c) = false ->
  user_exists (users_seq (store c) + 1) (store c) = false ->
  models.session_known sid (store c) = false ->
  let reg := server.handleRegister gen server.blank
               (register_form email username password) c in
  let login := server.handleLogin cmp sid server.blank (login_form email password) (snd reg) in
  let new := User.mk (users_seq (store c) + 1) email username (gen password) (now c) in
  (server.Code (fst reg) = 303 /\ server.Location (fst reg) = "/login") /\
  (server.Code (fst login) = 303 /\
   server.SetCookies (fst login) =
     [server.mkCookie "session_id" sid "/" (Some (now c + 24 * Hour)) 0 true]) /\
  validate sid (snd login) = Some new.
Proof.
  intros Hb Hf Hk He Hu Hp Te Tu Tid Hnew reg login new.
  assert (Hreg : reg = (server.http_Redirect "/login" server.StatusSeeOther server.blank,
                        mkConn (now c) []
                          (with_users (users (store c) ++ [new])
                                      (users_seq (store c) + 1) (store c)))).
  { subst reg. unfold server.handleRegister.
    change (server.FormValue (register_form email username password) "email") with email.
    change (server.FormValue (register_form email username password) "username")
      with username.
    change (server.FormValue (register_form email username password) "password")
      with password.
    change (String.eqb (server.Method (register_form email username password))
                       server.MethodGet) with false.
    change (String.eqb (server.Method (register_form email username password))
                       server.MethodPost) with true.
    cbv iota.
    rewrite (eqb_empty_false _ He), (eqb_empty_false _ Hu), (eqb_empty_false _ Hp).
    cbn [orb].
    destruct c as [n f s]. simpl in Hf, Te, Tu. subst f.
    unfold models.CreateUser, Exec, next_fault, models.insert_user. simpl.
    rewrite Te, Tu. destruct (email_index_first s); reflexivity. }
  assert (Hfind : find (fun u => String.eqb (User.Email u) email)
                       (users (store c) ++ [new]) = Some new).
  { rewrite find_app_none by (apply find_none_existsb; exact Te).
    simpl. rewrite String.eqb_refl. reflexivity. }
  assert (Hrow : find (fun u => User.ID u =? users_seq (store c) + 1)
                      (users (store c) ++ [new]) = Some new).
  { rewrite find_app_none by (apply find_none_existsb; exact Tid).
    simpl. rewrite Z.eqb_refl. reflexivity. }
  subst login. rewrite Hreg. cbn [fst snd].
  rewrite (handleLogin_run cmp sid server.blank (login_form email password)
             (mkConn (now c) []
                (with_users (users (store c) ++ [new])
                            (users_seq (store c) + 1) (store c)))
             new eq_refl Hk eq_refl Hfind Hb Hnew).
  cbn [fst snd now].
  split; [split; reflexivity|]. split; [split; reflexivity|].
  rewrite validate_run by reflexivity. cbn [store now].
  rewrite session_row_after_issue by exact Hnew.
  rewrite String.eqb_refl. cbn [Session.RevokedAt Session.ExpiresAt Session.UserID
                                server.is_nil negb orb].
  destruct (Z.ltb_spec (now c + 24 * Hour) (now c)) as [L|L]; [unfold Hour in L; lia|].
  exact Hrow.
Qed.

Lemma register_then_login_witness :
  let c := db.Open (empty_store true) 1000 [] in
  let reg := server.handleRegister (fun p => p) server.blank
               (register_form "a@b.com" "alice" "secret") c in
  let login := server.handleLogin String.eqb "s1" server.blank
                 (login_form "a@b.com" "secret") (snd reg) in
  server.Code (fst reg) = 303 /\
  server.Code (fst login) = 303 /\
  validate "s1" (snd login) = Some (User.mk 1 "a@b.com" "alice" "secret" 1000).
Proof.
  pose proof (register_then_login (fun p => p) String.eqb
                (db.Open (empty_store true) 1000 []) "a@b.com" "alice" "secret" "s1"
                eq_refl eq_refl eq_refl) as H.
  cbv zeta in H.
  destruct H as [[H1 _] [[H2 _] H3]];
    try discriminate; try reflexivity.
  split; [exact H1 | split; [exact H2 | exact H3]].
Defined.

(** ** The middleware *)

Lemma currentUser_store (r : server.Request) (c : DB) :
  store (snd (server.currentUser r c)) = store c.
Proof.
  unfold server.currentUser, models.GetSession, QueryRow, next_fault.
  destruct (server.Request_Cookie r server.CookieName) as [token|]; [|reflexivity].
  destruct c as [n f s]. simpl.
  destruct f as [|[m1|] fs]; simpl; try reflexivity;
    destruct (find _ (sessions s)) as [sess|]; simpl; try reflexivity;
    destruct (negb _ || _); simpl; try reflexivity;
    try (destruct (find _ (users s)); reflexivity);
    destruct fs as [|[m2|] fs]; simpl; try reflexivity;
    destruct (find _ (users s)); reflexivity.
Qed.

(** An answer of [currentUser] comes from a live session and names a
    row of [users]. *)
Lemma currentUser_some (r : server.Request) (c : DB) (u : User.t) :
  fst (server.currentUser r c) = Some u ->
  session_live r (now c) (store c) = true /\
  exists token sess,
    server.Request_Cookie r server.CookieName = Some token /\
    session_row token (store c) = Some sess /\
    User.ID u = Session.UserID sess /\
    In u (users (store c)).
Proof.
  intros H. split;
    revert H; unfold server.currentUser, session_live, models.GetSession,
                     QueryRow, next_fault, session_row;
    destruct (server.Request_Cookie r server.CookieName) as [token|];
    try discriminate;
    destruct c as [n f s]; simpl;
    destruct f as [|[m1|] fs]; simpl; try discriminate;
    destruct (find _ (sessions s)) as [sess|] eqn:F; simpl; try discriminate;
    (destruct (Session.RevokedAt sess) as [rv|]; simpl; [discriminate|]);
    (destruct (Z.ltb_spec (Session.ExpiresAt sess) n) as [L|L]; [discriminate|]);
    try (destruct fs as [|[m2|] fs]; simpl; try discriminate);
    destruct (find _ (users s)) as [v|] eqn:G; simpl; try discriminate;
    intros E; injection E as <-;
    try (apply Z.leb_le; exact L);
    exists token, sess; apply find_some in G; destruct G as [Gin Gid];
    apply Z.eqb_eq in Gid; auto.
Qed.

(** X13. The middleware fails closed.  Under any schedule of storage
    faults [currentUser] answers a user only when the request carries a
    token whose row is unrevoked and not past its expiry, and the user is
    a row of [users] with the id the session names; and it never writes. *)
Theorem currentUser_fails_closed (r : server.Request) (c : DB) (u : User.t) :
  fst (server.currentUser r c) = Some u ->
  session_live r (now c) (store c) = true /\
  (exists token sess,
     server.Request_Cookie r server.CookieName = Some token /\
     session_row token (store c) = Some sess /\
     Session.RevokedAt sess = None /\
     now c <= Session.ExpiresAt sess /\
     User.ID u = Session.UserID sess /\
     In u (users (store c))) /\
  store (snd (server.currentUser r c)) = store c.
Proof.
  intros H. destruct (currentUser_some r c u H) as [Hlive [token [sess [Hck [Hrow [Hid Hin]]]]]].
  split; [exact Hlive|]. split; [|apply currentUser_store].
  exists token, sess. unfold session_live in Hlive. rewrite Hck, Hrow in Hlive.
  apply andb_true_iff in Hlive. destruct Hlive as [Hnull Hle].
  apply Z.leb_le in Hle.
  destruct (Session.RevokedAt sess); [discriminate|]. auto 10.
Qed.

Lemma currentUser_fails_closed_witness :
  let alice := User.mk 1 "a@b.com" "alice" "h" 0 in
  let c := mkConn 50 [None; None]
             (with_sessions [Session.mk "s0" 1 5 100 None]
                (with_users [alice] 1 (empty_store true))) in
  let r := server.mkRequest "GET" [("session_id", "s0")] [] in
  fst (server.currentUser r c) = Some alice /\
  session_live r (now c) (store c) = true.
Proof.
  split; [reflexivity|].
  exact (proj1 (currentUser_fails_closed
           (server.mkRequest "GET" [("session_id", "s0")] [])
           (mkConn 50 [None; None]
              (with_sessions [Session.mk "s0" 1 5 100 None]
                 (with_users [User.mk 1 "a@b.com" "alice" "h" 0] 1 (empty_store true))))
           (User.mk 1 "a@b.com" "alice" "h" 0) eq_refl)).
Defined.

(** X14. A request with no cookie, an unknown token, a revoked session
    or an expired one never reaches a handler behind [requireAuth]:
    whatever the handler and whatever the storage faults, the answer is
    the 303 to /login and no table changes. *)
Theorem requireAuth_stops_dead_sessions
    (next : server.Response -> server.Request -> User.t -> M Store server.Response)
    (w : server.Response) (r : server.Request) (c : DB) :
  session_live r (now c) (store c) = false ->
  fst (server.requireAuth next w r c) =
    server.http_Redirect "/login" server.StatusSeeOther w /\
  store (snd (server.requireAuth next w r c)) = store c.
Proof.
  intros Hdead. unfold server.requireAuth.
  destruct (server.currentUser r c) as [[u|] c1] eqn:E.
  - pose proof (currentUser_some r c u) as H. rewrite E in H.
    destruct (H eq_refl) as [Hlive _]. congruence.
  - simpl. split; [reflexivity|].
    pose proof (currentUser_store r c) as H. rewrite E in H. exact H.
Qed.

Lemma requireAuth_stops_dead_sessions_witness :
  let alice := User.mk 1 "a@b.com" "alice" "h" 0 in
  let c := mkConn 50 []
             (with_sessions [Session.mk "s0" 1 5 100 (Some 20)]
                (with_users [alice] 1 (empty_store true))) in
  let r := server.mkRequest "POST" [("session_id", "s0")]
             [("post_id", "1"); ("value", "1")] in
  session_live r (now c) (store c) = false /\
  store (snd (server.requireAuth server.handlePostLike server.blank r c)) = store c.
Proof.
  split; [reflexivity|].
  exact (proj2 (requireAuth_stops_dead_sessions server.handlePostLike server.blank
           (server.mkRequest "POST" [("session_id", "s0")]
              [("post_id", "1"); ("value", "1")])
           (mkConn 50 []
              (with_sessions [Session.mk "s0" 1 5 100 (Some 20)]
                 (with_users [User.mk 1 "a@b.com" "alice" "h" 0] 1 (empty_store true))))
           eq_refl)).
Defined.

(** ** The like handler *)

(** Whatever the request holds, the like handler either leaves the
    tables alone or applies the upsert for the user with the value 1 or
    -1: any other value is turned away with a 400 before the database is
    reached. *)
Lemma handlePostLike_store (w : server.Response) (r : server.Request)
    (user : User.t) (c : DB) :
  store (snd (server.handlePostLike w r user c)) = store c \/
  exists value, (value = 1 \/ value = -1) /\
    store (snd (server.handlePostLike w r user c)) =
    with_post_likes
      (models.upsert (server.atoi (server.FormValue r "post_id")) (User.ID user) value
                     (post_likes (store c)))
      (store c).
Proof.
  unfold server.handlePostLike.
  destruct (negb (String.eqb (server.Method r) server.MethodPost)); [left; reflexivity|].
  set (value := server.atoi (server.FormValue r "value")).
  set (postID := server.atoi (server.FormValue r "post_id")).
  destruct (value =? 1) eqn:E1; simpl.
  - apply Z.eqb_eq in E1.
    destruct (do_toggle_store (OnPost postID (User.ID user) value) c) as [H|H];
      simpl in H; destruct (models.TogglePostLike postID (User.ID user) value c)
        as [[e|] c1]; simpl in *; auto;
      right; exists value; auto.
  - destruct (value =? -1) eqn:E2; simpl; [|left; reflexivity].
    apply Z.eqb_eq in E2.
    destruct (do_toggle_store (OnPost postID (User.ID user) value) c) as [H|H];
      simpl in H; destruct (models.TogglePostLike postID (User.ID user) value c)
        as [[e|] c1]; simpl in *; auto;
      right; exists value; auto.
Qed.

(** X15. Through the like handler the post_likes table only ever holds
    the values 1, -1 and 0, and its key (post, user) stays unique:
    starting from the empty tables, after any sequence of requests,
    whatever their method and form fields and whatever the storage
    faults. *)
Theorem like_requests_store_only_stances
    (email_first : bool) (t : Time) (fs : list (option string))
    (rs : list (server.Request * User.t)) :
  let c := run_like_requests rs (db.Open (empty_store email_first) t fs) in
  Forall stored_value (post_likes (store c)) /\
  NoDup (map like_key (post_likes (store c))) /\
  comment_likes (store c) = [].
Proof.
  intros c. subst c.
  assert (H : forall c0 : DB,
             Forall stored_value (post_likes (store c0)) /\
             NoDup (map like_key (post_likes (store c0))) /\
             comment_likes (store c0) = [] ->
             Forall stored_value (post_likes (store (run_like_requests rs c0))) /\
             NoDup (map like_key (post_likes (store (run_like_requests rs c0)))) /\
             comment_likes (store (run_like_requests rs c0)) = []).
  { induction rs as [|[r user] rs IH]; intros c0 Hc0; simpl; [exact Hc0|].
    apply IH. destruct Hc0 as [Hv [Hk Hc]].
    destruct (handlePostLike_store server.blank r user c0) as [E|[value [Hval E]]];
      rewrite E; simpl; auto.
    split; [apply upsert_values; assumption|].
    split; [apply upsert_NoDup; assumption | exact Hc]. }
  apply H. simpl. repeat split; constructor.
Qed.

(** X16. A toggle touches one key of one table.  Whatever it returns,
    [TogglePostLike] leaves the row of every other (post, user) pair as
    it was and changes no other table; likewise [ToggleCommentLike]. *)
Theorem toggle_touches_one_pair (o : toggle) (c : DB) (target user : Z) :
  let c' := snd (do_toggle o c) in
  match o with
  | OnPost p u _ =>
      ((target, user) <> (p, u) ->
       like_row target user (post_likes (store c')) =
       like_row target user (post_likes (store c))) /\
      comment_likes (store c') = comment_likes (store c)
  | OnComment k u _ =>
      ((target, user) <> (k, u) ->
       like_row target user (comment_likes (store c')) =
       like_row target user (comment_likes (store c))) /\
      post_likes (store c') = post_likes (store c)
  end /\
  users (store c') = users (store c) /\
  sessions (store c') = sessions (store c) /\
  posts (store c') = posts (store c) /\
  comments (store c') = comments (store c).
Proof.
  intros c'. subst c'.
  destruct (do_toggle_store o c) as [E|E].
  - rewrite E. destruct o; repeat split; reflexivity.
  - destruct o as [p u v|k u v]; rewrite E; simpl; repeat split; try reflexivity;
      intros Hne; apply like_row_upsert_other; exact Hne.
Qed.

(** ** Creating a post: all or nothing *)

Lemma Begin_store {T} (c : Conn T) : store (snd (Begin c)) = store c.
Proof.
  unfold Begin, next_fault. destruct (faults c) as [|[msg|] fs]; reflexivity.
Qed.

(** Whatever happens, [CreatePost] leaves the tables as they were or
    returns nil. *)
Lemma CreatePost_store_cases
    (c : Conn Forum) (userID : Z) (title body : string) (categoryIDs : list Z) :
  store (snd (models.CreatePost userID title body categoryIDs c)) = store c \/
  snd (fst (models.CreatePost userID title body categoryIDs c)) = None.
Proof.
  unfold models.CreatePost.
  pose proof (Begin_store c) as Hb.
  destruct (Begin c) as [[e|] c1]; simpl in *; [left; exact Hb|].
  destruct (Exec (models.insert_post userID title body) c1) as [[e|] c2]; simpl;
    [left; exact Hb|].
  destruct (models.insert_categories (posts_seq (store c2)) categoryIDs c2) as [[e|] c3];
    simpl; [left; exact Hb|].
  unfold Commit, next_fault.
  destruct (faults c3) as [|[msg|] fs]; simpl; auto.
Qed.

(** X17. [CreatePost] is all or nothing.  Under any storage faults and
    for any arguments, when it returns an error (from BEGIN, from the
    INSERT of the post, from any INSERT of a category pair or from
    COMMIT) every table and counter is exactly as before the call. *)
Theorem CreatePost_error_changes_nothing
    (c : Conn Forum) (userID : Z) (title body : string) (categoryIDs : list Z) :
  snd (fst (models.CreatePost userID title body categoryIDs c)) <> None ->
  store (snd (models.CreatePost userID title body categoryIDs c)) = store c.
Proof.
  unfold models.CreatePost.
  pose proof (Begin_store c) as Hb.
  destruct (Begin c) as [[e|] c1]; simpl in *; [intros _; exact Hb|].
  destruct (Exec (models.insert_post userID title body) c1) as [[e|] c2]; simpl;
    [intros _; exact Hb|].
  destruct (models.insert_categories (posts_seq (store c2)) categoryIDs c2) as [[e|] c3];
    simpl; [intros _; exact Hb|].
  unfold Commit, next_fault.
  destruct (faults c3) as [|[msg|] fs]; simpl; intros H; congruence.
Qed.

Lemma CreatePost_error_changes_nothing_witness :
  let c := mkConn 5 [None; None; None; Some "disk I/O error"] (empty_forum true) in
  fst (models.CreatePost 1 "hello" "world" [1; 2] c) = (0, Some (SqliteError "disk I/O error")) /\
  store (snd (models.CreatePost 1 "hello" "world" [1; 2] c)) = empty_forum true.
Proof.
  split; [reflexivity|].
  apply (CreatePost_error_changes_nothing
           (mkConn 5 [None; None; None; Some "disk I/O error"] (empty_forum true))
           1 "hello" "world" [1; 2]).
  discriminate.
Defined.

(** A statement that returns nil ran on the tables as they were. *)
Lemma Exec_ok {T} (stmt : Time -> T -> string + T) (c c' : Conn T) :
  Exec stmt c = (None, c') ->
  stmt (now c) (store c) = inr (store c') /\ now c' = now c.
Proof.
  destruct c as [n f s]. unfold Exec, next_fault. simpl.
  destruct f as [|[msg|] fs]; simpl; try discriminate;
    destruct (stmt n s); try discriminate;
    intros H; injection H as <-; auto.
Qed.

(** The loop over the categories returns nil only when the ids are
    pairwise different and none of the pairs was in the table. *)
Lemma insert_categories_ok_NoDup (postID : Z) (cids : list Z) : forall c : Conn Forum,
  fst (models.insert_categories postID cids c) = None ->
  NoDup cids /\
  forall cid, In cid cids -> ~ In (postID, cid) (post_categories (store c)).
Proof.
  induction cids as [|cid rest IH]; intros c; simpl.
  - intros _. split; [constructor | intros ? []].
  - destruct (Exec (models.insert_post_category postID cid) c) as [[e|] c1] eqn:E;
      [discriminate|].
    apply Exec_ok in E. destruct E as [E _].
    unfold models.insert_post_category in E.
    destruct (existsb _ (post_categories (store c))) eqn:X; [discriminate|].
    destruct (foreign_keys (main (store c)) && _); [discriminate|].
    injection E as E.
    intros H. apply IH in H. destruct H as [Hnd Hnot].
    rewrite <- E in Hnot. simpl in Hnot.
    assert (Hcid : ~ In (postID, cid) (post_categories (store c))).
    { intros Hin.
      assert (existsb (fun pc => (fst pc =? postID) && (snd pc =? cid))
                      (post_categories (store c)) = true); [|congruence].
      apply existsb_exists. exists (postID, cid). simpl.
      rewrite !Z.eqb_refl. auto. }
    split.
    + constructor; [|exact Hnd]. intros Hin.
      apply (Hnot cid Hin). apply in_or_app. right. left. reflexivity.
    + intros x [<-|Hx]; [exact Hcid|].
      intros Hin. apply (Hnot x Hx). apply in_or_app. left. exact Hin.
Qed.

(** X19. A new-post form that names a category twice creates nothing:
    with a title and a body, the handler answers 500 "could not create
    post" and every table is as before, whatever the storage faults. *)
Theorem repeated_category_creates_nothing
    (r : server.Request) (user : User.t) (c : Conn Forum) :
  server.Method r = server.MethodPost ->
  server.FormValue r "title" <> "" ->
  server.FormValue r "body" <> "" ->
  ~ NoDup (server.form_categories r) ->
  fst (server.handleNewPost server.blank r user c) =
    server.http_Error "could not create post" 500 server.blank /\
  store (snd (server.handleNewPost server.blank r user c)) = store c.
Proof.
  intros Hm Ht Hb Hdup. unfold server.handleNewPost. rewrite Hm.
  change (String.eqb server.MethodPost server.MethodGet) with false.
  change (String.eqb server.MethodPost server.MethodPost) with true.
  cbv iota. rewrite (eqb_empty_false _ Ht), (eqb_empty_false _ Hb). cbn [orb].
  pose proof (CreatePost_store_cases c (User.ID user)
                (server.FormValue r "title") (server.FormValue r "body")
                (server.form_categories r)) as Hatomic.
  assert (Herr : snd (fst (models.CreatePost (User.ID user) (server.FormValue r "title")
                             (server.FormValue r "body") (server.form_categories r) c))
                 <> None).
  { unfold models.CreatePost.
    destruct (Begin c) as [[e|] c1]; simpl; [discriminate|].
    destruct (Exec _ c1) as [[e|] c2]; simpl; [discriminate|].
    destruct (models.insert_categories (posts_seq (store c2)) (server.form_categories r) c2)
      as [[e|] c3] eqn:E; simpl; [discriminate|].
    exfalso. apply Hdup.
    apply (insert_categories_ok_NoDup (posts_seq (store c2)) _ c2). rewrite E. reflexivity. }
  destruct (models.CreatePost _ _ _ _ c) as [[id [e|]] c1]; simpl in *.
  - split; [reflexivity | destruct Hatomic as [H|H]; [exact H | discriminate]].
  - congruence.
Qed.

Lemma repeated_category_creates_nothing_witness :
  let r := server.mkRequest "POST" []
             [("title", "hello"); ("body", "world");
              ("categories", "2"); ("categories", "x"); ("categories", "+2")] in
  let c := mkConn 5 [] (empty_forum true) in
  server.form_categories r = [2; 2] /\
  server.Code (fst (server.handleNewPost server.blank r (User.mk 1 "a" "b" "h" 0) c)) = 500 /\
  store (snd (server.handleNewPost server.blank r (User.mk 1 "a" "b" "h" 0) c)) = empty_forum true.
Proof.
  split; [reflexivity|].
  pose proof (repeated_category_creates_nothing
                (server.mkRequest "POST" []
                   [("title", "hello"); ("body", "world");
                    ("categories", "2"); ("categories", "x"); ("categories", "+2")])
                (User.mk 1 "a" "b" "h" 0) (mkConn 5 [] (empty_forum true))
                eq_refl) as H.
  destruct H as [H1 H2]; try discriminate.
  - intros Hnd. inversion Hnd as [|? ? Hin _]. apply Hin. left. reflexivity.
  - split; [rewrite H1; reflexivity | exact H2].
Defined.

(** ** Creating a post, then reading it *)

Lemma next_rowid_gt (seq : Z) (ids : list Z) (x : Z) :
  In x ids -> x < next_rowid seq ids.
Proof.
  unfold next_rowid. induction ids as [|y ids IH]; simpl; [contradiction|].
  intros [->|H]; [lia | specialize (IH H); lia].
Qed.

Lemma next_post_id_fresh (f : Forum) :
  post_exists (next_post_id f) (main f) = false.
Proof.
  unfold post_exists. destruct (existsb _ _) eqn:E; [|reflexivity].
  apply existsb_exists in E. destruct E as [p [Hin Hid]]. apply Z.eqb_eq in Hid.
  pose proof (next_rowid_gt (posts_seq f) (map Post.ID (posts (main f))) (Post.ID p)
                (in_map _ _ _ Hin)) as H.
  unfold next_post_id in Hid. lia.
Qed.

Lemma insert_categories_run (postID : Z) (cids : list Z) : forall c : Conn Forum,
  faults c = [] ->
  foreign_keys (main (store c)) = false ->
  NoDup cids ->
  (forall cid, In cid cids -> ~ In (postID, cid) (post_categories (store c))) ->
  models.insert_categories postID cids c =
    (None, mkConn (now c) []
             (mkForum (main (store c)) (posts_seq (store c)) (comments_seq (store c))
                      (categories (store c))
                      (post_categories (store c) ++ map (pair postID) cids))).
Proof.
  induction cids as [|cid rest IH]; intros c Hf Hk Hnd Hnew; simpl.
  - destruct c as [n f s]. simpl in *. subst f. rewrite app_nil_r.
    destruct s; reflexivity.
  - rewrite Exec_no_fault by exact Hf. unfold models.insert_post_category.
    assert (E : existsb (fun pc => (fst pc =? postID) && (snd pc =? cid))
                        (post_categories (store c)) = false).
    { destruct (existsb _ _) eqn:X; [|reflexivity].
      apply existsb_exists in X. destruct X as [[a b] [Hin Hab]]. simpl in Hab.
      apply andb_true_iff in Hab. destruct Hab as [Ha Hb'].
      apply Z.eqb_eq in Ha. apply Z.eqb_eq in Hb'. subst.
      exfalso. apply (Hnew cid); [left; reflexivity | exact Hin]. }
    rewrite E, Hk. simpl.
    inversion Hnd as [|? ? Hcid Hrest]; subst.
    rewrite IH; simpl; auto.
    + rewrite <- app_assoc. reflexivity.
    + intros x Hx Hin. apply in_app_or in Hin. destruct Hin as [Hin|[Hin|[]]].
      * apply (Hnew x); [right; exact Hx | exact Hin].
      * injection Hin as <-. contradiction.
Qed.

(** A call with no fault pending, foreign keys off, pairwise different
    category ids and a table whose pairs name existing posts: every
    statement runs and the transaction commits. *)
Lemma CreatePost_run (c : Conn Forum) (userID : Z) (title body : string) (cids : list Z) :
  faults c = [] ->
  foreign_keys (main (store c)) = false ->
  NoDup cids ->
  pairs_name_posts (store c) ->
  models.CreatePost userID title body cids c =
    ((next_post_id (store c), None),
     mkConn (now c) []
       (mkForum
          (with_posts (posts (main (store c))
                       ++ [Post.mk (next_post_id (store c)) userID title body (now c)])
                      (main (store c)))
          (next_post_id (store c)) (comments_seq (store c)) (categories (store c))
          (post_categories (store c) ++ map (pair (next_post_id (store c))) cids))).
Proof.
  intros Hf Hk Hnd Hpairs.
  destruct c as [n f s]. simpl in *. subst f.
  unfold models.CreatePost, Begin, Exec, next_fault. simpl.
  unfold models.insert_post. rewrite Hk. simpl.
  fold (next_post_id s).
  rewrite insert_categories_run; simpl; auto.
  intros cid _ Hin.
  pose proof (proj1 (Forall_forall _ _) Hpairs _ Hin) as Hex. simpl in Hex.
  rewrite next_post_id_fresh in Hex. discriminate.
Qed.

Lemma no_pair_of_next_post (f : Forum) :
  pairs_name_posts f ->
  filter (fun pc => fst pc =? next_post_id f) (post_categories f) = [].
Proof.
  unfold pairs_name_posts. intros Hpairs.
  induction Hpairs as [|pc l Hpc Hl IH]; simpl; [reflexivity|].
  destruct (fst pc =? next_post_id f) eqn:E; [|exact IH].
  apply Z.eqb_eq in E. rewrite E, next_post_id_fresh in Hpc. discriminate.
Qed.

Lemma filter_pairs_of (id : Z) (cids : list Z) :
  filter (fun pc : Z * Z => fst pc =? id) (map (pair id) cids) = map (pair id) cids.
Proof.
  induction cids as [|x l IH]; simpl; [reflexivity|].
  rewrite Z.eqb_refl, IH. reflexivity.
Qed.

(** X18. A post created by [CreatePost] can be read back.  With no fault
    pending, foreign keys off, pairwise different category ids and pairs
    that name existing posts, the call returns a fresh id and nil, and
    [GetPost] on that id returns the post as given (user, title, body,
    created now) with exactly the categories of the table whose id was
    passed; after it every pair still names an existing post. *)
Theorem GetPost_after_CreatePost
    (c : Conn Forum) (userID : Z) (title body : string) (cids : list Z) :
  faults c = [] ->
  foreign_keys (main (store c)) = false ->
  NoDup cids ->
  pairs_name_posts (store c) ->
  let id := next_post_id (store c) in
  let c' := snd (models.CreatePost userID title body cids c) in
  fst (models.CreatePost userID title body cids c) = (id, None) /\
  post_exists id (main (store c)) = false /\
  (exists ks, fst (models.GetPost id c') = inr (Post.mk id userID title body (now c), ks) /\
     forall k, In k ks <-> In k (categories (store c)) /\ In (Category.ID k) cids) /\
  pairs_name_posts (store c').
Proof.
  intros Hf Hk Hnd Hpairs id c'. subst id c'.
  rewrite (CreatePost_run c userID title body cids Hf Hk Hnd Hpairs). simpl.
  split; [reflexivity|]. split; [apply next_post_id_fresh|]. split.
  - unfold models.GetPost. rewrite QueryRow_no_fault by reflexivity. simpl.
    rewrite find_app_none
      by (apply find_none_existsb; exact (next_post_id_fresh (store c))).
    simpl. rewrite Z.eqb_refl. unfold Query, next_fault. simpl.
    eexists. split; [reflexivity|].
    intros k. unfold models.categories_of. simpl.
    rewrite filter_app, (no_pair_of_next_post _ Hpairs), filter_pairs_of. simpl.
    rewrite in_flat_map. split.
    + intros [pc [Hpc Hk']]. apply in_map_iff in Hpc. destruct Hpc as [cid [<- Hcid]].
      apply filter_In in Hk'. simpl in Hk'. destruct Hk' as [Hin Hid].
      apply Z.eqb_eq in Hid. rewrite Hid. auto.
    + intros [Hin Hcid]. exists (next_post_id (store c), Category.ID k).
      split; [apply in_map, Hcid|]. apply filter_In. simpl.
      rewrite Z.eqb_refl. auto.
  - unfold pairs_name_posts. simpl. apply Forall_app. split.
    + apply Forall_forall. intros pc Hpc.
      pose proof (proj1 (Forall_forall _ _) Hpairs pc Hpc) as H.
      unfold post_exists in *. simpl. rewrite existsb_app, H. reflexivity.
    + apply Forall_forall. intros pc Hpc. apply in_map_iff in Hpc.
      destruct Hpc as [cid [<- _]]. unfold post_exists. simpl.
      rewrite existsb_app. simpl. rewrite Z.eqb_refl, orb_true_r. reflexivity.
Qed.

Lemma GetPost_after_CreatePost_witness :
  let c := mkConn 5 [] (empty_forum true) in
  let c' := snd (models.CreatePost 1 "hello" "world" [3; 1; 9] c) in
  fst (models.GetPost 1 c') =
    inr (Post.mk 1 1 "hello" "world" 5, [Category.mk 3 "general"; Category.mk 1 "golang"]) /\
  pairs_name_posts (store c').
Proof.
  split; [reflexivity|].
  refine (proj2 (proj2 (proj2 (GetPost_after_CreatePost
            (mkConn 5 [] (empty_forum true)) 1 "hello" "world" [3; 1; 9]
            eq_refl eq_refl _ _)))).
  - repeat constructor; simpl; intuition discriminate.
  - constructor.
Defined.

(** X21. Listing after a creation.  Under the same conditions the
    unfiltered list is the old one with the new post at its end, and the
    new post is listed under a category filter exactly when that
    category id was passed to [CreatePost]. *)
Theorem ListPosts_after_CreatePost
    (c : Conn Forum) (userID : Z) (title body : string) (cids : list Z) (cid : Z) :
  faults c = [] ->
  foreign_keys (main (store c)) = false ->
  NoDup cids ->
  pairs_name_posts (store c) ->
  let new := Post.mk (next_post_id (store c)) userID title body (now c) in
  let c' := snd (models.CreatePost userID title body cids c) in
  fst (models.ListPosts None c') = inr (posts (main (store c)) ++ [new]) /\
  exists l, fst (models.ListPosts (Some cid) c') = inr l /\ (In new l <-> In cid cids).
Proof.
  intros Hf Hk Hnd Hpairs new c'. subst c'.
  rewrite (CreatePost_run c userID title body cids Hf Hk Hnd Hpairs). simpl.
  unfold models.ListPosts, Query, next_fault. simpl.
  split; [reflexivity|]. eexists. split; [reflexivity|].
  rewrite in_flat_map. split.
  - intros [p [_ Hp]]. apply in_map_iff in Hp. destruct Hp as [pc [Ep Hpc]].
    apply filter_In in Hpc. destruct Hpc as [Hin Hm].
    apply andb_true_iff in Hm. destruct Hm as [Hid Hc].
    apply Z.eqb_eq in Hid. apply Z.eqb_eq in Hc. rewrite Ep in Hid.
    unfold new in Hid. simpl in Hid.
    apply in_app_or in Hin. destruct Hin as [Hin|Hin].
    + pose proof (proj1 (Forall_forall _ _) Hpairs pc Hin) as Hex.
      cbv beta in Hex. rewrite Hid, next_post_id_fresh in Hex. discriminate.
    + apply in_map_iff in Hin. destruct Hin as [x [<- Hx]]. simpl in Hc. subst x. exact Hx.
  - intros Hcid. exists new. split; [apply in_or_app; right; left; reflexivity|].
    apply in_map_iff. exists (next_post_id (store c), cid). split; [reflexivity|].
    apply filter_In. split.
    + apply in_or_app. right. apply in_map, Hcid.
    + simpl. rewrite !Z.eqb_refl. reflexivity.
Qed.

Lemma ListPosts_after_CreatePost_witness :
  let c := snd (models.CreatePost 1 "first" "post" [2] (mkConn 5 [] (empty_forum true))) in
  let c' := snd (models.CreatePost 1 "hello" "world" [3; 1] c) in
  fst (models.ListPosts (Some 2) c') = inr [Post.mk 1 1 "first" "post" 5] /\
  exists l, fst (models.ListPosts (Some 3) c') = inr l /\
            (In (Post.mk 2 1 "hello" "world" 5) l <-> In 3 [3; 1]).
Proof.
  split; [reflexivity|].
  refine (proj2 (ListPosts_after_CreatePost
            (snd (models.CreatePost 1 "first" "post" [2] (mkConn 5 [] (empty_forum true))))
            1 "hello" "world" [3; 1] 3 eq_refl eq_refl _ _)).
  - repeat constructor; simpl; intuition discriminate.
  - repeat constructor.
Defined.

(** ** Comments *)

Lemma CreateComment_run (c : Conn Forum) (postID userID : Z) (body : string) :
  faults c = [] ->
  foreign_keys (main (store c)) = false ->
  models.CreateComment postID userID body c =
    (None, mkConn (now c) []
       (mkForum
          (with_comments
             (comments (main (store c))
              ++ [Comment.mk (next_rowid (comments_seq (store c))
                                         (map Comment.ID (comments (main (store c)))))
                             postID userID body (now c)])
             (main (store c)))
          (posts_seq (store c))
          (next_rowid (comments_seq (store c)) (map Comment.ID (comments (main (store c)))))
          (categories (store c)) (post_categories (store c)))).
Proof.
  intros Hf Hk. unfold models.CreateComment. rewrite Exec_no_fault by exact Hf.
  unfold models.insert_comment. rewrite Hk. reflexivity.
Qed.

Lemma Query_no_fault {T A} (q : T -> list A) (c : Conn T) :
  faults c = [] -> Query q c = (inr (q (store c)), c).
Proof. intros Hf. unfold Query, next_fault. rewrite Hf. reflexivity. Qed.

(** X20. A comment written by [CreateComment] is listed.  With no fault
    pending and foreign keys off the call returns nil; [ListComments] of
    the post then gives the comments it gave before followed by the new
    one (fresh id, the given user and body, created now), and the
    listing of every other post is unchanged. *)
Theorem ListComments_after_CreateComment
    (c : Conn Forum) (postID userID : Z) (body : string) :
  faults c = [] ->
  foreign_keys (main (store c)) = false ->
  let c' := snd (models.CreateComment postID userID body c) in
  let id := next_rowid (comments_seq (store c)) (map Comment.ID (comments (main (store c)))) in
  fst (models.CreateComment postID userID body c) = None /\
  comment_exists id (main (store c)) = false /\
  (exists old, fst (models.ListComments postID c) = inr old /\
     fst (models.ListComments postID c') =
       inr (old ++ [Comment.mk id postID userID body (now c)])) /\
  (forall other, other <> postID ->
     fst (models.ListComments other c') = fst (models.ListComments other c)).
Proof.
  intros Hf Hk c' id. subst c' id. rewrite CreateComment_run by assumption.
  unfold models.ListComments. cbn [fst snd].
  split; [reflexivity|]. split; [|split].
  - unfold comment_exists. destruct (existsb _ _) eqn:E; [|reflexivity].
    apply existsb_exists in E. destruct E as [k [Hin Hid]]. apply Z.eqb_eq in Hid.
    pose proof (next_rowid_gt (comments_seq (store c))
                  (map Comment.ID (comments (main (store c)))) (Comment.ID k)
                  (in_map _ _ _ Hin)) as H.
    lia.
  - eexists. rewrite !Query_no_fault by (assumption || reflexivity). cbn [fst store].
    split; [reflexivity|]. simpl. rewrite filter_app. simpl.
    rewrite Z.eqb_refl. reflexivity.
  - intros other Hne. rewrite !Query_no_fault by (assumption || reflexivity).
    cbn [fst store]. simpl. rewrite filter_app. simpl.
    destruct (postID =? other) eqn:E; [apply Z.eqb_eq in E; congruence|].
    rewrite app_nil_r. reflexivity.
Qed.

Lemma ListComments_after_CreateComment_witness :
  let c := snd (models.CreateComment 1 7 "first" (mkConn 5 [] (empty_forum true))) in
  let c' := snd (models.CreateComment 1 8 "second" (at_time 6 c)) in
  fst (models.ListComments 1 c') =
    inr [Comment.mk 1 1 7 "first" 5; Comment.mk 2 1 8 "second" 6] /\
  fst (models.CreateComment 1 8 "second" (at_time 6 c)) = None.
Proof.
  split; [reflexivity|].
  exact (proj1 (ListComments_after_CreateComment
           (at_time 6 (snd (models.CreateComment 1 7 "first"
                              (mkConn 5 [] (empty_forum true)))))
           1 8 "second" eq_refl eq_refl)).
Defined.

(** X22. A comment posted through the handler, with a body, no fault
    pending and foreign keys off, is stored under the post id the form
    parses to and under the signed-in user, at the end of that post's
    comments; the answer is the 303 to "/post?id=N" where N reads back,
    by [atoi], as that post id. *)
Theorem comment_handler_leads_back_to_the_post
    (r : server.Request) (user : User.t) (c : Conn Forum) :
  faults c = [] ->
  foreign_keys (main (store c)) = false ->
  server.Method r = server.MethodPost ->
  server.FormValue r "body" <> "" ->
  let postID := server.atoi (server.FormValue r "post_id") in
  let out := server.handleComment server.blank r user c in
  server.Code (fst out) = 303 /\
  server.Location (fst out) = ("/post?id=" ++ server.itoa postID)%string /\
  server.atoi (server.itoa postID) = postID /\
  exists old id,
    fst (models.ListComments postID c) = inr old /\
    fst (models.ListComments postID (snd out)) =
      inr (old ++ [Comment.mk id postID (User.ID user) (server.FormValue r "body") (now c)]).
Proof.
  intros Hf Hk Hm Hb postID out. subst out. unfold server.handleComment.
  rewrite Hm. change (negb (String.eqb server.MethodPost server.MethodPost)) with false.
  cbv iota. rewrite (eqb_empty_false _ Hb). fold postID.
  rewrite CreateComment_run by assumption. cbn [fst snd].
  split; [reflexivity|]. split; [reflexivity|]. split.
  - unfold server.atoi at 1. rewrite Atoi_itoa; [reflexivity|].
    exact (proj1 (Atoi_cases (server.FormValue r "post_id"))).
  - unfold models.ListComments.
    rewrite !Query_no_fault by (assumption || reflexivity). cbn [fst store].
    eexists. eexists. split; [reflexivity|]. simpl. rewrite filter_app. simpl.
    rewrite Z.eqb_refl. reflexivity.
Qed.

Lemma comment_handler_leads_back_to_the_post_witness :
  let r := server.mkRequest "POST" [] [("post_id", "12"); ("body", "nice")] in
  let out := server.handleComment server.blank r (User.mk 7 "a" "b" "h" 0)
               (mkConn 5 [] (empty_forum true)) in
  server.Location (fst out) = "/post?id=12" /\
  server.Code (fst out) = 303.
Proof.
  split; [reflexivity|].
  exact (proj1 (comment_handler_leads_back_to_the_post
           (server.mkRequest "POST" [] [("post_id", "12"); ("body", "nice")])
           (User.mk 7 "a" "b" "h" 0) (mkConn 5 [] (empty_forum true))
           eq_refl eq_refl eq_refl ltac:(discriminate))).
Defined.

(** ** What the writing handlers never store *)

Lemma Exec_err {T} (stmt : Time -> T -> string + T) (c c' : Conn T) (e : error) :
  Exec stmt c = (Some e, c') -> store c' = store c.
Proof.
  destruct c as [n f s]. unfold Exec, next_fault. simpl.
  destruct f as [|[msg|] fs]; simpl; try (destruct (stmt n s)); intros H;
    try discriminate; injection H as _ <-; reflexivity.
Qed.

Lemma insert_categories_main (postID : Z) (cids : list Z) : forall c : Conn Forum,
  main (store (snd (models.insert_categories postID cids c))) = main (store c).
Proof.
  induction cids as [|cid rest IH]; intros c; simpl; [reflexivity|].
  destruct (Exec (models.insert_post_category postID cid) c) as [[e|] c1] eqn:E.
  - simpl. apply Exec_err in E. rewrite E. reflexivity.
  - rewrite IH. apply Exec_ok in E. destruct E as [E _].
    unfold models.insert_post_category in E.
    destruct (existsb _ _); [discriminate|].
    destruct (foreign_keys _ && _); [discriminate|].
    injection E as E. rewrite <- E. reflexivity.
Qed.

(** When [CreatePost] returns nil the posts table has one more row,
    with the title and body passed, and the comments are untouched. *)
Lemma CreatePost_ok_posts (c : Conn Forum) (userID : Z) (title body : string)
    (cids : list Z) :
  snd (fst (models.CreatePost userID title body cids c)) = None ->
  exists id t,
    posts (main (store (snd (models.CreatePost userID title body cids c)))) =
      posts (main (store c)) ++ [Post.mk id userID title body t] /\
    comments (main (store (snd (models.CreatePost userID title body cids c)))) =
      comments (main (store c)).
Proof.
  unfold models.CreatePost.
  pose proof (Begin_store c) as Hb.
  destruct (Begin c) as [[e|] c1]; simpl in *; [discriminate|].
  destruct (Exec (models.insert_post userID title body) c1) as [[e|] c2] eqn:E; simpl;
    [discriminate|].
  apply Exec_ok in E. destruct E as [E _]. unfold models.insert_post in E.
  destruct (foreign_keys _ && _); [discriminate|]. injection E as E.
  pose proof (insert_categories_main (posts_seq (store c2)) cids c2) as Hmain.
  destruct (models.insert_categories (posts_seq (store c2)) cids c2) as [[e|] c3]; simpl in *;
    [discriminate|].
  unfold Commit, next_fault.
  destruct (faults c3) as [|[msg|] fs]; simpl; try discriminate; intros _;
    rewrite Hmain, <- E, Hb; simpl; eexists; eexists; split; reflexivity.
Qed.

Lemma do_write_keeps_nothing_blank (q : write_request) (c : Conn Forum) :
  nothing_blank (store c) -> nothing_blank (store (do_write q c)).
Proof.
  intros [Hp Hc]. destruct q as [r user|r user]; simpl.
  - unfold server.handleNewPost.
    destruct (String.eqb (server.Method r) server.MethodGet); [split; assumption|].
    destruct (String.eqb (server.Method r) server.MethodPost); [|split; assumption].
    destruct (String.eqb (server.FormValue r "title") "") eqn:Et; [split; assumption|].
    destruct (String.eqb (server.FormValue r "body") "") eqn:Eb; [split; assumption|].
    cbn [orb].
    pose proof (CreatePost_store_cases c (User.ID user)
                  (server.FormValue r "title") (server.FormValue r "body")
                  (server.form_categories r)) as Herr.
    pose proof (CreatePost_ok_posts c (User.ID user)
                  (server.FormValue r "title") (server.FormValue r "body")
                  (server.form_categories r)) as Hok.
    destruct (models.CreatePost _ _ _ _ c) as [[id [e|]] c1]; cbn [fst snd] in *.
    + destruct Herr as [Herr|Herr]; [|discriminate]. rewrite Herr. split; assumption.
    + destruct (Hok eq_refl) as [i [t [Eposts Ecomments]]].
      unfold nothing_blank. rewrite Eposts, Ecomments. split; [|exact Hc].
      apply Forall_app. split; [exact Hp|]. constructor; [|constructor]. simpl.
      apply String.eqb_neq in Et. apply String.eqb_neq in Eb. auto.
  - unfold server.handleComment.
    destruct (negb (String.eqb (server.Method r) server.MethodPost)); [split; assumption|].
    destruct (String.eqb (server.FormValue r "body") "") eqn:Eb; [split; assumption|].
    destruct (models.CreateComment _ _ _ c) as [[e|] c1] eqn:E; cbn [fst snd].
    + unfold models.CreateComment in E. apply Exec_err in E. unfold nothing_blank.
      rewrite E. split; assumption.
    + unfold models.CreateComment in E. apply Exec_ok in E. destruct E as [E _].
      unfold models.insert_comment in E.
      destruct (foreign_keys _ && _); [discriminate|]. injection E as E.
      unfold nothing_blank. rewrite <- E. simpl. split; [exact Hp|].
      apply Forall_app. split; [exact Hc|]. constructor; [|constructor]. simpl.
      apply String.eqb_neq in Eb. exact Eb.
Qed.

(** X23. The writing handlers never store a blank.  Starting from the
    tables of a new database, after any sequence of new-post and comment
    requests, whatever their methods and form fields and whatever the
    storage faults, every post has a title and a body and every comment
    has a body. *)
Theorem handlers_store_nothing_blank
    (email_first : bool) (t : Time) (fs : list (option string))
    (qs : list write_request) :
  nothing_blank (store (run_writes qs (mkConn t fs (empty_forum email_first)))).
Proof.
  assert (H : forall c, nothing_blank (store c) -> nothing_blank (store (run_writes qs c))).
  { induction qs as [|q qs IH]; intros c Hc; simpl; [exact Hc|].
    apply IH, do_write_keeps_nothing_blank, Hc. }
  apply H. split; constructor.
Qed.

(** ** Reading one post *)

(** X25. [GetPost] fails only on the post itself: it returns an error
    exactly when the lookup of the post is hit by a storage fault or no
    post has the id (then the error is [sql.ErrNoRows]); a failure of the
    categories query is swallowed and the post comes back without
    categories. *)
Theorem GetPost_fails_only_on_the_post (id : Z) (c : Conn Forum) :
  ((exists e, fst (models.GetPost id c) = inl e) <->
   hd None (faults c) <> None \/ post_exists id (main (store c)) = false) /\
  (hd None (faults c) = None -> post_exists id (main (store c)) = false ->
   fst (models.GetPost id c) = inl ErrNoRows) /\
  (forall p msg fs, faults c = None :: Some msg :: fs ->
     find (fun p => Post.ID p =? id) (posts (main (store c))) = Some p ->
     fst (models.GetPost id c) = inr (p, [])).
Proof.
  destruct c as [n f s]. unfold models.GetPost, QueryRow, Query, next_fault, post_exists.
  simpl.
  assert (Hfind : forall p, find (fun p => Post.ID p =? id) (posts (main s)) = Some p ->
                            existsb (fun p => Post.ID p =? id) (posts (main s)) = true).
  { intros p H. apply find_some in H. apply existsb_exists. exists p. exact H. }
  split; [|split].
  - destruct f as [|[msg|] fs]; simpl.
    + destruct (find _ (posts (main s))) as [p|] eqn:F; simpl.
      * rewrite (Hfind p eq_refl). split; [intros [e He]; discriminate|].
        intros [H|H]; [congruence | discriminate].
      * split; [intros _; right; apply not_true_is_false; intros E;
                apply find_some_existsb in E; destruct E as [a [Ha _]]; congruence|].
        intros _. eexists. reflexivity.
    + split; [intros _; left; discriminate | intros _; eexists; reflexivity].
    + destruct (find _ (posts (main s))) as [p|] eqn:F; simpl.
      * rewrite (Hfind p eq_refl).
        split; [intros [e He]; destruct fs as [|[m|] fs]; discriminate|].
        intros [H|H]; [congruence | discriminate].
      * split; [intros _; right; apply not_true_is_false; intros E;
                apply find_some_existsb in E; destruct E as [a [Ha _]]; congruence|].
        intros _. eexists. reflexivity.
  - intros Hhd Hno.
    destruct f as [|[msg|] fs]; simpl in *; try discriminate;
      (destruct (find _ (posts (main s))) as [p|] eqn:F; simpl; [|reflexivity];
       rewrite (Hfind p eq_refl) in Hno; discriminate).
  - intros p msg fs Hf Hp. subst f. simpl. rewrite Hp. reflexivity.
Qed.

(** ** strings.Contains *)

Lemma prefix_iff_append (sub s : string) :
  String.prefix sub s = true <-> exists post, s = (sub ++ post)%string.
Proof.
  revert s. induction sub as [|a sub IH]; intros s; simpl.
  - split; [intros _; exists s; reflexivity | intros _; destruct s; reflexivity].
  - destruct s as [|b s]; [split; [discriminate | intros [post H]; discriminate]|].
    change (String.prefix (String a sub) (String b s))
      with (if ascii_dec a b then String.prefix sub s else false).
    destruct (ascii_dec a b) as [->|Hne].
    + rewrite IH. split; intros [post H]; exists post; [rewrite H | injection H]; auto.
    + split; [discriminate | intros [post H]; injection H; intros; congruence].
Qed.

(** X24. [contains] is the substring test: it answers true exactly when
    the string is some prefix, then the pattern, then some suffix. *)
Theorem contains_iff_substring (s sub : string) :
  contains s sub = true <-> exists pre post, s = (pre ++ sub ++ post)%string.
Proof.
  induction s as [|a s IH]; cbn [contains].
  - rewrite orb_false_r, prefix_iff_append. split.
    + intros [post H]. exists "", post. exact H.
    + intros [pre [post H]]. destruct pre; [exists post; exact H | discriminate].
  - rewrite orb_true_iff, prefix_iff_append, IH. split.
    + intros [[post H]|[pre [post H]]].
      * exists "", post. exact H.
      * exists (String a pre), post. simpl. rewrite H. reflexivity.
    + intros [pre [post H]]. destruct pre as [|b pre]; simpl in H.
      * left. exists post. exact H.
      * right. injection H as _ H. exists pre, post. exact H.
Qed.

(** ** A like posted with a live session *)

Lemma currentUser_run (r : server.Request) (c : DB) (token : string) :
  faults c = [] ->
  server.Request_Cookie r server.CookieName = Some token ->
  server.currentUser r c =
    (match session_row token (store c) with
     | None => None
     | Some sess =>
         if negb (server.is_nil (Session.RevokedAt sess)) || (Session.ExpiresAt sess <? now c)
         then None
         else user_row (Session.UserID sess) (store c)
     end, c).
Proof.
  intros Hf Hck. unfold server.currentUser. rewrite Hck.
  unfold models.GetSession. rewrite QueryRow_no_fault by exact Hf.
  fold (session_row token (store c)).
  destruct (session_row token (store c)) as [sess|]; [|reflexivity].
  destruct (negb (server.is_nil (Session.RevokedAt sess))
            || (Session.ExpiresAt sess <? now c)); [reflexivity|].
  rewrite QueryRow_no_fault by exact Hf.
  fold (user_row (Session.UserID sess) (store c)).
  destruct (user_row (Session.UserID sess) (store c)); reflexivity.
Qed.

(** X27. A like is recorded under the owner of the session.  A POST to
    the like route with a live session (unrevoked, not expired, owner in
    [users]), a button value, no fault pending and foreign keys off
    passes the middleware, answers 303 back to the post, and moves the
    stance of the pair (post id of the form, user id of the session) by
    the toggle rule; nothing is written under any other user. *)
Theorem like_is_recorded_for_the_session_owner
    (r : server.Request) (c : DB) (token : string) (sess : Session.t) (e : Event) :
  faults c = [] ->
  foreign_keys (store c) = false ->
  server.Method r = server.MethodPost ->
  server.Request_Cookie r server.CookieName = Some token ->
  session_row token (store c) = Some sess ->
  Session.RevokedAt sess = None ->
  now c <= Session.ExpiresAt sess ->
  user_exists (Session.UserID sess) (store c) = true ->
  server.atoi (server.FormValue r "value") = event_value e ->
  let postID := server.atoi (server.FormValue r "post_id") in
  let out := server.requireAuth server.handlePostLike server.blank r c in
  server.Code (fst out) = 303 /\
  server.Location (fst out) = ("/post?id=" ++ server.itoa postID)%string /\
  post_likes (store (snd out)) =
    models.upsert postID (Session.UserID sess) (event_value e) (post_likes (store c)) /\
  stance postID (Session.UserID sess) (post_likes (store (snd out))) =
    spec_toggle (stance postID (Session.UserID sess) (post_likes (store c))) e /\
  (forall p u, u <> Session.UserID sess ->
     like_row p u (post_likes (store (snd out))) = like_row p u (post_likes (store c))).
Proof.
  intros Hf Hk Hm Hck Hrow Hrev Hexp Hex Hval postID out. subst out.
  unfold server.requireAuth. rewrite (currentUser_run r c token Hf Hck), Hrow, Hrev.
  destruct (Z.ltb_spec (Session.ExpiresAt sess) (now c)) as [L|L]; [lia|]. simpl.
  unfold user_exists in Hex. apply find_some_existsb in Hex.
  destruct Hex as [u [Hu Hid]]. unfold user_row. rewrite Hu.
  apply Z.eqb_eq in Hid.
  unfold server.handlePostLike. rewrite Hm.
  change (negb (String.eqb server.MethodPost server.MethodPost)) with false. cbv iota.
  rewrite Hval. fold postID.
  assert (Hgate : negb (event_value e =? 1) && negb (event_value e =? -1) = false)
    by (destruct e; reflexivity).
  rewrite Hgate, Hid. rewrite TogglePostLike_run by assumption. cbn [fst snd store].
  split; [reflexivity|]. split; [reflexivity|]. split; [reflexivity|]. split.
  - simpl. rewrite stance_upsert. symmetry. apply spec_toggle_table.
  - intros p u' Hne. simpl. apply like_row_upsert_other. congruence.
Qed.

Lemma like_is_recorded_for_the_session_owner_witness :
  let alice := User.mk 4 "a@b.com" "alice" "h" 0 in
  let c := mkConn 50 []
             (with_sessions [Session.mk "s0" 4 5 100 None]
                (with_users [alice] 4 (empty_store true))) in
  let r := server.mkRequest "POST" [("session_id", "s0")]
             [("post_id", "1"); ("value", "-1")] in
  let out := server.requireAuth server.handlePostLike server.blank r c in
  post_likes (store (snd out)) = [Like.mk 1 4 (-1)] /\
  server.Code (fst out) = 303.
Proof.
  split; [reflexivity|].
  exact (proj1 (like_is_recorded_for_the_session_owner
           (server.mkRequest "POST" [("session_id", "s0")]
              [("post_id", "1"); ("value", "-1")])
           (mkConn 50 []
              (with_sessions [Session.mk "s0" 4 5 100 None]
                 (with_users [User.mk 4 "a@b.com" "alice" "h" 0] 4 (empty_store true))))
           "s0" (Session.mk "s0" 4 5 100 None) PressDislike
           eq_refl eq_refl eq_refl eq_refl eq_refl eq_refl
           ltac:(simpl; lia) eq_refl eq_refl)).
Defined.

(** ** The delete-then-insert variant touches one pair *)

(** X26. [ToggleLike] rewrites the rows of its own (user, post) pair
    only: whatever it returns and whatever the storage faults, the rows
    of every other pair are the same rows in the same order. *)
Theorem ToggleLike_touches_one_pair
    (c : utils.DataBase) (userUUID : string) (postID : Z) (like : bool)
    (otherUUID : string) (otherPost : Z) :
  (otherUUID, otherPost) <> (userUUID, postID) ->
  interactions_of otherUUID otherPost (store (snd (utils.ToggleLike userUUID postID like c))) =
  interactions_of otherUUID otherPost (store c).
Proof.
  intros Hne.
  assert (Hnew : forall l d, utils.same_pair otherUUID otherPost
                               (utils.mkInteraction userUUID postID l d) = false).
  { intros l d. destruct (utils.same_pair _ _ _) eqn:E; [|reflexivity].
    apply same_pair_eq in E. unfold pair_key in E. simpl in E. congruence. }
  assert (Hothers : interactions_of otherUUID otherPost
                      (filter (fun i => negb (utils.same_pair userUUID postID i)) (store c)) =
                    interactions_of otherUUID otherPost (store c)).
  { unfold interactions_of. induction (store c) as [|i l IH]; simpl; [reflexivity|].
    destruct (utils.same_pair userUUID postID i) eqn:A; simpl.
    - destruct (utils.same_pair otherUUID otherPost i) eqn:B; [|exact IH].
      apply same_pair_eq in A. apply same_pair_eq in B. congruence.
    - destruct (utils.same_pair otherUUID otherPost i); [f_equal|]; exact IH. }
  destruct (ToggleLike_store userUUID postID like c) as [[_ E]|[[_ E]|[_ E]]]; rewrite E.
  - reflexivity.
  - exact Hothers.
  - unfold interactions_of in *. rewrite filter_app, Hothers. simpl.
    rewrite Hnew. apply app_nil_r.
Qed.

Lemma ToggleLike_touches_one_pair_witness :
  let c := mkConn 0 [] [utils.mkInteraction "u1" 7 true false;
                        utils.mkInteraction "u2" 7 false true] in
  interactions_of "u2" 7 (store (snd (utils.ToggleLike "u1" 7 false c))) =
  [utils.mkInteraction "u2" 7 false true].
Proof.
  refine (eq_trans (ToggleLike_touches_one_pair
            (mkConn 0 [] [utils.mkInteraction "u1" 7 true false;
                          utils.mkInteraction "u2" 7 false true])
            "u1" 7 false "u2" 7 _) eq_refl).
  discriminate.
Defined.
